(** * MultiQC modules [adapterRemoval] and [pycoqc]: embedding and properties

    The two plugins of [src/multiqc/modules] are embedded as functions over
    explicit module state.  Python exceptions are values of type [exn]; a
    method of a module object is a state transformer that either returns or
    raises, keeping in both cases the attributes it had mutated so far.

    Text is a [string] whose characters are code points below 256.  The
    builtins follow Python 3: [int] reads arbitrary-precision decimals (the
    digit-count limit of recent interpreters is not modelled), [float] is
    an interface ([PyFloat]) with a binary64 instance. *)

From stdpp Require Import gmap strings list fin_maps.
From Stdlib Require Import ZArith Ascii.
From Stdlib Require Floats.SpecFloat.

Local Open Scope string_scope.
Local Open Scope Z_scope.

(** ** Exceptions and results *)

Inductive exn : Type :=
  | UserWarning
  | KeyError
  | IndexError
  | ValueError
  | TypeError
  | ZeroDivisionError
  | OverflowError
  | YAMLError.

#[global] Instance exn_eq_dec : EqDecision exn.
Proof. solve_decision. Defined.

(** The value of a Python expression: a result or a raised exception. *)
Inductive result (A : Type) : Type :=
  | Ok (a : A)
  | Err (e : exn).
Arguments Ok {A} a.
Arguments Err {A} e.

Definition rbind {A B : Type} (r : result A) (k : A → result B) : result B :=
  match r with
  | Ok a => k a
  | Err e => Err e
  end.

Definition of_option {A : Type} (e : exn) (o : option A) : result A :=
  match o with
  | Some a => Ok a
  | None => Err e
  end.

(** [list(map(f, l))] for a fallible [f]: the first failure is raised. *)
Fixpoint rmap {A B : Type} (f : A → result B) (l : list A) : result (list B) :=
  match l with
  | [] => Ok []
  | a :: l' => rbind (f a) (λ b, rbind (rmap f l') (λ bs, Ok (b :: bs)))
  end.

(** ** Python sequences *)

(** [l[i]] on a list: negative indices count from the end. *)
Definition py_index {A : Type} (l : list A) (i : Z) : result A :=
  let n := Z.of_nat (List.length l) in
  if bool_decide (0 ≤ i) then of_option IndexError (l !! Z.to_nat i)
  else if bool_decide (0 ≤ n + i) then of_option IndexError (l !! Z.to_nat (n + i))
  else Err IndexError.

(** ** Python strings *)

Module PyStr.

Definition newline : ascii := "010"%char.
Definition tab : ascii := "009"%char.
Definition NL : string := String newline "".
Definition TAB : string := String tab "".

Definition is_empty (s : string) : bool :=
  match s with
  | EmptyString => true
  | String _ _ => false
  end.

(** [s.rstrip(chars)], [s.lstrip(chars)] and [s.strip(chars)], the set of
    characters given as a predicate. *)
Fixpoint rstrip (p : ascii → bool) (s : string) : string :=
  match s with
  | EmptyString => EmptyString
  | String c s' =>
      let r := rstrip p s' in
      if p c && is_empty r then EmptyString else String c r
  end.

Fixpoint lstrip (p : ascii → bool) (s : string) : string :=
  match s with
  | EmptyString => EmptyString
  | String c s' => if p c then lstrip p s' else s
  end.

Definition strip (p : ascii → bool) (s : string) : string :=
  lstrip p (rstrip p s).

Definition one_of (chars : string) (c : ascii) : bool :=
  bool_decide (c ∈ String.list_ascii_of_string chars).

Fixpoint startswith (pre s : string) : bool :=
  match pre, s with
  | EmptyString, _ => true
  | String a pre', String b s' => bool_decide (a = b) && startswith pre' s'
  | String _ _, EmptyString => false
  end.

(** [s.split(sep)] for a non-empty separator: occurrences are found from
    the left and do not overlap.  [skip] counts the characters of a
    separator that has just been matched and are still to be passed over;
    [cur] is the piece being collected. *)
Fixpoint split_from (sep : string) (skip : nat) (cur : string) (s : string)
  : list string :=
  match s with
  | EmptyString => [cur]
  | String c s' =>
      match skip with
      | S k => split_from sep k cur s'
      | O =>
          if startswith sep s
          then cur :: split_from sep (String.length sep - 1) "" s'
          else split_from sep 0 (cur ++ String c "") s'
      end
  end.

Definition split (sep s : string) : list string := split_from sep 0 "" s.

(** Whitespace as [int] and [str.strip()] see it, for code points < 256. *)
Definition isspace (c : ascii) : bool :=
  let n := nat_of_ascii c in
  bool_decide ((9 ≤ n ≤ 13)%nat ∨ (28 ≤ n ≤ 32)%nat ∨ n = 133%nat ∨ n = 160%nat).

Definition isdigit (c : ascii) : bool :=
  let n := nat_of_ascii c in bool_decide (48 ≤ n ≤ 57)%nat.

Definition digit_val (c : ascii) : Z := Z.of_nat (nat_of_ascii c) - 48.

(** Decimal digits in which single underscores may separate digits.
    [after_digit] tells whether the previous character was a digit. *)
Fixpoint digits (acc : Z) (after_digit : bool) (s : string) : option Z :=
  match s with
  | EmptyString => if after_digit then Some acc else None
  | String c s' =>
      if isdigit c then digits (10 * acc + digit_val c) true s'
      else if bool_decide (c = "_"%char) && after_digit then digits acc false s'
      else None
  end.

(** [int(s)]: surrounding whitespace, an optional sign, digits. *)
Definition int (s : string) : result Z :=
  let body := strip isspace s in
  let r :=
    match body with
    | String "-" d => Z.opp <$> digits 0 false d
    | String "+" d => digits 0 false d
    | _ => digits 0 false body
    end in
  of_option ValueError r.

End PyStr.

(** ** The builtin [float]

    The operations of [float] the two modules use.  [float_of_int] is
    [float(n)], which raises [OverflowError] ([None]) on an integer beyond
    the range of a double; [float_div] is the quotient for a divisor that
    is not zero, the check for zero being made by the caller as the
    interpreter does; [float_round2 x] is [round(x, 2)]. *)
Class PyFloat : Type := {
  float : Type;
  float_of_int : Z → option float;
  float_100 : float;
  float_mul : float → float → float;
  float_sub : float → float → float;
  float_div : float → float → float;
  float_is_zero : float → bool;
  float_round2 : float → float;
  float_of_int_0 : is_Some (float_of_int 0);
  float_of_int_is_zero :
    ∀ n x, float_of_int n = Some x → float_is_zero x = bool_decide (n = 0)
}.

(** IEEE 754 binary64 on the specification floats of the standard library. *)
Module Binary64.
Import SpecFloat.

Definition prec : Z := 53.
Definition emax : Z := 1024.

Definition of_int (n : Z) : option spec_float :=
  match binary_normalize prec emax n 0 false with
  | S754_infinity _ => None
  | x => Some x
  end.

Definition is_zero (x : spec_float) : bool :=
  match x with
  | S754_zero _ => true
  | _ => false
  end.

Definition hundred : spec_float :=
  Eval vm_compute in binary_normalize prec emax 100 0 false.

(** [round(x, 2)]: the exact value of [x] is rounded to a multiple of
    1/100, ties to the even multiple, and that decimal is read back as the
    nearest double.  Zeros, infinities and NaN round to themselves. *)
Definition round2 (x : spec_float) : spec_float :=
  match x with
  | S754_finite s m e =>
      if bool_decide (0 ≤ e) then x
      else
        let num := Z.pos m * 100 in
        let den := 2 ^ (- e) in
        let q := num `div` den in
        let r := num `mod` den in
        let up := bool_decide (den < 2 * r)
                  || (bool_decide (2 * r = den) && Z.odd q) in
        match (if up then q + 1 else q) with
        | Z.pos k =>
            SFdiv prec emax (S754_finite s k 0) (S754_finite false 100 0)
        | _ => S754_zero s
        end
  | _ => x
  end.

End Binary64.

(** ** Python values

    The objects the modules handle: the entries of [result_data] and the
    documents [yaml.load] returns.  A mapping is the list of its items in
    insertion order, its keys pairwise distinct and, as in the documents
    pycoQC writes, strings or integers. *)

Inductive pykey : Type :=
  | KStr (s : string)
  | KInt (n : Z).

#[global] Instance pykey_eq_dec : EqDecision pykey.
Proof. solve_decision. Defined.

Section Values.
Context {F : PyFloat}.

#[warnings="-register-all"]
Inductive pyval : Type :=
  | PNone
  | PBool (b : bool)
  | PInt (n : Z)
  | PFloat (x : float)
  | PStr (s : string)
  | PList (l : list pyval)
  | PDict (items : list (pykey * pyval)).

Definition key_val (k : pykey) : pyval :=
  match k with
  | KStr s => PStr s
  | KInt n => PInt n
  end.

Fixpoint assoc {A : Type} (k : pykey) (items : list (pykey * A)) : option A :=
  match items with
  | [] => None
  | (k', v) :: rest => if decide (k' = k) then Some v else assoc k rest
  end.

Definition chars (s : string) : list pyval :=
  (λ c, PStr (String c "")) <$> String.list_ascii_of_string s.

(** [v[k]] for a string or integer [k]. *)
Definition py_getitem (v : pyval) (k : pykey) : result pyval :=
  match v, k with
  | PDict items, _ => of_option KeyError (assoc k items)
  | PList l, KInt i => py_index l i
  | PStr s, KInt i => py_index (chars s) i
  | _, _ => Err TypeError
  end.

(** [float(v)] and [a - b] on numbers; [bool] counts as [int]. *)
Definition as_int (v : pyval) : option Z :=
  match v with
  | PInt n => Some n
  | PBool b => Some (if b then 1 else 0)
  | _ => None
  end.

Definition to_float (n : Z) : result float :=
  of_option OverflowError (float_of_int n).

Definition as_float (v : pyval) : result float :=
  match v with
  | PFloat x => Ok x
  | _ => match as_int v with
         | Some n => to_float n
         | None => Err TypeError
         end
  end.

Definition py_sub (a b : pyval) : result pyval :=
  match as_int a, as_int b with
  | Some x, Some y => Ok (PInt (x - y))
  | _, _ =>
      match a, b with
      | (PFloat _ | PInt _ | PBool _), (PFloat _ | PInt _ | PBool _) =>
          rbind (as_float a) (λ x, rbind (as_float b) (λ y,
            Ok (PFloat (float_sub x y))))
      | _, _ => Err TypeError
      end
  end.

(** [iter(v)]: the elements of a list, the characters of a string, the
    keys of a mapping. *)
Definition py_iter (v : pyval) : result (list pyval) :=
  match v with
  | PList l => Ok l
  | PStr s => Ok (chars s)
  | PDict items => Ok (key_val ∘ fst <$> items)
  | _ => Err TypeError
  end.

Definition hashable (v : pyval) : bool :=
  match v with
  | PList _ | PDict _ => false
  | _ => true
  end.

(** [dict(zip(xs, ys))], given as the pairs it is built from, in order: a
    later pair replaces an earlier one whose key is equal. *)
Definition dict_zip (xs ys : pyval) : result (list (pyval * pyval)) :=
  rbind (py_iter xs) (λ kx, rbind (py_iter ys) (λ vy,
    let pairs := zip kx vy in
    if forallb (hashable ∘ fst) pairs then Ok pairs else Err TypeError)).

End Values.

(** ** Methods: state transformers that return or raise *)

Inductive outcome (S A : Type) : Type :=
  | Returns (a : A) (s : S)
  | Raises (e : exn) (s : S).
Arguments Returns {S A} a s.
Arguments Raises {S A} e s.

Definition M (S A : Type) : Type := S → outcome S A.

Section Monad.
Context {S : Type}.

Definition ret {A} (a : A) : M S A := λ s, Returns a s.
Definition raise {A} (e : exn) : M S A := λ s, Raises e s.
Definition bind {A B} (m : M S A) (k : A → M S B) : M S B :=
  λ s, match m s with
       | Returns a s' => k a s'
       | Raises e s' => Raises e s'
       end.
Definition lift {A} (r : result A) : M S A :=
  match r with
  | Ok a => ret a
  | Err e => raise e
  end.
Definition get : M S S := λ s, Returns s s.
Definition gets {A} (f : S → A) : M S A := λ s, Returns (f s) s.
Definition modify (f : S → S) : M S unit := λ s, Returns tt (f s).

(** [for x in l: body(x)] threading a local [acc]. *)
Fixpoint for_each {A B} (body : B → A → M S B) (acc : B) (l : list A) : M S B :=
  match l with
  | [] => ret acc
  | x :: l' => bind (body acc x) (λ acc', for_each body acc' l')
  end.

Definition outcome_state {A} (o : outcome S A) : S :=
  match o with
  | Returns _ s => s
  | Raises _ s => s
  end.

(** What a caller sees of an outcome: the value or the exception. *)
Definition observed {A} (o : outcome S A) : result A :=
  match o with
  | Returns a _ => Ok a
  | Raises e _ => Err e
  end.
End Monad.

Notation "'let*' x ':=' m 'in' k" := (bind m (λ x, k))
  (at level 10, x name, m at level 100, k at level 200).

(** A log file as [find_log_files] yields it: the keys ['s_name'], ['fn'] and
    ['f'].  With [filehandles=True] the content [f] is the sequence of lines
    the handle iterates over; without it, the text of the file. *)
Module File.
Record t (C : Type) : Type := { s_name : string; fn : string; f : C }.
Arguments s_name {C} _.
Arguments fn {C} _.
Arguments f {C} _.
End File.

Inductive level : Type := DEBUG | INFO | WARNING.
Definition log_record : Type := level * string.

(** * [multiqc/modules/adapterRemoval/adapterRemoval.py] *)

Module AdapterRemoval.
Import PyStr.

Section WithFloat.
Context {F : PyFloat}.

(** The values ['single'] and ['paired'] of [self.__read_type]. *)
Inductive read_type : Type := single | paired.

#[global] Instance read_type_eq_dec : EqDecision read_type.
Proof. solve_decision. Defined.

(** The attributes of the module object.  [__read_type] and [__collapsed]
    start as [None]; [s_name] too, but it is assigned from the file before
    anything reads it, and so is [result_data], which [parse_settings_file]
    creates. *)
Record self : Type := {
  __read_type : option read_type;
  __collapsed : option bool;
  s_name : string;
  adapter_removal_data : gmap string (gmap string pyval);
  len_dist_plot_data : gmap string (gmap string (gmap Z Z));
  result_data : gmap string pyval;
  log : list log_record
}.

Definition with___read_type (v : option read_type) (o : self) : self :=
  {| __read_type := v; __collapsed := __collapsed o; s_name := s_name o;
     adapter_removal_data := adapter_removal_data o;
     len_dist_plot_data := len_dist_plot_data o;
     result_data := result_data o; log := log o |}.

Definition with___collapsed (v : option bool) (o : self) : self :=
  {| __read_type := __read_type o; __collapsed := v; s_name := s_name o;
     adapter_removal_data := adapter_removal_data o;
     len_dist_plot_data := len_dist_plot_data o;
     result_data := result_data o; log := log o |}.

Definition with_s_name (v : string) (o : self) : self :=
  {| __read_type := __read_type o; __collapsed := __collapsed o; s_name := v;
     adapter_removal_data := adapter_removal_data o;
     len_dist_plot_data := len_dist_plot_data o;
     result_data := result_data o; log := log o |}.

Definition with_adapter_removal_data (v : gmap string (gmap string pyval))
    (o : self) : self :=
  {| __read_type := __read_type o; __collapsed := __collapsed o;
     s_name := s_name o; adapter_removal_data := v;
     len_dist_plot_data := len_dist_plot_data o;
     result_data := result_data o; log := log o |}.

Definition with_len_dist_plot_data (v : gmap string (gmap string (gmap Z Z)))
    (o : self) : self :=
  {| __read_type := __read_type o; __collapsed := __collapsed o;
     s_name := s_name o; adapter_removal_data := adapter_removal_data o;
     len_dist_plot_data := v;
     result_data := result_data o; log := log o |}.

Definition with_result_data (v : gmap string pyval) (o : self) : self :=
  {| __read_type := __read_type o; __collapsed := __collapsed o;
     s_name := s_name o; adapter_removal_data := adapter_removal_data o;
     len_dist_plot_data := len_dist_plot_data o;
     result_data := v; log := log o |}.

Definition add_log (r : log_record) (o : self) : self :=
  {| __read_type := __read_type o; __collapsed := __collapsed o;
     s_name := s_name o; adapter_removal_data := adapter_removal_data o;
     len_dist_plot_data := len_dist_plot_data o;
     result_data := result_data o; log := (log o ++ [r])%list |}.

(** The seven keys of [len_dist_plot_data], spelled as in the source. *)
Definition categories : list string :=
  ["mate1"; "mate2"; "singleton"; "collapsed"; "collapsed_truncated";
   "discarged"; "all"].

(** The attributes [__init__] sets before its loop (lines 26-39). *)
Definition init_self : self :=
  {| __read_type := None; __collapsed := None; s_name := "";
     adapter_removal_data := ∅;
     len_dist_plot_data := list_to_map ((λ c, (c, ∅)) <$> categories);
     result_data := ∅; log := [] |}.

(** *** [parse_settings_file], lines 69-104 *)

(** The loop over the lines (80-99).  [settings_data[block_title].append]
    looks the block up, which is where a [KeyError] would come from. *)
Definition append_line (settings_data : gmap string (list string))
    (block_title line : string) : result (gmap string (list string)) :=
  rbind (of_option KeyError (settings_data !! block_title)) (λ l,
    Ok (<[block_title := (l ++ [line])%list]> settings_data)).

Definition to_header (settings_data : gmap string (list string))
    (line : string) : result (gmap string (list string) * option string) :=
  rbind (append_line settings_data "header" line) (λ sd, Ok (sd, Some "header")).

Fixpoint read_blocks (lines : list string)
    (settings_data : gmap string (list string)) (block_title : option string)
  : result (gmap string (list string)) :=
  match lines with
  | [] => Ok settings_data
  | line :: rest =>
      let line := rstrip (one_of NL) line in
      let continue '(sd, bt) := read_blocks rest sd bt in
      if is_empty line then read_blocks rest settings_data block_title
      else
        match block_title with
        | None => rbind (to_header settings_data line) continue
        | Some title =>
            if is_empty title then rbind (to_header settings_data line) continue
            else if startswith "[" line then
              let title' := strip (one_of "[]") line in
              read_blocks rest (<[title' := []]> settings_data) (Some title')
            else
              rbind (append_line settings_data title line) (λ sd,
                read_blocks rest sd block_title)
        end
  end.

Definition init_result_data : gmap string pyval :=
  list_to_map [("total", PNone); ("unaligned", PNone); ("aligned", PNone);
               ("reads_total", PNone); ("retained", PNone);
               ("percent_aligned", PNone)].

(** *** [set_ar_type], lines 114-123 *)

Definition skip_message (name : string) : string :=
  "Case single-end and collapse is not implemented -> File " ++ name ++ " skipped".

Definition set_ar_type (len_dist_data : list string) : M self unit :=
  let* first := lift (py_index len_dist_data 0) in
  let head_line := split TAB (rstrip (one_of NL) first) in
  let* third := lift (py_index head_line 2) in
  let* _ := modify (with___read_type
              (Some (if decide (third = "Mate2") then paired else single))) in
  let* third_last := lift (py_index head_line (-3)) in
  let* _ := modify (with___collapsed
              (Some (bool_decide (third_last = "CollapsedTruncated")))) in
  let* o := get in
  if bool_decide (__read_type o = Some single) && default false (__collapsed o)
  then
    let* _ := modify (add_log (WARNING, skip_message (s_name o))) in
    raise UserWarning
  else ret tt.

(** *** [set_trim_stat], lines 125-167 *)

Definition required : list string :=
  ["total"; "unaligned"; "aligned"; "discarded_m1"; "singleton_m1"; "retained";
   "discarded_m2"; "singleton_m2"; "full-length_cp"; "truncated_cp"].

Definition data_pattern (o : self) : gmap string Z :=
  let base : gmap string Z :=
    list_to_map [("total", 0); ("unaligned", 1); ("aligned", 2);
                 ("discarded_m1", 3); ("singleton_m1", 4); ("retained", 6)] in
  if bool_decide (__read_type o = Some paired) then
    let p := <["singleton_m2" := 6]> (<["discarded_m2" := 5]> base) in
    if negb (default false (__collapsed o)) then <["retained" := 8]> p
    else <["retained" := 10]> (<["truncated_cp" := 9]> (<["full-length_cp" := 8]> p))
  else base.

Definition set_item (field : string) (v : pyval) : M self unit :=
  modify (λ o, with_result_data (<[field := v]> (result_data o)) o).

(** [self.result_data[field]] where the entry is one of the counts. *)
Definition get_count (field : string) : M self Z :=
  let* o := get in
  match result_data o !! field with
  | Some (PInt n) => ret n
  | Some _ => raise TypeError
  | None => raise KeyError
  end.

Definition read_field (trim_data : list string) (pattern : gmap string Z)
    (field : string) : result Z :=
  match pattern !! field with
  | Some i =>
      rbind (py_index trim_data i) (λ tmp,
      rbind (py_index (split ": " tmp) 1) (λ value, int value))
  | None => Ok 0
  end.

Definition set_trim_stat (trim_data : list string) : M self unit :=
  let* o := get in
  let pattern := data_pattern o in
  let* _ := for_each (λ _ field,
              let* n := lift (read_field trim_data pattern field) in
              set_item field (PInt n)) tt required in
  let twice (n : Z) :=
    if bool_decide (__read_type o = Some paired) then n * 2 else n in
  let* total := get_count "total" in
  let* aligned := get_count "aligned" in
  let* unaligned := get_count "unaligned" in
  let reads_total := twice total in
  let aligned_total := twice aligned in
  let unaligned_total := twice unaligned in
  let* _ := set_item "aligned_total" (PInt aligned_total) in
  let* _ := set_item "unaligned_total" (PInt unaligned_total) in
  let* _ := set_item "reads_total" (PInt reads_total) in
  let* retained := get_count "retained" in
  let* _ := set_item "discarded_total" (PInt (reads_total - retained)) in
  let* retained := get_count "retained" in
  let* singleton_m1 := get_count "singleton_m1" in
  let* singleton_m2 := get_count "singleton_m2" in
  let* _ := set_item "retained_reads"
              (PInt (retained - singleton_m1 - singleton_m2)) in
  let* aligned := get_count "aligned" in
  let* a := lift (to_float aligned) in
  let* total := get_count "total" in
  let* t := lift (to_float total) in
  if float_is_zero t then raise ZeroDivisionError
  else set_item "percent_aligned"
         (PFloat (float_round2 (float_div (float_mul a float_100) t))).

(** *** [set_len_dist], lines 169-213 *)

(** [self.len_dist_plot_data[cat][self.s_name][l_data[0]] = v]: the value
    is at hand, then the two dictionaries are looked up, then the key. *)
Definition store (cat : string) (v : Z) (l_data : list Z) : M self unit :=
  let* o := get in
  let* by_sample := lift (of_option KeyError (len_dist_plot_data o !! cat)) in
  let* by_length := lift (of_option KeyError (by_sample !! s_name o)) in
  let* key := lift (py_index l_data 0) in
  modify (with_len_dist_plot_data
            (<[cat := <[s_name o := <[key := v]> by_length]> by_sample]>
               (len_dist_plot_data o))).

Definition store_column (cat : string) (i : Z) (l_data : list Z) : M self unit :=
  let* v := lift (py_index l_data i) in store cat v l_data.

(** [self.len_dist_plot_data[cat][self.s_name] = dict()] *)
Definition new_sample (cat : string) : M self unit :=
  let* o := get in
  let* by_sample := lift (of_option KeyError (len_dist_plot_data o !! cat)) in
  modify (with_len_dist_plot_data
            (<[cat := <[s_name o := ∅]> by_sample]> (len_dist_plot_data o))).

(** Lines 176-183. *)
Definition init_sample : M self unit :=
  let* o := get in
  let* mate1 := lift (of_option KeyError (len_dist_plot_data o !! "mate1")) in
  if bool_decide (is_Some (mate1 !! s_name o)) then ret tt
  else for_each (λ _ cat, new_sample cat) tt categories.

Definition record_row (l_data : list Z) : M self unit :=
  let* o := get in
  if bool_decide (__read_type o = Some single) then
    if negb (default false (__collapsed o)) then
      let* _ := store_column "mate1" 1 l_data in
      let* _ := store "mate2" 0 l_data in
      let* _ := store "singleton" 0 l_data in
      let* _ := store "collapsed" 0 l_data in
      let* _ := store "collapsed_truncated" 0 l_data in
      let* _ := store_column "discarged" 2 l_data in
      store_column "all" 3 l_data
    else ret tt
  else
    if negb (default false (__collapsed o)) then
      let* _ := store_column "mate1" 1 l_data in
      let* _ := store_column "mate2" 2 l_data in
      let* _ := store_column "singleton" 3 l_data in
      let* _ := store "collapsed" 0 l_data in
      let* _ := store "collapsed_truncated" 0 l_data in
      let* _ := store_column "discarged" 4 l_data in
      store_column "all" 5 l_data
    else
      let* _ := store_column "mate1" 1 l_data in
      let* _ := store_column "mate2" 2 l_data in
      let* _ := store_column "singleton" 3 l_data in
      let* _ := store_column "collapsed" 4 l_data in
      let* _ := store_column "collapsed_truncated" 5 l_data in
      let* _ := store_column "discarged" 6 l_data in
      store_column "all" 7 l_data.

(** [list(map(int, line.rstrip('\n').split('\t')))] *)
Definition row_of_line (line : string) : result (list Z) :=
  rmap int (split TAB (rstrip (one_of NL) line)).

Definition len_dist_row (line : string) : M self unit :=
  let* l_data := lift (row_of_line line) in
  let* _ := init_sample in
  record_row l_data.

Definition set_len_dist (len_dist_data : list string) : M self unit :=
  for_each (λ _ line, len_dist_row line) tt (drop 1 len_dist_data).

(** *** [set_result_data], lines 106-112, and [parse_settings_file] *)

Definition set_result_data (settings_data : gmap string (list string))
  : M self unit :=
  let* len_dist := lift (of_option KeyError (settings_data !! "Length distribution")) in
  let* _ := set_ar_type len_dist in
  let* trim := lift (of_option KeyError (settings_data !! "Trimming statistics")) in
  let* _ := set_trim_stat trim in
  let* len_dist := lift (of_option KeyError (settings_data !! "Length distribution")) in
  set_len_dist len_dist.

Definition parse_settings_file (f : File.t (list string))
  : M self (gmap string pyval) :=
  let* _ := modify (with_result_data init_result_data) in
  let* settings_data := lift (read_blocks (File.f f) {["header" := []]} None) in
  let* _ := set_result_data settings_data in
  gets result_data.

(** *** [__init__], lines 41-53

    The body of the loop: [continue] on [UserWarning] keeps the local
    [parsed_data] as it was and skips the store; any other exception leaves
    [__init__]. *)
Definition store_parsed (parsed_data : option (gmap string pyval)) : M self unit :=
  match parsed_data with
  | Some d =>
      modify (λ o, with_adapter_removal_data
                     (<[s_name o := d]> (adapter_removal_data o)) o)
  | None => ret tt
  end.

Definition process_file (parsed_data : option (gmap string pyval))
    (f : File.t (list string)) : M self (option (gmap string pyval)) :=
  let* _ := modify (with_s_name (File.s_name f)) in
  λ o, match parse_settings_file f o with
       | Raises UserWarning o' => Returns parsed_data o'
       | Raises e o' => Raises e o'
       | Returns d o' =>
           (let* _ := store_parsed (Some d) in ret (Some d)) o'
       end.

Definition process_files (files : list (File.t (list string)))
  : M self (option (gmap string pyval)) :=
  for_each process_file None files.

(** [__init__] up to the point where the data is handed to the framework;
    [analysis_dir] is the text of [config.analysis_dir]. *)
Definition __init__ (analysis_dir : string)
    (files : list (File.t (list string))) : outcome self unit :=
  (let* _ := process_files files in
   let* o := get in
   if bool_decide (size (adapter_removal_data o) = 0%nat) then
     let* _ := modify (add_log (DEBUG, "Could not find any reports in " ++ analysis_dir)) in
     raise UserWarning
   else ret tt) init_self.

End WithFloat.
End AdapterRemoval.

(** * [multiqc/modules/pycoqc/pycoqc.py] *)

(** A dictionary keyed by sample name whose order of insertion matters
    because it is iterated over: assigning to a key that is present keeps
    its place. *)
Module Dict.
Section Dict.
Context {A : Type}.

Definition t : Type := list (string * A).

Fixpoint get (k : string) (d : t) : option A :=
  match d with
  | [] => None
  | (k', v) :: rest => if decide (k' = k) then Some v else get k rest
  end.

Fixpoint set (k : string) (v : A) (d : t) : t :=
  match d with
  | [] => [(k, v)]
  | (k', v') :: rest =>
      if decide (k' = k) then (k, v) :: rest else (k', v') :: set k v rest
  end.

Definition contains (k : string) (d : t) : bool := bool_decide (is_Some (get k d)).

Definition keys (d : t) : list string := fst <$> d.

End Dict.
Arguments t : clear implicits.
End Dict.

Module Pycoqc.

Section WithLoader.
Context {F : PyFloat}.

(** [yaml.load(f, Loader=yaml.FullLoader)]: the document, or [None] when the
    loader rejects the text. *)
Variable yaml_load : string → option pyval.

Record self : Type := {
  pycoqc_data : Dict.t pyval;
  log : list log_record
}.

Definition init_self : self := {| pycoqc_data := []; log := [] |}.

(** *** [parse_logs], lines 227-229 *)
Definition parse_logs (f : string) : result pyval :=
  of_option YAMLError (yaml_load f).

(** *** [setup_data], lines 179-225 *)

(** [v[k1][k2]...] *)
Fixpoint getpath (v : pyval) (path : list pykey) : result pyval :=
  match path with
  | [] => Ok v
  | k :: rest => rbind (py_getitem v k) (λ v', getpath v' rest)
  end.

Definition basecall (reads field : string) : list pykey :=
  [KStr reads; KStr "basecall"; KStr field].
Definition run (reads field : string) : list pykey :=
  [KStr reads; KStr "run"; KStr field].

(** A dictionary display [{k1: e1, ...}]: the values are evaluated and
    stored in order, and the first exception is raised. *)
Fixpoint display_into (m : gmap string pyval)
    (entries : list (string * result pyval)) : result (gmap string pyval) :=
  match entries with
  | [] => Ok m
  | (k, e) :: rest => rbind e (λ v, display_into (<[k := v]> m) rest)
  end.

Definition display (entries : list (string * result pyval))
  : result (gmap string pyval) :=
  display_into ∅ entries.

Definition table_entries (sample_data : pyval) : list (string * result pyval) :=
  [("all_median_read_length",
      getpath sample_data (basecall "All Reads" "len_percentiles" ++ [KInt 50])%list);
   ("all_median_phred_score",
      getpath sample_data (basecall "All Reads" "qual_score_percentiles" ++ [KInt 50])%list);
   ("all_n50", getpath sample_data (basecall "All Reads" "N50"));
   ("all_run_duration", getpath sample_data (run "All Reads" "run_duration"));
   ("all_channels", getpath sample_data (run "All Reads" "active_channels"));
   ("all_reads", getpath sample_data (basecall "All Reads" "reads_number"));
   ("all_bases", getpath sample_data (basecall "All Reads" "bases_number"));
   ("passed_median_read_length",
      getpath sample_data (basecall "Pass Reads" "len_percentiles" ++ [KInt 50])%list);
   ("passed_median_phred_score",
      getpath sample_data (basecall "Pass Reads" "qual_score_percentiles" ++ [KInt 50])%list);
   ("passed_n50", getpath sample_data (basecall "Pass Reads" "N50"));
   ("passed_channels", getpath sample_data (run "Pass Reads" "active_channels"));
   ("passed_reads", getpath sample_data (basecall "Pass Reads" "reads_number"));
   ("passed_bases", getpath sample_data (basecall "Pass Reads" "bases_number"))].

(** [all - passed], both operands looked up first. *)
Definition difference (sample_data : pyval) (field : string) : result pyval :=
  rbind (getpath sample_data (basecall "All Reads" field)) (λ a,
  rbind (getpath sample_data (basecall "Pass Reads" field)) (λ p,
    py_sub a p)).

Definition reads_entries (sample_data : pyval) : list (string * result pyval) :=
  [("passed_reads", getpath sample_data (basecall "Pass Reads" "reads_number"));
   ("non_passed_reads", difference sample_data "reads_number")].

Definition bases_entries (sample_data : pyval) : list (string * result pyval) :=
  [("passed_bases", getpath sample_data (basecall "Pass Reads" "bases_number"));
   ("non_passed_bases", difference sample_data "bases_number")].

(** [dict(zip(h['x'], h['y']))] for the histogram [h] of a branch. *)
Definition hist_plot (sample_data : pyval) (reads hist : string)
  : result (list (pyval * pyval)) :=
  rbind (getpath sample_data (basecall reads hist ++ [KStr "x"])%list) (λ xs,
  rbind (getpath sample_data (basecall reads hist ++ [KStr "y"])%list) (λ ys,
    dict_zip xs ys)).

(** What [setup_data] returns: the table, the two bar charts, and the two
    pairs (all, pass) of line plots. *)
Record setup : Type := {
  data_for_table : Dict.t (gmap string pyval);
  reads_data : Dict.t (gmap string pyval);
  bases_data : Dict.t (gmap string pyval);
  length_plot_all : Dict.t (list (pyval * pyval));
  length_plot_pass : Dict.t (list (pyval * pyval));
  qual_plot_all : Dict.t (list (pyval * pyval));
  qual_plot_pass : Dict.t (list (pyval * pyval))
}.

Definition empty_setup : setup :=
  {| data_for_table := []; reads_data := []; bases_data := [];
     length_plot_all := []; length_plot_pass := [];
     qual_plot_all := []; qual_plot_pass := [] |}.

(** One turn of the loop of lines 187-223. *)
Definition setup_sample (acc : setup) (sample : string) (sample_data : pyval)
  : result setup :=
  rbind (display (table_entries sample_data)) (λ row,
  rbind (display (reads_entries sample_data)) (λ reads,
  rbind (display (bases_entries sample_data)) (λ bases,
  rbind (hist_plot sample_data "All Reads" "len_hist") (λ la,
  rbind (hist_plot sample_data "Pass Reads" "len_hist") (λ lp,
  rbind (hist_plot sample_data "All Reads" "qual_score_hist") (λ qa,
  rbind (hist_plot sample_data "Pass Reads" "qual_score_hist") (λ qp,
    Ok {| data_for_table := Dict.set sample row (data_for_table acc);
          reads_data := Dict.set sample reads (reads_data acc);
          bases_data := Dict.set sample bases (bases_data acc);
          length_plot_all := Dict.set sample la (length_plot_all acc);
          length_plot_pass := Dict.set sample lp (length_plot_pass acc);
          qual_plot_all := Dict.set sample qa (qual_plot_all acc);
          qual_plot_pass := Dict.set sample qp (qual_plot_pass acc) |}))))))).

Fixpoint setup_items (items : list (string * pyval)) (acc : setup) : result setup :=
  match items with
  | [] => Ok acc
  | (sample, sample_data) :: rest =>
      rbind (setup_sample acc sample sample_data) (setup_items rest)
  end.

Definition setup_data (o : self) : result setup :=
  setup_items (pycoqc_data o) empty_setup.

(** *** [__init__], lines 22-31 *)

Definition duplicate_message (f : File.t string) : string :=
  "Duplicate sample name found in " ++ File.fn f ++ "! Overwriting: " ++ File.s_name f.

Definition add_log (r : log_record) (o : self) : self :=
  {| pycoqc_data := pycoqc_data o; log := (log o ++ [r])%list |}.

Definition with_pycoqc_data (d : Dict.t pyval) (o : self) : self :=
  {| pycoqc_data := d; log := log o |}.

Definition load_file (_ : unit) (f : File.t string) : M self unit :=
  let* o := get in
  let* _ := if Dict.contains (File.s_name f) (pycoqc_data o)
            then modify (add_log (DEBUG, duplicate_message f))
            else ret tt in
  let* data := lift (parse_logs (File.f f)) in
  modify (λ o, with_pycoqc_data (Dict.set (File.s_name f) data (pycoqc_data o)) o).

Definition load_files (files : list (File.t string)) : M self unit :=
  for_each load_file tt files.

(** [__init__] up to line 31, returning what that line assigns. *)
Definition __init__ (files : list (File.t string)) : outcome self setup :=
  (let* _ := load_files files in
   let* o := get in
   if bool_decide (List.length (pycoqc_data o) = 0%nat) then raise UserWarning
   else lift (setup_data o)) init_self.

End WithLoader.
End Pycoqc.

(** * Vocabulary of the properties *)

(** ** Which exceptions can come out *)

Section Exceptions.
Context {S : Type}.

Definition raises_only {A} (E : exn → Prop) (m : M S A) : Prop :=
  ∀ o e o', m o = Raises e o' → E e.

Definition fails_only {A} (E : exn → Prop) (r : result A) : Prop :=
  ∀ e, r = Err e → E e.

End Exceptions.

Definition not_warning (e : exn) : Prop := e ≠ UserWarning.

(** ** Observers *)

(** Whether a method returned, and whether an expression has a value. *)
Definition returned {S A} (x : outcome S A) : bool :=
  match x with
  | Returns _ _ => true
  | Raises _ _ => false
  end.

Definition is_ok {A} (r : result A) : bool :=
  match r with
  | Ok _ => true
  | Err _ => false
  end.

(** ** AdapterRemoval *)

Module AdapterRemovalSpec.
Import AdapterRemoval PyStr.

Abbreviation len_dist := (gmap string (gmap string (gmap Z Z))).

Section WithFloat.
Context {F : PyFloat}.

(** The header of the length distribution: its columns. *)
Definition head_columns (first : string) : list string :=
  split TAB (rstrip (one_of NL) first).

Definition classify (third third_last : string) : read_type * bool :=
  (if decide (third = "Mate2") then paired else single,
   bool_decide (third_last = "CollapsedTruncated")).

Definition store_counts (kvs : list (string * Z)) (rd : gmap string pyval)
  : gmap string pyval :=
  foldl (λ rd kv, <[kv.1 := PInt kv.2]> rd) rd kvs.

Definition field_loop (trim_data : list string) (pattern : gmap string Z)
  : list string → M self unit :=
  for_each (λ _ field,
    let* n := lift (read_field trim_data pattern field) in
    set_item field (PInt n)) tt.

(** The derived entries of lines 153-166. *)
Definition derived (paired_end : bool) (total unaligned aligned retained
    singleton_m1 singleton_m2 : Z) (rd : gmap string pyval) : gmap string pyval :=
  let twice n := if paired_end then n * 2 else n in
  <["retained_reads" := PInt (retained - singleton_m1 - singleton_m2)]>
  (<["discarded_total" := PInt (twice total - retained)]>
  (<["reads_total" := PInt (twice total)]>
  (<["unaligned_total" := PInt (twice unaligned)]>
  (<["aligned_total" := PInt (twice aligned)]> rd)))).

(** The lengths recorded for sample [name] under category [cat]. *)
Definition sample_at (ld : len_dist) (cat name : string) : option (gmap Z Z) :=
  ld !! cat ≫= λ by_sample, by_sample !! name.

Definition entries (o : self) (cat : string) : option (gmap Z Z) :=
  sample_at (len_dist_plot_data o) cat (s_name o).

Definition entry (o : self) (cat : string) (l : Z) : option Z :=
  entries o cat ≫= λ by_length, by_length !! l.

(** Every category is there, and a sample is under all of them or none. *)
Definition wf_len_dist (ld : len_dist) : Prop :=
  (∀ c, c ∈ categories → is_Some (ld !! c)) ∧
  (∀ c name, c ∈ categories →
     is_Some (sample_at ld c name) ↔ is_Some (sample_at ld "mate1" name)).

Definition wf (o : self) : Prop := wf_len_dist (len_dist_plot_data o).

Definition present (o : self) : Prop := is_Some (entries o "mate1").

Definition rel_out {A} (Rret Rraise : self → self → Prop)
    (x y : outcome self A) : Prop :=
  match x, y with
  | Returns a s, Returns b t => a = b ∧ Rret s t
  | Raises e s, Raises e' t => e = e' ∧ Rraise s t
  | _, _ => False
  end.

Definition lock {A} (Rpre Rret Rraise : self → self → Prop) (m : M self A) : Prop :=
  ∀ o1 o2, Rpre o1 o2 → rel_out Rret Rraise (m o1) (m o2).

(** The relations: [agree P] says that, under [P], the two states hold the
    same lengths for the current sample. *)
Definition agree (P : Prop) (o1 o2 : self) : Prop :=
  P → ∀ cat, entries o1 cat = entries o2 cat.

Definition Rbase (P : Prop) (o1 o2 : self) : Prop :=
  s_name o1 = s_name o2 ∧ wf o1 ∧ wf o2 ∧ agree P o1 o2.

Definition Rrd (P : Prop) (o1 o2 : self) : Prop :=
  Rbase P o1 o2 ∧ result_data o1 = result_data o2.

Definition Rfull (P : Prop) (o1 o2 : self) : Prop :=
  Rrd P o1 o2 ∧ __read_type o1 = __read_type o2 ∧ __collapsed o1 = __collapsed o2.

Definition Rpresent (P : Prop) (o1 o2 : self) : Prop :=
  Rfull P o1 o2 ∧ present o1 ∧ present o2.

(** A change that leaves the lengths and the sample name alone. *)
Definition same_lengths (o o' : self) : Prop :=
  len_dist_plot_data o' = len_dist_plot_data o ∧ s_name o' = s_name o.

(** The columns of the first line of the block [Length distribution]. *)
Definition header_columns (f : File.t (list string)) : option (list string) :=
  match read_blocks (File.f f) {["header" := []]} None with
  | Ok settings_data =>
      match settings_data !! "Length distribution" with
      | Some (first :: _) => Some (head_columns first)
      | _ => None
      end
  | Err _ => None
  end.

(** How the header classifies the run: read type and collapsed. *)
Definition classification (f : File.t (list string)) : option (read_type * bool) :=
  cols ← header_columns f;
  third ← cols !! 2%nat;
  third_last ← cols !! (List.length cols - 3)%nat;
  Some (classify third third_last).

(** Single-end and collapsed: the combination the module does not support. *)
Definition unsupported (f : File.t (list string)) : Prop :=
  classification f = Some (single, true).

Definition lengths_only {A} (m : M self A) : Prop :=
  ∀ o r o', m o = Returns r o' →
    o' = with_len_dist_plot_data (len_dist_plot_data o') o ∧
    dom (len_dist_plot_data o') = dom (len_dist_plot_data o).

(** The counts the loop of lines 145-151 reads, in the order of [required]. *)
Definition parsed_counts (trim_data : list string) (o : self) : result (list Z) :=
  rmap (read_field trim_data (data_pattern o)) required.

Inductive reachable : self → Prop :=
  | reachable_init : reachable init_self
  | reachable_step o parsed_data f r o' :
      reachable o → process_file parsed_data f o = Returns r o' → reachable o'.

(** The column each category is read from in each mode, [None] where the
    code stores the constant 0.  The combination single and collapsed never
    reaches [set_len_dist]. *)
Definition columns (rt : read_type) (c : bool) : list (string * option Z) :=
  match rt, c with
  | single, _ =>
      [("mate1", Some 1); ("mate2", None); ("singleton", None);
       ("collapsed", None); ("collapsed_truncated", None);
       ("discarged", Some 2); ("all", Some 3)]
  | paired, false =>
      [("mate1", Some 1); ("mate2", Some 2); ("singleton", Some 3);
       ("collapsed", None); ("collapsed_truncated", None);
       ("discarged", Some 4); ("all", Some 5)]
  | paired, true =>
      [("mate1", Some 1); ("mate2", Some 2); ("singleton", Some 3);
       ("collapsed", Some 4); ("collapsed_truncated", Some 5);
       ("discarged", Some 6); ("all", Some 7)]
  end.

Definition count_of (l_data : list Z) (col : option Z) : result Z :=
  match col with
  | Some i => py_index l_data i
  | None => Ok 0
  end.

(** Under length [l] the state holds, for every category, the count of the
    row [l_data]. *)
Definition recorded (o : self) (rt : read_type) (c : bool) (l : Z)
    (l_data : list Z) : Prop :=
  Forall (λ '(cat, col), ∃ v, entry o cat l = Some v ∧ count_of l_data col = Ok v)
         (columns rt c).

(** The stores of one row, driven by a table of columns. *)
Definition record_one (l_data : list Z) (cat : string) (col : option Z) : M self unit :=
  match col with
  | Some i => store_column cat i l_data
  | None => store cat 0 l_data
  end.

Fixpoint record_by (table : list (string * option Z)) (l_data : list Z) : M self unit :=
  match table with
  | [] => ret tt
  | (cat, col) :: rest =>
      match rest with
      | [] => record_one l_data cat col
      | _ :: _ => let* _ := record_one l_data cat col in record_by rest l_data
      end
  end.

End WithFloat.
End AdapterRemovalSpec.

(** ** pycoQC *)

Module PycoqcSpec.
Import Pycoqc.

Section WithFloat.
Context {F : PyFloat}.


(** The object after [f] was loaded as [data]. *)
Definition loaded (f : File.t string) (data : pyval) (o : self) : self :=
  {| pycoqc_data := Dict.set (File.s_name f) data (pycoqc_data o);
     log := if Dict.contains (File.s_name f) (pycoqc_data o)
            then (log o ++ [(DEBUG, duplicate_message f)])%list else log o |}.

End WithFloat.
End PycoqcSpec.

(** ** Sample inputs *)

Module Examples.
Import PyStr.

Definition line (s : string) : string := s ++ NL.

Fixpoint tabbed (cells : list string) : string :=
  match cells with
  | [] => ""
  | [c] => c
  | c :: rest => c ++ TAB ++ tabbed rest
  end.

Definition row (cells : list string) : string := line (tabbed cells).

(** A settings file of a paired-end run with collapsing. *)
Definition paired_collapsed : list string :=
  [line "AdapterRemoval ver. 2.1.7"; line "Trimming of paired-end reads"; NL;
   line "[Trimming statistics]";
   line "Total number of read pairs: 1000";
   line "Number of unaligned read pairs: 189";
   line "Number of well aligned read pairs: 811";
   line "Number of discarded mate 1 reads: 2";
   line "Number of singleton mate 1 reads: 13";
   line "Number of discarded mate 2 reads: 3";
   line "Number of singleton mate 2 reads: 5";
   line "Number of reads with adapters[1]: 500";
   line "Number of full-length collapsed pairs: 700";
   line "Number of truncated collapsed pairs: 11";
   line "Number of retained reads: 1280";
   line "Number of retained nucleotides: 99999";
   NL;
   line "[Length distribution]";
   row ["Length"; "Mate1"; "Mate2"; "Singleton"; "Collapsed";
        "CollapsedTruncated"; "Discarded"; "All"];
   row ["0"; "0"; "0"; "0"; "0"; "0"; "10"; "10"];
   row ["30"; "1"; "2"; "3"; "4"; "5"; "6"; "21"]].

(** The trimming statistics of a single-end run over [total] reads. *)
Definition single_trimming (total : string) : list string :=
  ["Total number of reads: " ++ total;
   "Number of unaligned reads: 0";
   "Number of well aligned reads: 0";
   "Number of discarded mate 1 reads: 0";
   "Number of singleton mate 1 reads: 0";
   "Number of reads with adapters[1]: 0";
   "Number of retained reads: 0"].

(** A settings file of a single-end run with the given data rows. *)
Definition single_end (total : string) (rows : list (list string)) : list string :=
  ([line "AdapterRemoval ver. 2.1.7"; line "[Trimming statistics]"]
   ++ (line <$> single_trimming total)
   ++ [line "[Length distribution]"; row ["Length"; "Mate1"; "Discarded"; "All"]]
   ++ (row <$> rows))%list.

(** A header that is single-end (no [Mate2]) and collapsed. *)
Definition single_collapsed : list string :=
  ([line "AdapterRemoval ver. 2.1.7"; line "[Trimming statistics]"]
   ++ (line <$> single_trimming "7")
   ++ [line "[Length distribution]";
       row ["Length"; "Mate1"; "CollapsedTruncated"; "Discarded"; "All"];
       row ["30"; "1"; "2"; "3"; "6"]])%list.

Definition settings (s_name : string) (lines : list string) : File.t (list string) :=
  {| File.s_name := s_name; File.fn := s_name ++ ".settings"; File.f := lines |}.

Definition f_paired : File.t (list string) := settings "s1" paired_collapsed.
Definition f_unsupported : File.t (list string) := settings "s2" single_collapsed.
Definition f_short : File.t (list string) :=
  settings "s3" (single_end "5" [["30"; "1"; "2"; "3"]]).
Definition f_long : File.t (list string) :=
  settings "s3" (single_end "5" [["30"; "4"; "5"; "9"]; ["31"; "1"; "0"; "1"]]).






Section WithFloat.
Context {F : PyFloat}.

(** A pycoQC document, as the loader would return it. *)
Definition percentiles (n : Z) : pyval :=
  PList (PInt <$> (Z.of_nat <$> seq (Z.to_nat n) 101)).

Definition hist (xs ys : list Z) : pyval :=
  PDict [(KStr "x", PList (PInt <$> xs)); (KStr "y", PList (PInt <$> ys))].

Definition branch (n reads bases : Z) : pyval :=
  PDict
    [(KStr "run",
      PDict [(KStr "run_duration", PInt (n + 1)); (KStr "active_channels", PInt (n + 2))]);
     (KStr "basecall",
      PDict [(KStr "reads_number", PInt reads); (KStr "bases_number", PInt bases);
             (KStr "N50", PInt (n + 3));
             (KStr "len_percentiles", percentiles n);
             (KStr "qual_score_percentiles", percentiles (n + 1000));
             (KStr "len_hist", hist [1; 2] [10; 20]);
             (KStr "qual_score_hist", hist [1; 2] [10; 20; 30])])].

Definition doc (n : Z) : pyval :=
  PDict [(KStr "All Reads", branch n 100 5000);
         (KStr "Pass Reads", branch (n + 500) 80 4500)].

(** A loader that knows two texts. *)
Definition loader (text : string) : option pyval :=
  if decide (text = "A") then Some (doc 0)
  else if decide (text = "B") then Some (doc 7)
  else None.

End WithFloat.

Definition report (s_name fn text : string) : File.t string :=
  {| File.s_name := s_name; File.fn := fn; File.f := text |}.

Definition fa : File.t string := report "x" "a/x.yaml" "A".
Definition fb : File.t string := report "x" "b/x.yaml" "B".
Definition fc : File.t string := report "y" "y.yaml" "A".

End Examples.

(** * Further vocabulary *)

(** The exception a method raised, if it raised. *)
Definition raised {S A} (x : outcome S A) : option exn :=
  match x with
  | Returns _ _ => None
  | Raises e _ => Some e
  end.

(** ** AdapterRemoval: what the report sections read *)

Module AdapterRemovalReport.
Import AdapterRemoval.

(** The keys of [headers] in [adapter_removal_stats_table] (lines 217-234). *)
Definition stats_table_columns : list string :=
  ["percent_aligned"; "aligned_total"].

(** The keys of [cats_pec] in [adapter_removal_retained_chart]
    (lines 247-254), in order. *)
Definition cats_pec : list string :=
  ["singleton_m1"; "singleton_m2"; "retained_reads"; "full-length_cp";
   "truncated_cp"; "discarded_m1"; "discarded_m2"].

(** The names in [data_labels] of [adapter_removal_length_dist_plot]
    (lines 279-287). *)
Definition data_labels : list string :=
  ["Mate1"; "Mate2"; "Singleton"; "Collapsed"; "Collapsed Truncated";
   "Discarded"; "All"].

Section WithFloat.
Context {F : PyFloat}.

(** [lineplot_data] of [adapter_removal_length_dist_plot] (lines 290-298):
    the seven dictionaries, looked up in this order. *)
Definition lineplot_data (o : self)
  : result (list (gmap string (gmap Z Z))) :=
  rmap (λ cat, of_option KeyError (len_dist_plot_data o !! cat))
    ["mate1"; "mate2"; "singleton"; "collapsed"; "collapsed_truncated";
     "discarged"; "all"].

End WithFloat.

(** The lengths listed for a sample in a category, and the invariant that
    a sample lists the same lengths in every category. *)
Definition lengths_of (ld : gmap string (gmap string (gmap Z Z)))
    (cat name : string) : option (gset Z) :=
  dom <$> AdapterRemovalSpec.sample_at ld cat name.

Definition aligned_lengths (ld : gmap string (gmap string (gmap Z Z))) : Prop :=
  ∀ cat name, cat ∈ categories → lengths_of ld cat name = lengths_of ld "mate1" name.


(** The number of lines of trimming statistics [set_trim_stat] needs in
    each run mode: one more than the index of the [retained] line
    (lines 128-143). *)
Definition lines_needed (rt : read_type) (c : bool) : nat :=
  match rt, c with
  | single, _ => 7
  | paired, false => 9
  | paired, true => 11
  end.

(** Whether a file is skipped can be decided from its header. *)
#[global] Instance read_type_eq_dec : EqDecision read_type.
Proof. solve_decision. Defined.

#[global] Instance unsupported_dec (f : File.t (list string)) :
  Decision (AdapterRemovalSpec.unsupported f).
Proof. unfold AdapterRemovalSpec.unsupported. apply _. Defined.

(** The sample names of the files that are not skipped. *)
Definition supported_names (files : list (File.t (list string))) : list string :=
  File.s_name <$> filter (λ f, ¬ AdapterRemovalSpec.unsupported f) files.

End AdapterRemovalReport.

(** ** pycoQC: what the loop over the files should leave *)

Module PycoqcReport.

(** The names in the order of their first occurrence. *)
Definition first_occurrences (names : list string) : list string :=
  reverse (remove_dups (reverse names)).

(** The files whose sample name was seen before them. *)
Fixpoint duplicates (seen : list string) (files : list (File.t string))
  : list (File.t string) :=
  match files with
  | [] => []
  | f :: rest =>
      (if decide (File.s_name f ∈ seen) then [f] else [])
      ++ duplicates (File.s_name f :: seen) rest
  end.

Section WithFloat.
Context {F : PyFloat}.

(** The seven mappings that [setup_data] builds have the keys [ks]. *)
Definition keyed (st : Pycoqc.setup) (ks : list string) : Prop :=
  Dict.keys (Pycoqc.data_for_table st) = ks ∧
  Dict.keys (Pycoqc.reads_data st) = ks ∧
  Dict.keys (Pycoqc.bases_data st) = ks ∧
  Dict.keys (Pycoqc.length_plot_all st) = ks ∧
  Dict.keys (Pycoqc.length_plot_pass st) = ks ∧
  Dict.keys (Pycoqc.qual_plot_all st) = ks ∧
  Dict.keys (Pycoqc.qual_plot_pass st) = ks.

End WithFloat.
End PycoqcReport.

(** ** More sample inputs *)

Module MoreExamples.
Import PyStr Examples.

(** A settings file without a length distribution. *)
Definition f_no_lengths : File.t (list string) :=
  settings "s4"
    ([line "AdapterRemoval ver. 2.1.7"; line "[Trimming statistics]"]
     ++ (line <$> single_trimming "5"))%list.

(** A single-end settings file whose length distribution has no data row. *)
Definition f_header_only : File.t (list string) :=
  settings "s5" (single_end "5" []).

(** An object in single-end mode. *)
Definition single_mode {F : PyFloat} : AdapterRemoval.self :=
  AdapterRemoval.with___collapsed (Some false)
    (AdapterRemoval.with___read_type (Some AdapterRemoval.single)
       AdapterRemoval.init_self).

(** A report that the loader rejects, and an empty one. *)
Definition f_bad : File.t string := report "z" "z.yaml" "bad".
Definition f_empty : File.t string := report "e" "e.yaml" "".

(** A loader that returns [None] for the empty text. *)
Definition loader_null {F : PyFloat} (text : string) : option pyval :=
  if decide (text = "") then Some PNone else loader text.

End MoreExamples.

(** * Properties *)

(** ** The binary64 instance of [PyFloat] *)

Module Binary64Facts.
Import SpecFloat Binary64.

Lemma iter_pos_nat {A} (f : A → A) p x :
  iter_pos f p x = Nat.iter (Pos.to_nat p) f x.
Proof.
  revert x; induction p as [p IH|p IH|]; intros x; cbn [iter_pos].
  - rewrite !IH, Pos2Nat.inj_xI, <- Nat.iter_succ_r.
    rewrite <- Nat.iter_add. f_equal; lia.
  - rewrite !IH, Pos2Nat.inj_xO, <- Nat.iter_add. f_equal; lia.
  - reflexivity.
Qed.

Lemma shr_1_iter_pos k : ∀ p r s,
  (k < Pos.to_nat (digits2_pos p))%nat →
  ∃ p', shr_m (Nat.iter k shr_1 (Build_shr_record (Z.pos p) r s)) = Z.pos p'.
Proof.
  induction k as [|k IH]; intros p r s Hk.
  - exists p. reflexivity.
  - rewrite Nat.iter_succ_r.
    destruct p as [q|q|]; simpl in Hk.
    + simpl. apply IH. lia.
    + simpl. apply IH. lia.
    + lia.
Qed.

Lemma shr_fexp_pos m e l :
  -1074 ≤ e →
  ∃ p' e', shr_fexp prec emax (Z.pos m) e l = (p', e')
           ∧ (∃ q, shr_m p' = Z.pos q) ∧ -1074 ≤ e'.
Proof.
  intros He. unfold shr_fexp, shr.
  set (n := fexp prec emax (Zdigits2 (Z.pos m) + e) - e).
  assert (Hn : n < Z.pos (digits2_pos m)).
  { subst n. unfold fexp, emin, prec, emax. simpl Zdigits2. lia. }
  destruct n as [|n'|n'] eqn:En.
  - eexists _, _; split; [reflexivity|]. split; [|lia].
    destruct l as [|[]]; eexists; reflexivity.
  - eexists _, _; split; [reflexivity|]. split; [|lia].
    rewrite iter_pos_nat.
    destruct l as [|[]]; simpl shr_record_of_loc; apply shr_1_iter_pos; lia.
  - eexists _, _; split; [reflexivity|]. split; [|lia].
    destruct l as [|[]]; eexists; reflexivity.
Qed.

Lemma binary_round_aux_not_zero s m e l sz :
  -1074 ≤ e → binary_round_aux prec emax s (Z.pos m) e l ≠ S754_zero sz.
Proof.
  intros He. unfold binary_round_aux.
  destruct (shr_fexp_pos m e l He) as (p' & e' & -> & [q Hq] & He').
  rewrite Hq.
  assert (∃ q', round_nearest_even (Z.pos q) (loc_of_shr_record p') = Z.pos q')
    as [q' ->].
  { unfold round_nearest_even.
    destruct (loc_of_shr_record p') as [|[]]; try (eexists; reflexivity).
    - destruct (Z.even (Z.pos q)); eexists; reflexivity. }
  destruct (shr_fexp_pos q' e' loc_Exact He') as (p'' & e'' & -> & [q'' Hq''] & _).
  rewrite Hq''. destruct (e'' <=? emax - prec); discriminate.
Qed.

Lemma binary_round_not_zero s p sz :
  binary_round prec emax s p 0 ≠ S754_zero sz.
Proof.
  unfold binary_round.
  destruct (shl_align _ _ _) as [mz ez] eqn:Hal.
  apply binary_round_aux_not_zero.
  unfold shl_align in Hal.
  destruct (fexp _ _ _ - 0) eqn:Hd; inversion Hal; subst; try lia.
  unfold fexp, emin, prec, emax. lia.
Qed.

Lemma of_int_is_zero n x :
  of_int n = Some x → is_zero x = bool_decide (n = 0).
Proof.
  unfold of_int. destruct n as [|p|p]; simpl binary_normalize.
  - intros [= <-]. reflexivity.
  - intros Hx. rewrite bool_decide_eq_false_2 by lia.
    destruct (binary_round prec emax false p 0) eqn:Hr;
      inversion Hx; subst; try reflexivity.
    exfalso. eapply binary_round_not_zero, Hr.
  - intros Hx. rewrite bool_decide_eq_false_2 by lia.
    destruct (binary_round prec emax true p 0) eqn:Hr;
      inversion Hx; subst; try reflexivity.
    exfalso. eapply binary_round_not_zero, Hr.
Qed.

#[export] Instance binary64 : PyFloat := {|
  float := spec_float;
  float_of_int := of_int;
  float_100 := hundred;
  float_mul := SFmul prec emax;
  float_sub := SFsub prec emax;
  float_div := SFdiv prec emax;
  float_is_zero := is_zero;
  float_round2 := round2;
  float_of_int_0 := mk_is_Some _ _ eq_refl;
  float_of_int_is_zero := of_int_is_zero
|}.

End Binary64Facts.

(** ** Sequencing *)

Section MonadFacts.
Context {S : Type}.

Lemma bind_ret {A B} (a : A) (k : A → M S B) s : bind (ret a) k s = k a s.
Proof. reflexivity. Qed.

Lemma bind_lift_ok {A B} (a : A) (k : A → M S B) s :
  bind (lift (Ok a)) k s = k a s.
Proof. reflexivity. Qed.

Lemma bind_lift_err {A B} e (k : A → M S B) s :
  bind (lift (Err e)) k s = Raises e s.
Proof. reflexivity. Qed.

Lemma bind_raise {A B} e (k : A → M S B) s : bind (raise e) k s = Raises e s.
Proof. reflexivity. Qed.

Lemma bind_get {B} (k : S → M S B) s : bind get k s = k s s.
Proof. reflexivity. Qed.

Lemma bind_modify {B} f (k : unit → M S B) s : bind (modify f) k s = k tt (f s).
Proof. reflexivity. Qed.

Lemma bind_returns {A B} (m : M S A) (k : A → M S B) s b s' :
  bind m k s = Returns b s' →
  ∃ a s1, m s = Returns a s1 ∧ k a s1 = Returns b s'.
Proof. unfold bind. destruct (m s); [eauto | discriminate]. Qed.

Lemma bind_raises {A B} (m : M S A) (k : A → M S B) s e s' :
  bind m k s = Raises e s' →
  m s = Raises e s' ∨ ∃ a s1, m s = Returns a s1 ∧ k a s1 = Raises e s'.
Proof. unfold bind. destruct (m s); [eauto | intros [= -> ->]; eauto]. Qed.

Lemma lift_returns {A} (r : result A) (s : S) a s' :
  lift r s = Returns a s' → r = Ok a ∧ s' = s.
Proof. destruct r; simpl; unfold ret, raise; intros [=]; subst; auto. Qed.

Lemma lift_raises {A} (r : result A) (s : S) e s' :
  lift r s = Raises e s' → r = Err e ∧ s' = s.
Proof. destruct r; simpl; unfold ret, raise; intros [=]; subst; auto. Qed.

Lemma lift_observed {A} (r : result A) (s : S) : observed (lift r s) = r.
Proof. destruct r; reflexivity. Qed.

Lemma lift_state {A} (r : result A) (s : S) : outcome_state (lift r s) = s.
Proof. destruct r; reflexivity. Qed.

End MonadFacts.

Lemma py_index_nonneg {A} (l : list A) (i : nat) :
  py_index l (Z.of_nat i) = of_option IndexError (l !! i).
Proof.
  unfold py_index. rewrite bool_decide_eq_true_2 by lia.
  by rewrite Nat2Z.id.
Qed.

Lemma py_index_from_end {A} (l : list A) (i : nat) :
  (0 < i ≤ List.length l)%nat →
  py_index l (- Z.of_nat i) = of_option IndexError (l !! (List.length l - i)%nat).
Proof.
  intros Hi. unfold py_index.
  rewrite bool_decide_eq_false_2 by lia.
  rewrite bool_decide_eq_true_2 by lia.
  do 2 f_equal. lia.
Qed.

Lemma py_index_too_short {A} (l : list A) (i : nat) :
  (List.length l < i)%nat → py_index l (- Z.of_nat i) = Err IndexError.
Proof.
  intros Hi. unfold py_index.
  rewrite bool_decide_eq_false_2 by lia.
  by rewrite bool_decide_eq_false_2 by lia.
Qed.

Lemma returned_true {S A} (x : outcome S A) :
  returned x = true → ∃ a s, x = Returns a s.
Proof. destruct x; [eauto | discriminate]. Qed.

Lemma is_ok_true {A} (r : result A) : is_ok r = true → ∃ a, r = Ok a.
Proof. destruct r; [eauto | discriminate]. Qed.

(** ** Results and exceptions *)

Lemma rmap_length {A B} (f : A → result B) l bs :
  rmap f l = Ok bs → List.length bs = List.length l.
Proof.
  revert bs; induction l as [|a l IH]; simpl; intros bs.
  - by intros [= <-].
  - destruct (f a); simpl; [|done]. destruct (rmap f l); simpl; [|done].
    intros [= <-]. simpl. by rewrite (IH _ eq_refl).
Qed.

Section ExceptionFacts.
Context {S : Type}.

Lemma raises_only_bind {A B} E (m : M S A) (k : A → M S B) :
  raises_only E m → (∀ a, raises_only E (k a)) → raises_only E (bind m k).
Proof.
  intros Hm Hk o e o' H.
  apply bind_raises in H as [H|(a & s1 & _ & H)]; [by eapply Hm | by eapply Hk].
Qed.

Lemma raises_only_lift {A} E (r : result A) :
  fails_only E r → raises_only (S := S) E (lift r).
Proof. intros Hr o e o' H. apply lift_raises in H as [-> _]. by apply Hr. Qed.

Lemma raises_only_ret {A} E (a : A) : raises_only (S := S) E (ret a).
Proof. by intros o e o' H. Qed.

Lemma raises_only_get E : raises_only E (@get S).
Proof. by intros o e o' H. Qed.

Lemma raises_only_modify E f : raises_only E (@modify S f).
Proof. by intros o e o' H. Qed.

Lemma raises_only_raise {A} (E : exn → Prop) e : E e → raises_only E (@raise S A e).
Proof. intros He o e' o' [= <- _]. done. Qed.

Lemma raises_only_for_each {A B} E (body : B → A → M S B) l :
  (∀ acc x, raises_only E (body acc x)) → ∀ acc, raises_only E (for_each body acc l).
Proof.
  intros Hb. induction l as [|x l IH]; intros acc; cbn [for_each].
  - apply raises_only_ret.
  - apply raises_only_bind; auto.
Qed.

Lemma fails_only_of_option {A} (E : exn → Prop) e (x : option A) :
  E e → fails_only E (of_option e x).
Proof. intros He e'. destruct x; simpl; [done|]. by intros [= <-]. Qed.

Lemma fails_only_py_index {A} (E : exn → Prop) (l : list A) i :
  E IndexError → fails_only E (py_index l i).
Proof.
  intros He e. unfold py_index.
  repeat case_bool_decide; try (by intros [= <-]); by apply fails_only_of_option.
Qed.

Lemma fails_only_rbind {A B} E (r : result A) (k : A → result B) :
  fails_only E r → (∀ a, fails_only E (k a)) → fails_only E (rbind r k).
Proof.
  intros Hr Hk e. destruct r as [a|e0]; simpl; [exact (Hk a e)|].
  intros [= <-]. by apply Hr.
Qed.

Lemma fails_only_rmap {A B} E (f : A → result B) l :
  (∀ a, fails_only E (f a)) → fails_only E (rmap f l).
Proof.
  intros Hf. induction l as [|a l IH]; simpl; [done|].
  apply fails_only_rbind; [done|]. intros b.
  apply fails_only_rbind; [done|]. done.
Qed.

Lemma fails_only_int (E : exn → Prop) s : E ValueError → fails_only E (PyStr.int s).
Proof. intros He. unfold PyStr.int. by apply fails_only_of_option. Qed.

End ExceptionFacts.

(** ** AdapterRemoval *)

Module AdapterRemovalFacts.
Import AdapterRemoval AdapterRemovalSpec PyStr.

Section WithFloat.
Context {F : PyFloat}.


(** Reading the blocks never raises *)
Lemma read_blocks_total lines : ∀ sd bt,
  is_Some (sd !! "header") →
  (∀ t, bt = Some t → is_empty t = false → is_Some (sd !! t)) →
  ∃ sd', read_blocks lines sd bt = Ok sd'.
Proof.
  induction lines as [|line rest IH]; intros sd bt Hh Hbt; simpl.
  - eauto.
  - destruct (is_empty (rstrip (one_of NL) line)); [by apply IH|].
    assert (Hhead : ∃ sd', rbind (to_header sd (rstrip (one_of NL) line))
                (λ '(sd0, bt0), read_blocks rest sd0 bt0) = Ok sd').
    { unfold to_header, append_line. destruct Hh as [l ->]. simpl.
      apply IH.
      - rewrite lookup_insert_eq. eauto.
      - intros t [= <-] _. rewrite lookup_insert_eq. eauto. }
    destruct bt as [title|]; [|done].
    destruct (is_empty title) eqn:Het; [done|].
    match goal with |- context [if ?b then _ else _] => destruct b end.
    + apply IH.
      * rewrite lookup_insert. case_decide; eauto.
      * intros t [= <-] _. rewrite lookup_insert_eq. eauto.
    + unfold append_line. destruct (Hbt title eq_refl Het) as [l ->]. simpl.
      apply IH.
      * rewrite lookup_insert. case_decide; eauto.
      * intros t [= <-] _. rewrite lookup_insert_eq. eauto.
Qed.

Lemma read_blocks_ok lines :
  ∃ sd, read_blocks lines {["header" := []]} None = Ok sd.
Proof.
  apply read_blocks_total.
  - rewrite lookup_singleton_eq. eauto.
  - done.
Qed.

Lemma set_ar_type_run (o : self) (first : string) (rest : list string)
    (third third_last : string) :
  head_columns first !! 2%nat = Some third →
  head_columns first !! (List.length (head_columns first) - 3)%nat = Some third_last →
  let '(rt, c) := classify third third_last in
  let o1 := with___collapsed (Some c) (with___read_type (Some rt) o) in
  set_ar_type (first :: rest) o =
    if bool_decide (rt = single) && c
    then Raises UserWarning (add_log (WARNING, skip_message (s_name o)) o1)
    else Returns tt o1.
Proof.
  intros H2 H3.
  assert (Hlen : (3 ≤ List.length (head_columns first))%nat).
  { apply lookup_lt_Some in H2. lia. }
  unfold set_ar_type, classify.
  change 0 with (Z.of_nat 0). rewrite py_index_nonneg. simpl (_ !! _).
  simpl of_option. rewrite bind_lift_ok. cbv zeta.
  change (split TAB (rstrip (one_of NL) first)) with (head_columns first).
  change 2 with (Z.of_nat 2). rewrite py_index_nonneg, H2.
  simpl of_option. rewrite bind_lift_ok, bind_modify.
  change (-3) with (- Z.of_nat 3). rewrite py_index_from_end, H3 by lia.
  simpl of_option. rewrite bind_lift_ok, bind_modify, bind_get.
  destruct (decide (third = "Mate2")), (bool_decide (third_last = _)); reflexivity.
Qed.

(** C6: when the first line of the length distribution has a third and a
    third-from-last tab-separated column, [set_ar_type] leaves the read type
    at paired exactly when the third column is [Mate2] and at single
    otherwise, and leaves the collapsed flag at true exactly when the
    third-from-last column is [CollapsedTruncated] and at false otherwise. *)
Theorem set_ar_type_classification (o : self) (first : string)
    (rest : list string) (third third_last : string) :
  head_columns first !! 2%nat = Some third →
  head_columns first !! (List.length (head_columns first) - 3)%nat = Some third_last →
  let o' := outcome_state (set_ar_type (first :: rest) o) in
  (__read_type o' = Some paired ↔ third = "Mate2") ∧
  (__read_type o' = Some single ↔ third ≠ "Mate2") ∧
  (__collapsed o' = Some true ↔ third_last = "CollapsedTruncated") ∧
  (__collapsed o' = Some false ↔ third_last ≠ "CollapsedTruncated").
Proof.
  intros H2 H3.
  pose proof (set_ar_type_run o first rest third third_last H2 H3) as Hrun.
  unfold classify in Hrun. cbv zeta. rewrite Hrun. clear Hrun.
  destruct (decide (third = "Mate2")) as [Ht|Ht];
    destruct (bool_decide_reflect (third_last = "CollapsedTruncated")) as [Hc|Hc];
    simpl; repeat split; intros; try congruence; try done.
Qed.

Lemma with_result_data_id (o : self) : with_result_data (result_data o) o = o.
Proof. by destruct o. Qed.

Lemma field_loop_ok trim pattern fields : ∀ ns o,
  rmap (read_field trim pattern) fields = Ok ns →
  field_loop trim pattern fields o =
    Returns tt (with_result_data (store_counts (zip fields ns) (result_data o)) o).
Proof.
  unfold field_loop.
  induction fields as [|fld fields IH]; intros ns o; simpl.
  - intros [= <-]. by rewrite with_result_data_id.
  - destruct (read_field trim pattern fld) as [n|e] eqn:Hn; simpl; [|done].
    destruct (rmap _ fields) as [ns'|] eqn:Hns; simpl; [|done].
    intros [= <-]. unfold bind at 1. unfold bind at 1. simpl.
    rewrite (IH ns') by done. reflexivity.
Qed.

Lemma field_loop_err trim pattern fields : ∀ e o,
  rmap (read_field trim pattern) fields = Err e →
  ∃ rd, field_loop trim pattern fields o = Raises e (with_result_data rd o).
Proof.
  unfold field_loop.
  induction fields as [|fld fields IH]; intros e o; simpl; [done|].
  destruct (read_field trim pattern fld) as [n|e'] eqn:Hn; simpl.
  - destruct (rmap _ fields) as [ns'|e''] eqn:Hns; simpl; [done|].
    intros [= <-]. unfold bind at 1. unfold bind at 1. simpl.
    destruct (IH e'' (with_result_data (<[fld:=PInt n]> (result_data o)) o) eq_refl)
      as [rd ->]. by exists rd.
  - intros [= <-]. exists (result_data o). by rewrite with_result_data_id.
Qed.

Lemma get_count_run {B} field n (k : Z → M self B) o :
  result_data o !! field = Some (PInt n) →
  bind (get_count field) k o = k n o.
Proof. intros H. unfold get_count, bind, get. by rewrite H. Qed.

Lemma bind_set_item {B} field v (k : unit → M self B) o :
  bind (set_item field v) k o
  = k tt (with_result_data (<[field := v]> (result_data o)) o).
Proof. reflexivity. Qed.

Ltac lookup_chain :=
  repeat first [ rewrite lookup_insert_eq | rewrite lookup_insert_ne by done ].

Lemma set_trim_stat_run trim o total unaligned aligned discarded_m1 singleton_m1
    retained discarded_m2 singleton_m2 full_length_cp truncated_cp :
  rmap (read_field trim (data_pattern o)) required
    = Ok [total; unaligned; aligned; discarded_m1; singleton_m1; retained;
          discarded_m2; singleton_m2; full_length_cp; truncated_cp] →
  let rd := derived (bool_decide (__read_type o = Some paired))
              total unaligned aligned retained singleton_m1 singleton_m2
              (store_counts
                 (zip required [total; unaligned; aligned; discarded_m1;
                    singleton_m1; retained; discarded_m2; singleton_m2;
                    full_length_cp; truncated_cp]) (result_data o)) in
  set_trim_stat trim o =
    match float_of_int aligned, float_of_int total with
    | Some a, Some t =>
        if float_is_zero t then Raises ZeroDivisionError (with_result_data rd o)
        else Returns tt (with_result_data
               (<["percent_aligned" :=
                    PFloat (float_round2 (float_div (float_mul a float_100) t))]> rd) o)
    | _, _ => Raises OverflowError (with_result_data rd o)
    end.
Proof.
  intros Hread rd.
  unfold set_trim_stat. rewrite bind_get.
  change (for_each _ tt required) with (field_loop trim (data_pattern o) required).
  unfold bind at 1. rewrite (field_loop_ok _ _ _ _ _ Hread).
  cbn [zip_with required store_counts foldl fst snd zip].
  erewrite (get_count_run "total") by (cbn [result_data with_result_data]; lookup_chain; reflexivity).
  erewrite (get_count_run "aligned") by (cbn [result_data with_result_data]; lookup_chain; reflexivity).
  erewrite (get_count_run "unaligned") by (cbn [result_data with_result_data]; lookup_chain; reflexivity).
  rewrite !bind_set_item.
  erewrite (get_count_run "retained") by (cbn [result_data with_result_data]; lookup_chain; reflexivity).
  rewrite !bind_set_item.
  erewrite (get_count_run "retained") by (cbn [result_data with_result_data]; lookup_chain; reflexivity).
  erewrite (get_count_run "singleton_m1") by (cbn [result_data with_result_data]; lookup_chain; reflexivity).
  erewrite (get_count_run "singleton_m2") by (cbn [result_data with_result_data]; lookup_chain; reflexivity).
  rewrite !bind_set_item.
  erewrite (get_count_run "aligned") by (cbn [result_data with_result_data]; lookup_chain; reflexivity).
  unfold to_float.
  destruct (float_of_int aligned) as [a|]; cbn [of_option];
    [rewrite bind_lift_ok | rewrite bind_lift_err; by destruct (float_of_int total)].
  erewrite (get_count_run "total") by (cbn [result_data with_result_data]; lookup_chain; reflexivity).
  destruct (float_of_int total) as [t|]; cbn [of_option];
    [rewrite bind_lift_ok | by rewrite bind_lift_err].
  destruct (float_is_zero t); reflexivity.
Qed.

Lemma with_len_dist_plot_data_id (o : self) :
  with_len_dist_plot_data (len_dist_plot_data o) o = o.
Proof. by destruct o. Qed.

Lemma sample_at_insert (ld : len_dist) cat name m d' c n :
  ld !! cat = Some m →
  sample_at (<[cat := <[name := d']> m]> ld) c n
  = if decide (c = cat ∧ n = name) then Some d' else sample_at ld c n.
Proof.
  intros Hm. unfold sample_at.
  destruct (decide (c = cat)) as [->|Hc].
  - rewrite lookup_insert_eq, Hm. simpl.
    destruct (decide (n = name)) as [->|Hn].
    + rewrite lookup_insert_eq. by rewrite decide_True.
    + rewrite lookup_insert_ne by done. rewrite decide_False; [done | naive_solver].
  - rewrite lookup_insert_ne by done. rewrite decide_False; [done | naive_solver].
Qed.

Lemma is_Some_insert_present (ld : len_dist) cat m' c :
  is_Some (ld !! cat) → is_Some (<[cat := m']> ld !! c) ↔ is_Some (ld !! c).
Proof.
  intros Hm. destruct (decide (c = cat)) as [->|Hc].
  - rewrite lookup_insert_eq. split; eauto.
  - by rewrite lookup_insert_ne.
Qed.

(** ** [store] *)

Lemma store_run cat v l_data o m d :
  len_dist_plot_data o !! cat = Some m → m !! s_name o = Some d →
  store cat v l_data o =
    match l_data !! 0%nat with
    | Some k => Returns tt (with_len_dist_plot_data
          (<[cat := <[s_name o := <[k := v]> d]> m]> (len_dist_plot_data o)) o)
    | None => Raises IndexError o
    end.
Proof.
  intros Hm Hd. unfold store. rewrite bind_get, Hm. cbn [of_option].
  rewrite bind_lift_ok, Hd. cbn [of_option]. rewrite bind_lift_ok.
  change 0 with (Z.of_nat 0). rewrite py_index_nonneg.
  destruct (l_data !! 0%nat); reflexivity.
Qed.

Lemma store_returns cat v l_data o o' :
  store cat v l_data o = Returns tt o' →
  ∃ k m d, l_data !! 0%nat = Some k ∧ len_dist_plot_data o !! cat = Some m ∧
    m !! s_name o = Some d ∧
    o' = with_len_dist_plot_data
           (<[cat := <[s_name o := <[k := v]> d]> m]> (len_dist_plot_data o)) o.
Proof.
  intros H.
  destruct (len_dist_plot_data o !! cat) as [m|] eqn:Hm;
    [|unfold store in H; rewrite bind_get, Hm in H; discriminate].
  destruct (m !! s_name o) as [d|] eqn:Hd;
    [|unfold store in H; rewrite bind_get, Hm in H; cbn [of_option] in H;
      rewrite bind_lift_ok, Hd in H; discriminate].
  rewrite (store_run _ _ _ _ _ _ Hm Hd) in H.
  destruct (l_data !! 0%nat) as [k|]; [|discriminate].
  injection H as <-. eauto 10.
Qed.

Lemma store_raises cat v l_data o e o' :
  store cat v l_data o = Raises e o' → o' = o ∧ (e = KeyError ∨ e = IndexError).
Proof.
  unfold store. rewrite bind_get.
  destruct (len_dist_plot_data o !! cat) as [m|]; cbn [of_option];
    [rewrite bind_lift_ok | rewrite bind_lift_err; intros [= <- <-]; auto].
  destruct (m !! s_name o) as [d|]; cbn [of_option];
    [rewrite bind_lift_ok | rewrite bind_lift_err; intros [= <- <-]; auto].
  destruct (py_index l_data 0) as [k|e0] eqn:Hk;
    [rewrite bind_lift_ok; discriminate|].
  rewrite bind_lift_err. intros [= <- <-]. split; [done|].
  unfold py_index in Hk. rewrite bool_decide_eq_true_2 in Hk by lia.
  destruct (l_data !! _); simpl in Hk; [done|]. injection Hk as <-. auto.
Qed.

(** ** The shape of [len_dist_plot_data] *)

Lemma mate1_category : "mate1" ∈ categories.
Proof. unfold categories. set_solver. Qed.

Lemma wf_present_all o c :
  wf o → present o → c ∈ categories → is_Some (entries o c).
Proof. intros [_ Hs] Hp Hc. by apply Hs. Qed.

Lemma entries_lookup o c :
  is_Some (entries o c) →
  ∃ m d, len_dist_plot_data o !! c = Some m ∧ m !! s_name o = Some d.
Proof.
  unfold entries, sample_at. intros [d Hd].
  destruct (len_dist_plot_data o !! c) as [m|]; simpl in Hd; [eauto|done].
Qed.

(** What a store of [d'] under [(cat, name)] does, as the lookups see it. *)
Lemma wf_insert (ld : len_dist) cat name m d d' :
  ld !! cat = Some m → m !! name = Some d →
  wf_len_dist ld → wf_len_dist (<[cat := <[name := d']> m]> ld).
Proof.
  intros Hm Hd [Hc Hs].
  assert (Hcat : sample_at ld cat name = Some d).
  { unfold sample_at. by rewrite Hm. }
  assert (Hsame : ∀ c n,
    is_Some (sample_at (<[cat := <[name := d']> m]> ld) c n)
    ↔ is_Some (sample_at ld c n)).
  { intros c n. rewrite (sample_at_insert _ _ _ _ _ _ _ Hm).
    case_decide as Hcn; [|done]. destruct Hcn as [-> ->].
    rewrite Hcat. split; eauto. }
  split.
  - intros c Hin. rewrite is_Some_insert_present; eauto.
  - intros c n Hin. rewrite !Hsame. by apply Hs.
Qed.

(** ** [new_sample] and [init_sample] *)

Lemma new_sample_run cat o m :
  len_dist_plot_data o !! cat = Some m →
  new_sample cat o = Returns tt (with_len_dist_plot_data
       (<[cat := <[s_name o := ∅]> m]> (len_dist_plot_data o)) o).
Proof.
  intros Hm. unfold new_sample. rewrite bind_get, Hm. reflexivity.
Qed.

Lemma new_samples_run cs : ∀ o,
  NoDup cs → (∀ c, c ∈ cs → is_Some (len_dist_plot_data o !! c)) →
  ∃ ld', for_each (λ _ c, new_sample c) tt cs o
           = Returns tt (with_len_dist_plot_data ld' o) ∧
    ∀ c, ld' !! c = if decide (c ∈ cs)
                    then (λ m, <[s_name o := ∅]> m) <$> len_dist_plot_data o !! c
                    else len_dist_plot_data o !! c.
Proof.
  induction cs as [|c0 cs IH]; intros o Hnd Hin.
  - exists (len_dist_plot_data o). cbn [for_each]. unfold ret.
    rewrite with_len_dist_plot_data_id. split; [done|].
    intros c. rewrite decide_False; [done | set_solver].
  - apply NoDup_cons in Hnd as [Hc0 Hnd].
    destruct (Hin c0) as [m Hm]; [set_solver|].
    cbn [for_each]. unfold bind at 1. rewrite (new_sample_run _ _ _ Hm).
    set (o1 := with_len_dist_plot_data _ o).
    destruct (IH o1 Hnd) as (ld' & Hrun & Hld').
    { intros c Hc. subst o1. cbn [len_dist_plot_data with_len_dist_plot_data].
      rewrite is_Some_insert_present; [apply Hin; set_solver | eauto]. }
    exists ld'. split; [rewrite Hrun; reflexivity|].
    intros c. rewrite Hld'. subst o1.
    cbn [len_dist_plot_data with_len_dist_plot_data s_name].
    destruct (decide (c = c0)) as [->|Hne].
    + rewrite decide_False by done. rewrite decide_True by set_solver.
      rewrite lookup_insert_eq, Hm. done.
    + rewrite lookup_insert_ne by done.
      destruct (decide (c ∈ cs)).
      * rewrite decide_True by set_solver. done.
      * rewrite decide_False by set_solver. done.
Qed.

Lemma categories_NoDup : NoDup categories.
Proof. unfold categories. repeat (apply NoDup_cons; split; [set_solver|]). apply NoDup_nil_2. Qed.

(** [init_sample] from a state that has the seven categories. *)
Lemma init_sample_run o :
  (∀ c, c ∈ categories → is_Some (len_dist_plot_data o !! c)) →
  ∃ ld', init_sample o = Returns tt (with_len_dist_plot_data ld' o) ∧
    ∀ c, ld' !! c =
      if decide (c ∈ categories ∧ ¬ present o)
      then (λ m, <[s_name o := ∅]> m) <$> len_dist_plot_data o !! c
      else len_dist_plot_data o !! c.
Proof.
  intros Hc. unfold init_sample. rewrite bind_get.
  destruct (Hc "mate1" mate1_category) as [m1 Hm1]. rewrite Hm1.
  cbn [of_option]. rewrite bind_lift_ok.
  assert (Hp : present o ↔ is_Some (m1 !! s_name o)).
  { unfold present, entries, sample_at. rewrite Hm1. done. }
  destruct (bool_decide_reflect (is_Some (m1 !! s_name o))) as [Hs|Hs].
  - exists (len_dist_plot_data o). unfold ret.
    rewrite with_len_dist_plot_data_id. split; [done|].
    intros c. rewrite decide_False; [done | naive_solver].
  - destruct (new_samples_run categories o categories_NoDup Hc) as (ld' & -> & Hld').
    exists ld'. split; [done|]. intros c. rewrite Hld'.
    destruct (decide (c ∈ categories)).
    + rewrite decide_True; [done | naive_solver].
    + rewrite decide_False; [done | naive_solver].
Qed.

(** ** Two runs side by side

    [lock Rpre Rret Rraise m]: from two states related by [Rpre], [m]
    returns the same value in both, leaving states related by [Rret], or
    raises the same exception in both, leaving states related by [Rraise]. *)

Lemma rel_out_observed {A} Rret Rraise (x y : outcome self A) :
  rel_out Rret Rraise x y → observed x = observed y.
Proof. destruct x, y; simpl; intros H; try done; by destruct H as [-> _]. Qed.

Lemma rel_out_weaken {A} (R1 R2 X1 X2 : self → self → Prop) (x y : outcome self A) :
  (∀ a b, R1 a b → R2 a b) → (∀ a b, X1 a b → X2 a b) →
  rel_out R1 X1 x y → rel_out R2 X2 x y.
Proof. intros H1 H2. destruct x, y; simpl; naive_solver. Qed.

Lemma lock_ret {A} R X (a : A) : lock R R X (ret a).
Proof. intros o1 o2 H. simpl. auto. Qed.

Lemma lock_lift {A} (R X : self → self → Prop) (r : result A) :
  (∀ a b, R a b → X a b) → lock R R X (lift r).
Proof. intros HX o1 o2 H. destruct r; simpl; auto. Qed.

Lemma lock_bind {A B} R R1 R2 X (m : M self A) (k : A → M self B) :
  lock R R1 X m → (∀ a, lock R1 R2 X (k a)) → lock R R2 X (bind m k).
Proof.
  intros Hm Hk o1 o2 H. specialize (Hm o1 o2 H). unfold bind.
  destruct (m o1), (m o2); simpl in Hm; try done.
  destruct Hm as [-> Hm]. by apply Hk.
Qed.

Lemma lock_weaken {A} (R R1 R2 X : self → self → Prop) (m : M self A) :
  (∀ a b, R1 a b → R2 a b) → lock R R1 X m → lock R R2 X m.
Proof. intros H Hm o1 o2 Ho. eapply rel_out_weaken; [exact H | | by apply Hm]. done. Qed.

Lemma lock_for_each {A B} R X (body : B → A → M self B) l :
  (∀ acc x, lock R R X (body acc x)) → ∀ acc, lock R R X (for_each body acc l).
Proof.
  intros Hb. induction l as [|x l IH]; intros acc; cbn [for_each].
  - apply lock_ret.
  - eapply lock_bind; [apply Hb | intros acc'; apply IH].
Qed.

Lemma Rpresent_base P o1 o2 : Rpresent P o1 o2 → Rbase P o1 o2.
Proof. by intros [[[? ?] ?] ?]. Qed.
Lemma Rfull_base P o1 o2 : Rfull P o1 o2 → Rbase P o1 o2.
Proof. by intros [[? ?] ?]. Qed.
Lemma Rpresent_full P o1 o2 : Rpresent P o1 o2 → Rfull P o1 o2.
Proof. by intros [? ?]. Qed.

Lemma Rbase_same_lengths P o1 o2 o1' o2' :
  same_lengths o1 o1' → same_lengths o2 o2' → Rbase P o1 o2 → Rbase P o1' o2'.
Proof.
  intros [Hl1 Hn1] [Hl2 Hn2] (Hn & W1 & W2 & Ha).
  unfold Rbase, wf, agree, entries in *. rewrite Hl1, Hl2, Hn1, Hn2. done.
Qed.

(** The state after a store, as the lookups see it. *)
Lemma store_effect o cat m d d' :
  len_dist_plot_data o !! cat = Some m → m !! s_name o = Some d →
  let o' := with_len_dist_plot_data
              (<[cat := <[s_name o := d']> m]> (len_dist_plot_data o)) o in
  (wf o → wf o') ∧
  (∀ c, entries o' c = if decide (c = cat) then Some d' else entries o c).
Proof.
  intros Hm Hd o'. split.
  - intros Hw. unfold wf, o'. cbn [len_dist_plot_data with_len_dist_plot_data].
    eapply wf_insert; eauto.
  - intros c. unfold entries, o'.
    cbn [len_dist_plot_data with_len_dist_plot_data s_name].
    rewrite (sample_at_insert _ _ _ _ _ _ _ Hm).
    destruct (decide (c = cat)) as [->|Hne].
    + by rewrite decide_True.
    + rewrite decide_False; [done | naive_solver].
Qed.

Lemma store_lock P cat v l_data :
  cat ∈ categories →
  lock (Rpresent P) (Rpresent P) (Rbase P) (store cat v l_data).
Proof.
  intros Hcat o1 o2 HR.
  pose proof (Rpresent_base _ _ _ HR) as HB.
  destruct HR as [[[(Hn & W1 & W2 & Ha) Hrd] [Hrt Hc]] [P1 P2]].
  destruct (entries_lookup o1 cat (wf_present_all _ _ W1 P1 Hcat)) as (m1 & d1 & Hm1 & Hd1).
  destruct (entries_lookup o2 cat (wf_present_all _ _ W2 P2 Hcat)) as (m2 & d2 & Hm2 & Hd2).
  rewrite (store_run _ _ _ _ _ _ Hm1 Hd1), (store_run _ _ _ _ _ _ Hm2 Hd2).
  destruct (l_data !! 0%nat) as [k|]; simpl; [|done].
  split; [done|].
  destruct (store_effect o1 cat m1 d1 (<[k:=v]> d1) Hm1 Hd1) as [Hw1 He1].
  destruct (store_effect o2 cat m2 d2 (<[k:=v]> d2) Hm2 Hd2) as [Hw2 He2].
  repeat split; cbn [s_name result_data __read_type __collapsed with_len_dist_plot_data];
    try done; try (by apply Hw1); try (by apply Hw2).
  - intros HP c. rewrite He1, He2.
    case_decide; [|by apply Ha]. subst c.
    specialize (Ha HP cat). unfold entries, sample_at in Ha.
    rewrite Hm1, Hm2 in Ha. simpl in Ha. rewrite Hd1, Hd2 in Ha.
    by injection Ha as ->.
  - unfold present. rewrite He1. case_decide; eauto.
  - unfold present. rewrite He2. case_decide; eauto.
Qed.

Lemma store_column_lock P cat i l_data :
  cat ∈ categories →
  lock (Rpresent P) (Rpresent P) (Rbase P) (store_column cat i l_data).
Proof.
  intros Hcat. unfold store_column. eapply lock_bind.
  - apply lock_lift, Rpresent_base.
  - intros v. by apply store_lock.
Qed.

(** The state after [init_sample], as the lookups see it. *)
Lemma init_sample_effect o :
  (∀ c, c ∈ categories → is_Some (len_dist_plot_data o !! c)) →
  ∃ ld', init_sample o = Returns tt (with_len_dist_plot_data ld' o) ∧
    (∀ c, is_Some (ld' !! c) ↔ is_Some (len_dist_plot_data o !! c)) ∧
    (∀ c n, sample_at ld' c n =
       if decide (c ∈ categories ∧ ¬ present o ∧ n = s_name o)
       then Some ∅ else sample_at (len_dist_plot_data o) c n).
Proof.
  intros Hcats. destruct (init_sample_run o Hcats) as (ld' & Hrun & Hld').
  exists ld'. split; [done|]. split.
  - intros c. rewrite Hld'. case_decide; [|done].
    rewrite fmap_is_Some. done.
  - intros c n. unfold sample_at. rewrite Hld'.
    destruct (decide (c ∈ categories ∧ ¬ present o)) as [[Hc Hp]|Hno].
    + destruct (Hcats c Hc) as [m Hm]. rewrite Hm. simpl.
      destruct (decide (n = s_name o)) as [->|Hn].
      * rewrite lookup_insert_eq. by rewrite decide_True.
      * rewrite lookup_insert_ne by done. rewrite decide_False; [done|naive_solver].
    + rewrite decide_False; [done|naive_solver].
Qed.

Lemma init_sample_lock P : lock (Rfull P) (Rpresent P) (Rbase P) init_sample.
Proof.
  intros o1 o2 [[(Hn & W1 & W2 & Ha) Hrd] [Hrt Hc]].
  destruct (init_sample_effect o1 (proj1 W1)) as (ld1 & -> & Hd1 & Hs1).
  destruct (init_sample_effect o2 (proj1 W2)) as (ld2 & -> & Hd2 & Hs2).
  simpl. split; [done|].
  assert (Hw : ∀ o ld', wf o →
    (∀ c, is_Some (ld' !! c) ↔ is_Some (len_dist_plot_data o !! c)) →
    (∀ c n, sample_at ld' c n =
       if decide (c ∈ categories ∧ ¬ present o ∧ n = s_name o)
       then Some ∅ else sample_at (len_dist_plot_data o) c n) →
    wf_len_dist ld' ∧ is_Some (sample_at ld' "mate1" (s_name o))).
  { intros o ld' [Wc Ws] Hd Hs. split; [split|].
    - intros c Hin. rewrite Hd. by apply Wc.
    - intros c n Hin. rewrite !Hs. pose proof mate1_category.
      specialize (Ws c n Hin).
      repeat case_decide; try done; naive_solver.
    - rewrite Hs. pose proof mate1_category.
      case_decide; [eauto|].
      destruct (decide (present o)) as [Hp|Hp]; [done|]. naive_solver. }
  destruct (Hw o1 ld1 W1 Hd1 Hs1) as [W1' P1'].
  destruct (Hw o2 ld2 W2 Hd2 Hs2) as [W2' P2'].
  split; [split; [split; [split; [|split; [|split]]|] | split] | split];
    cbn [s_name result_data __read_type __collapsed with_len_dist_plot_data];
    try done.
  intros HP c. unfold entries.
  cbn [len_dist_plot_data with_len_dist_plot_data s_name].
  rewrite Hs1, Hs2, <- Hn.
  assert (Hpp : present o1 ↔ present o2).
  { unfold present. by rewrite (Ha HP "mate1"). }
  specialize (Ha HP c). unfold entries in Ha. rewrite <- Hn in Ha.
  repeat case_decide; try done; naive_solver.
Qed.

Ltac lock_stores :=
  repeat first
    [ apply store_column_lock; unfold categories; set_solver
    | apply store_lock; unfold categories; set_solver
    | eapply lock_bind; [| intros _] ].

Lemma record_row_lock P l_data :
  lock (Rpresent P) (Rpresent P) (Rbase P) (record_row l_data).
Proof.
  intros o1 o2 HR. unfold record_row. rewrite !bind_get.
  pose proof HR as [[_ [Hrt Hc]] _]. rewrite <- Hrt, <- Hc.
  destruct (bool_decide (__read_type o1 = Some single));
    destruct (negb (default false (__collapsed o1)));
    revert o1 o2 HR Hrt Hc;
    match goal with
    | |- ∀ o1 o2, Rpresent P o1 o2 → _ → _ → rel_out _ _ (?m o1) (?m o2) =>
        assert (Hl : lock (Rpresent P) (Rpresent P) (Rbase P) m);
        [| intros o1 o2 HR _ _; by apply Hl]
    end.
  - lock_stores.
  - apply lock_ret.
  - lock_stores.
  - lock_stores.
Qed.

Lemma len_dist_row_lock P line : lock (Rfull P) (Rfull P) (Rbase P) (len_dist_row line).
Proof.
  unfold len_dist_row. eapply lock_bind.
  - apply lock_lift, Rfull_base.
  - intros l_data. eapply lock_bind.
    + apply init_sample_lock.
    + intros _. eapply lock_weaken; [apply Rpresent_full | apply record_row_lock].
Qed.

Lemma set_len_dist_lock P data : lock (Rfull P) (Rfull P) (Rbase P) (set_len_dist data).
Proof.
  unfold set_len_dist. apply lock_for_each. intros _ line. apply len_dist_row_lock.
Qed.

Lemma lock_modify R R' X (f : self → self) :
  (∀ a b, R a b → R' (f a) (f b)) → lock R R' X (modify f).
Proof. intros Hf o1 o2 H. simpl. auto. Qed.

Lemma lock_gets {A} (R X : self → self → Prop) (f : self → A) :
  (∀ a b, R a b → f a = f b) → lock R R X (gets f).
Proof. intros Hf o1 o2 H. simpl. auto. Qed.

(** ** [set_trim_stat] and [set_ar_type] in two runs *)

Lemma set_trim_stat_unread trim o e :
  rmap (read_field trim (data_pattern o)) required = Err e →
  ∃ rd, set_trim_stat trim o = Raises e (with_result_data rd o).
Proof.
  intros Hread. unfold set_trim_stat. rewrite bind_get.
  change (for_each _ tt required) with (field_loop trim (data_pattern o) required).
  unfold bind at 1.
  destruct (field_loop_err _ _ _ _ o Hread) as [rd ->]. eauto.
Qed.

Lemma set_trim_stat_lock P trim :
  lock (Rfull P) (Rfull P) (Rbase P) (set_trim_stat trim).
Proof.
  intros o1 o2 HR. pose proof (Rfull_base _ _ _ HR) as HB.
  destruct HR as [[_ Hrd] [Hrt Hc]].
  assert (Hpat : data_pattern o2 = data_pattern o1).
  { unfold data_pattern. by rewrite Hrt, Hc. }
  destruct (rmap (read_field trim (data_pattern o1)) required) as [ns|e] eqn:Hread.
  - pose proof (rmap_length _ _ _ Hread) as Hlen.
    do 11 (destruct ns as [|? ns]; try done).
    rewrite (set_trim_stat_run _ o1 _ _ _ _ _ _ _ _ _ _ Hread).
    rewrite <- Hpat in Hread.
    rewrite (set_trim_stat_run _ o2 _ _ _ _ _ _ _ _ _ _ Hread).
    rewrite <- Hrt, <- Hrd.
    assert (Hsame : ∀ rd, Rfull P (with_result_data rd o1) (with_result_data rd o2)).
    { intros rd. split; [split|]; [|done|done].
      eapply Rbase_same_lengths; [| |exact HB]; done. }
    repeat case_match; simpl; split; try done; try apply Hsame;
      by apply Rfull_base, Hsame.
  - destruct (set_trim_stat_unread _ _ _ Hread) as [rd1 ->].
    rewrite <- Hpat in Hread.
    destruct (set_trim_stat_unread _ _ _ Hread) as [rd2 ->].
    simpl. split; [done|]. eapply Rbase_same_lengths; [| |exact HB]; done.
Qed.

Lemma set_ar_type_lock P data :
  lock (Rrd P) (Rfull P) (Rbase P) (set_ar_type data).
Proof.
  intros o1 o2 [HB Hrd]. unfold set_ar_type.
  destruct (py_index data 0) as [first|e];
    [rewrite !bind_lift_ok | by rewrite !bind_lift_err].
  cbv zeta.
  destruct (py_index (split TAB (rstrip (one_of NL) first)) 2) as [third|e];
    [rewrite !bind_lift_ok, !bind_modify | by rewrite !bind_lift_err].
  destruct (py_index (split TAB (rstrip (one_of NL) first)) (-3)) as [third_last|e];
    [rewrite !bind_lift_ok, !bind_modify, !bind_get
    | rewrite !bind_lift_err; simpl; split; [done|];
      eapply Rbase_same_lengths; [| |exact HB]; done].
  cbn [__read_type __collapsed with___collapsed with___read_type].
  match goal with |- context [if ?b then _ else _] => destruct b end.
  - rewrite !bind_modify. simpl. split; [done|].
    eapply Rbase_same_lengths; [| |exact HB]; done.
  - simpl. split; [done|]. split; [split|]; [|done|done].
    eapply Rbase_same_lengths; [| |exact HB]; done.
Qed.

(** ** [parse_settings_file] in two runs *)

Lemma set_result_data_lock P settings_data :
  lock (Rrd P) (Rfull P) (Rbase P) (AdapterRemoval.set_result_data settings_data).
Proof.
  unfold AdapterRemoval.set_result_data.
  eapply lock_bind; [apply lock_lift; by intros ?? [? ?] | intros len_dist].
  eapply lock_bind; [apply set_ar_type_lock | intros _].
  eapply lock_bind; [apply lock_lift, Rfull_base | intros trim].
  eapply lock_bind; [apply set_trim_stat_lock | intros _].
  eapply lock_bind; [apply lock_lift, Rfull_base | intros len_dist'].
  apply set_len_dist_lock.
Qed.

Lemma parse_settings_file_lock P f :
  lock (Rbase P) (Rfull P) (Rbase P) (parse_settings_file f).
Proof.
  unfold parse_settings_file.
  eapply lock_bind; [apply (lock_modify _ (Rrd P)) | intros _].
  { intros a b HB. split; [|done]. eapply Rbase_same_lengths; [| |exact HB]; done. }
  eapply lock_bind; [apply lock_lift; by intros ?? [? ?] | intros settings_data].
  eapply lock_bind; [apply set_result_data_lock | intros _].
  apply lock_gets. by intros a b [[_ ?] _].
Qed.

(** No [UserWarning] comes out of [set_trim_stat] or [set_len_dist]. *)
Lemma fails_only_read_field trim pattern field :
  fails_only not_warning (read_field trim pattern field).
Proof.
  unfold read_field. destruct (pattern !! field); [|done].
  apply fails_only_rbind; [by apply fails_only_py_index|]. intros tmp.
  apply fails_only_rbind; [by apply fails_only_py_index|]. intros value.
  by apply fails_only_int.
Qed.

Lemma raises_only_get_count field : raises_only not_warning (get_count field).
Proof.
  unfold get_count. apply raises_only_bind; [apply raises_only_get|].
  intros o. repeat case_match; (apply raises_only_ret || by apply raises_only_raise).
Qed.

Ltac no_warning :=
  repeat first
    [ apply raises_only_ret
    | apply raises_only_get
    | apply raises_only_modify
    | apply raises_only_get_count
    | by apply raises_only_raise
    | apply raises_only_lift;
        first [ by apply fails_only_of_option
              | by apply fails_only_py_index
              | apply fails_only_read_field ]
    | apply raises_only_bind; [| intros ?] ].

Lemma set_trim_stat_no_warning trim : raises_only not_warning (set_trim_stat trim).
Proof.
  unfold set_trim_stat.
  apply raises_only_bind; [apply raises_only_get|]. intros o.
  apply raises_only_bind.
  { apply raises_only_for_each. intros _ field. unfold set_item. no_warning. }
  intros _. unfold set_item, to_float. no_warning.
  case_match; no_warning.
Qed.

Lemma store_no_warning cat v l_data : raises_only not_warning (store cat v l_data).
Proof. intros o e o' H. apply store_raises in H as [_ [-> | ->]]; done. Qed.

Lemma set_len_dist_no_warning data : raises_only not_warning (set_len_dist data).
Proof.
  unfold set_len_dist. apply raises_only_for_each. intros _ line.
  unfold len_dist_row. apply raises_only_bind.
  { apply raises_only_lift. unfold row_of_line. apply fails_only_rmap.
    intros s. by apply fails_only_int. }
  intros l_data. apply raises_only_bind.
  { unfold init_sample. no_warning. case_match; [no_warning|].
    apply raises_only_for_each. intros _ c. unfold new_sample. no_warning. }
  intros _. unfold record_row.
  apply raises_only_bind; [apply raises_only_get|]. intros o.
  repeat case_match; unfold store_column;
    repeat first [ apply store_no_warning | apply raises_only_ret
                 | apply raises_only_lift; by apply fails_only_py_index
                 | apply raises_only_bind; [|intros ?] ].
Qed.

(** ** Files the module skips *)

Lemma classification_inv f rt c :
  classification f = Some (rt, c) →
  ∃ settings_data first rest third third_last,
    read_blocks (File.f f) {["header" := []]} None = Ok settings_data ∧
    settings_data !! "Length distribution" = Some (first :: rest) ∧
    head_columns first !! 2%nat = Some third ∧
    head_columns first !! (List.length (head_columns first) - 3)%nat = Some third_last ∧
    classify third third_last = (rt, c).
Proof.
  unfold classification, header_columns.
  destruct (read_blocks _ _ _) as [sd|]; [|done].
  destruct (sd !! "Length distribution") as [[|first rest]|] eqn:Hld; try done.
  simpl. destruct (head_columns first !! 2%nat) as [third|] eqn:H2; [|done]. simpl.
  destruct (head_columns first !! (List.length (head_columns first) - 3)%nat)
    as [third_last|] eqn:H3; [|done]. simpl.
  intros Hc. apply (inj Some) in Hc. exists sd, first, rest, third, third_last. by split_and!.
Qed.

Lemma set_ar_type_warning data o o' :
  set_ar_type data o = Raises UserWarning o' →
  ∃ first rest third third_last,
    data = first :: rest ∧
    head_columns first !! 2%nat = Some third ∧
    head_columns first !! (List.length (head_columns first) - 3)%nat = Some third_last ∧
    classify third third_last = (single, true).
Proof.
  destruct data as [|first rest]; [done|].
  destruct (head_columns first !! 2%nat) as [third|] eqn:H2.
  - assert (Hlen : (3 ≤ List.length (head_columns first))%nat).
    { apply lookup_lt_Some in H2. lia. }
    destruct (lookup_lt_is_Some_2 (head_columns first)
                (List.length (head_columns first) - 3)%nat) as [third_last H3]; [lia|].
    pose proof (set_ar_type_run o first rest third third_last H2 H3) as Hrun.
    destruct (classify third third_last) as [rt c] eqn:Hcl.
    rewrite Hrun. destruct rt, c; simpl; try done.
    intros _. exists first, rest, third, third_last. by split_and!.
  - unfold set_ar_type. change 0 with (Z.of_nat 0). rewrite py_index_nonneg.
    simpl (_ !! _). cbn [of_option]. rewrite bind_lift_ok. cbv zeta.
    change (split TAB (rstrip (one_of NL) first)) with (head_columns first).
    change 2 with (Z.of_nat 2). rewrite py_index_nonneg, H2. done.
Qed.

Lemma parse_unsupported f o :
  unsupported f →
  ∃ o', parse_settings_file f o = Raises UserWarning o' ∧ same_lengths o o' ∧
        adapter_removal_data o' = adapter_removal_data o.
Proof.
  intros Hu. apply classification_inv in Hu
    as (sd & first & rest & third & third_last & Hsd & Hld & H2 & H3 & Hcl).
  pose proof (set_ar_type_run (with_result_data init_result_data o)
                first rest third third_last H2 H3) as Hrun.
  rewrite Hcl in Hrun. simpl in Hrun.
  unfold parse_settings_file. rewrite bind_modify, Hsd, bind_lift_ok.
  unfold bind at 1. unfold AdapterRemoval.set_result_data.
  rewrite Hld. cbn [of_option]. rewrite bind_lift_ok.
  unfold bind at 1. rewrite Hrun.
  eexists. split; [reflexivity|]. done.
Qed.

Lemma parse_warning f o o' :
  parse_settings_file f o = Raises UserWarning o' → unsupported f.
Proof.
  unfold parse_settings_file. rewrite bind_modify. intros H.
  destruct (read_blocks_ok (File.f f)) as [sd Hsd]. rewrite Hsd, bind_lift_ok in H.
  apply bind_raises in H as [H|(? & ? & _ & H)]; [|done].
  unfold AdapterRemoval.set_result_data in H.
  destruct (sd !! "Length distribution") as [data|] eqn:Hld;
    cbn [of_option] in H; [rewrite bind_lift_ok in H | done].
  apply bind_raises in H as [H|(? & o1 & _ & H)].
  - apply set_ar_type_warning in H
      as (first & rest & third & third_last & -> & H2 & H3 & Hcl).
    unfold unsupported, classification, header_columns.
    rewrite Hsd, Hld. simpl. rewrite H2. simpl. rewrite H3. simpl. by rewrite Hcl.
  - exfalso.
    destruct (sd !! "Trimming statistics") as [trim|];
      cbn [of_option] in H; [rewrite bind_lift_ok in H | done].
    apply bind_raises in H as [H|(? & o2 & _ & H)].
    + by apply set_trim_stat_no_warning in H.
    + rewrite bind_lift_ok in H. by apply set_len_dist_no_warning in H.
Qed.

(** ** [process_file] and the loop of [__init__] *)

Lemma process_file_unsupported parsed_data f o :
  unsupported f →
  ∃ o', process_file parsed_data f o = Returns parsed_data o' ∧
        len_dist_plot_data o' = len_dist_plot_data o ∧
        adapter_removal_data o' = adapter_removal_data o.
Proof.
  intros Hu. unfold process_file. rewrite bind_modify.
  destruct (parse_unsupported f (with_s_name (File.s_name f) o) Hu)
    as (o' & -> & [Hl _] & Ha).
  exists o'. done.
Qed.

Lemma process_file_returns parsed_data f o r o' :
  process_file parsed_data f o = Returns r o' →
  (unsupported f ∧ r = parsed_data ∧
     adapter_removal_data o' = adapter_removal_data o) ∨
  (∃ d o1, parse_settings_file f (with_s_name (File.s_name f) o) = Returns d o1 ∧
     r = Some d ∧
     o' = with_adapter_removal_data (<[s_name o1 := d]> (adapter_removal_data o1)) o1).
Proof.
  unfold process_file. rewrite bind_modify.
  destruct (parse_settings_file f _) as [d o1|e o1] eqn:Hp.
  - intros [= <- <-]. right. eauto.
  - destruct e; try done. intros [= <- <-]. left.
    destruct (parse_unsupported f (with_s_name (File.s_name f) o)) as (o2 & Hp2 & _ & Ha).
    { by eapply parse_warning. }
    rewrite Hp in Hp2. injection Hp2 as <-. split; [by eapply parse_warning|done].
Qed.

Lemma process_file_never_warns parsed_data f o e o' :
  process_file parsed_data f o = Raises e o' → e ≠ UserWarning.
Proof.
  unfold process_file. rewrite bind_modify.
  destruct (parse_settings_file f _) as [d o1|e1 o1]; [done|].
  destruct e1; try done; by intros [= <- _].
Qed.

Lemma process_files_unsupported files : ∀ parsed_data o,
  Forall unsupported files →
  ∃ o', for_each process_file parsed_data files o = Returns parsed_data o' ∧
        adapter_removal_data o' = adapter_removal_data o.
Proof.
  induction files as [|f files IH]; intros pd o Hall; cbn [for_each].
  - by exists o.
  - apply Forall_cons in Hall as [Hf Hall].
    destruct (process_file_unsupported pd f o Hf) as (o1 & H1 & _ & Ha1).
    unfold bind. rewrite H1.
    destruct (IH pd o1 Hall) as (o' & -> & Ha). exists o'. split; [done|congruence].
Qed.

(** A parsed file leaves an entry that later files do not remove. *)
Lemma process_files_returns files : ∀ parsed_data o r o',
  for_each process_file parsed_data files o = Returns r o' →
  Forall unsupported files ∨ adapter_removal_data o' ≠ ∅.
Proof.
  induction files as [|f files IH]; intros pd o r o' H; cbn [for_each] in H.
  - left. constructor.
  - apply bind_returns in H as (r1 & o1 & H1 & H).
    destruct (IH _ _ _ _ H) as [Hall|Hne]; [|by right].
    apply process_file_returns in H1 as [(Hu & _ & _)|(d & o2 & _ & _ & ->)].
    + left. by constructor.
    + right.
      destruct (process_files_unsupported files r1
        (with_adapter_removal_data (<[s_name o2:=d]> (adapter_removal_data o2)) o2)
        Hall) as (o3 & H3 & Ha).
      rewrite H in H3. injection H3 as <- <-. rewrite Ha.
      cbn [adapter_removal_data with_adapter_removal_data].
      apply insert_non_empty.
Qed.

Lemma process_files_never_warn files : ∀ parsed_data o e o',
  for_each process_file parsed_data files o = Raises e o' → e ≠ UserWarning.
Proof.
  induction files as [|f files IH]; intros pd o e o' H; cbn [for_each] in H; [done|].
  apply bind_raises in H as [H|(? & ? & _ & H)].
  - by eapply process_file_never_warns.
  - by eapply IH.
Qed.

(** ** What [set_len_dist] leaves alone *)

Lemma lengths_only_bind {A B} (m : M self A) (k : A → M self B) :
  lengths_only m → (∀ a, lengths_only (k a)) → lengths_only (bind m k).
Proof.
  intros Hm Hk o r o' H. apply bind_returns in H as (a & o1 & H1 & H2).
  apply Hm in H1 as [H1 D1]. apply Hk in H2 as [H2 D2]. split.
  - rewrite H2, H1. reflexivity.
  - congruence.
Qed.

Lemma lengths_only_lift {A} (r : result A) : lengths_only (lift r).
Proof.
  intros o a o' H. apply lift_returns in H as [_ ->].
  by rewrite with_len_dist_plot_data_id.
Qed.

Lemma lengths_only_ret {A} (a : A) : lengths_only (ret a).
Proof. intros o r o' [= _ <-]. by rewrite with_len_dist_plot_data_id. Qed.

Lemma lengths_only_get : lengths_only (@get self).
Proof. intros o r o' [= _ <-]. by rewrite with_len_dist_plot_data_id. Qed.

Lemma lengths_only_for_each {A B} (body : B → A → M self B) l :
  (∀ acc x, lengths_only (body acc x)) → ∀ acc, lengths_only (for_each body acc l).
Proof.
  intros Hb. induction l as [|x l IH]; intros acc; cbn [for_each].
  - apply lengths_only_ret.
  - apply lengths_only_bind; auto.
Qed.

Lemma dom_insert_present (ld : len_dist) cat m m' :
  ld !! cat = Some m → dom (<[cat := m']> ld) = dom ld.
Proof.
  intros Hm. rewrite dom_insert_L.
  assert (cat ∈ dom ld) by (apply elem_of_dom; eauto). set_solver.
Qed.

Lemma lengths_only_store cat v l_data : lengths_only (store cat v l_data).
Proof.
  intros o [] o' H. apply store_returns in H as (k & m & d & _ & Hm & _ & ->).
  split; [done|]. cbn [len_dist_plot_data with_len_dist_plot_data].
  by eapply dom_insert_present.
Qed.

Lemma lengths_only_new_sample cat : lengths_only (new_sample cat).
Proof.
  intros o [] o'. unfold new_sample. rewrite bind_get.
  destruct (len_dist_plot_data o !! cat) eqn:Hm; cbn [of_option]; [|done].
  rewrite bind_lift_ok. intros [= <-]. split; [done|].
  cbn [len_dist_plot_data with_len_dist_plot_data].
  by eapply dom_insert_present.
Qed.

Lemma lengths_only_set_len_dist data : lengths_only (set_len_dist data).
Proof.
  unfold set_len_dist. apply lengths_only_for_each. intros _ line.
  unfold len_dist_row. apply lengths_only_bind; [apply lengths_only_lift|].
  intros l_data. apply lengths_only_bind.
  { unfold init_sample. apply lengths_only_bind; [apply lengths_only_get|].
    intros o. apply lengths_only_bind; [apply lengths_only_lift|]. intros m.
    case_match; [apply lengths_only_ret|].
    apply lengths_only_for_each. intros _ c. apply lengths_only_new_sample. }
  intros _. unfold record_row.
  apply lengths_only_bind; [apply lengths_only_get|]. intros o.
  repeat case_match; unfold store_column;
    repeat first [ apply lengths_only_store | apply lengths_only_ret
                 | apply lengths_only_lift
                 | apply lengths_only_bind; [|intros ?] ].
Qed.

(** ** Taking a successful parse apart *)

Lemma set_ar_type_returns data o o1 :
  set_ar_type data o = Returns tt o1 →
  ∃ first rest third third_last rt c,
    data = first :: rest ∧
    head_columns first !! 2%nat = Some third ∧
    head_columns first !! (List.length (head_columns first) - 3)%nat = Some third_last ∧
    classify third third_last = (rt, c) ∧ (rt, c) ≠ (single, true) ∧
    o1 = with___collapsed (Some c) (with___read_type (Some rt) o).
Proof.
  destruct data as [|first rest]; [done|].
  destruct (head_columns first !! 2%nat) as [third|] eqn:H2.
  - assert (Hlen : (3 ≤ List.length (head_columns first))%nat).
    { apply lookup_lt_Some in H2. lia. }
    destruct (lookup_lt_is_Some_2 (head_columns first)
                (List.length (head_columns first) - 3)%nat) as [third_last H3]; [lia|].
    pose proof (set_ar_type_run o first rest third third_last H2 H3) as Hrun.
    destruct (classify third third_last) as [rt c] eqn:Hcl.
    rewrite Hrun. destruct rt, c; simpl; try done; intros [= <-];
      eexists first, rest, third, third_last, _, _; by split_and!.
  - unfold set_ar_type. change 0 with (Z.of_nat 0). rewrite py_index_nonneg.
    simpl (_ !! _). cbn [of_option]. rewrite bind_lift_ok. cbv zeta.
    change (split TAB (rstrip (one_of NL) first)) with (head_columns first).
    change 2 with (Z.of_nat 2). rewrite py_index_nonneg, H2. done.
Qed.

Lemma parse_returns f o d o' :
  parse_settings_file f o = Returns d o' →
  ∃ settings_data len_dist trim o1 o2,
    read_blocks (File.f f) {["header" := []]} None = Ok settings_data ∧
    settings_data !! "Length distribution" = Some len_dist ∧
    settings_data !! "Trimming statistics" = Some trim ∧
    set_ar_type len_dist (with_result_data init_result_data o) = Returns tt o1 ∧
    set_trim_stat trim o1 = Returns tt o2 ∧
    set_len_dist len_dist o2 = Returns tt o' ∧
    d = result_data o'.
Proof.
  unfold parse_settings_file. rewrite bind_modify. intros H.
  destruct (read_blocks _ _ _) as [sd|] eqn:Hsd; [rewrite bind_lift_ok in H|done].
  apply bind_returns in H as ([] & o3 & H & [= <- <-]).
  unfold AdapterRemoval.set_result_data in H.
  destruct (sd !! "Length distribution") as [data|] eqn:Hld;
    cbn [of_option] in H; [rewrite bind_lift_ok in H | done].
  apply bind_returns in H as ([] & o1 & H1 & H).
  destruct (sd !! "Trimming statistics") as [trim|] eqn:Htr;
    cbn [of_option] in H; [rewrite bind_lift_ok in H | done].
  apply bind_returns in H as ([] & o2 & H2 & H).
  rewrite bind_lift_ok in H.
  exists sd, data, trim, o1, o2. by split_and!.
Qed.

Lemma set_trim_stat_returns trim o o2 :
  set_trim_stat trim o = Returns tt o2 →
  ∃ total unaligned aligned discarded_m1 singleton_m1 retained discarded_m2
    singleton_m2 full_length_cp truncated_cp a t,
    parsed_counts trim o = Ok [total; unaligned; aligned; discarded_m1;
      singleton_m1; retained; discarded_m2; singleton_m2; full_length_cp;
      truncated_cp] ∧
    float_of_int aligned = Some a ∧ float_of_int total = Some t ∧
    float_is_zero t = false ∧
    o2 = with_result_data
      (<["percent_aligned" :=
           PFloat (float_round2 (float_div (float_mul a float_100) t))]>
       (derived (bool_decide (__read_type o = Some paired))
          total unaligned aligned retained singleton_m1 singleton_m2
          (store_counts
             (zip required [total; unaligned; aligned; discarded_m1;
                singleton_m1; retained; discarded_m2; singleton_m2;
                full_length_cp; truncated_cp]) (result_data o)))) o.
Proof.
  intros H. unfold parsed_counts.
  destruct (rmap (read_field trim (data_pattern o)) required) as [ns|e] eqn:Hread.
  - pose proof (rmap_length _ _ _ Hread) as Hlen.
    do 11 (destruct ns as [|? ns]; try done).
    rewrite (set_trim_stat_run _ o _ _ _ _ _ _ _ _ _ _ Hread) in H.
    destruct (float_of_int z1) as [a|] eqn:Ha; [|by destruct (float_of_int z)].
    destruct (float_of_int z) as [t|] eqn:Ht; [|done].
    destruct (float_is_zero t) eqn:Hz; [done|].
    injection H as <-. eexists _, _, _, _, _, _, _, _, _, _, a, t. by split_and!.
  - destruct (set_trim_stat_unread _ _ _ Hread) as [rd Hr]. by rewrite Hr in H.
Qed.

(** ** Claims about single files *)



(** C2: a settings file whose length-distribution header classifies the
    run as single-end and collapsed makes [parse_settings_file] raise
    [UserWarning]; the loop of [__init__] then goes on with its local
    [parsed_data] as it was, and the per-sample data and the length
    distributions are what they were before the file. *)
Theorem unsupported_file_skipped (f : File.t (list string))
    (parsed_data : option (gmap string pyval)) (o : self) :
  unsupported f →
  (∃ o', parse_settings_file f (with_s_name (File.s_name f) o)
           = Raises UserWarning o') ∧
  ∃ o', process_file parsed_data f o = Returns parsed_data o' ∧
        adapter_removal_data o' = adapter_removal_data o ∧
        len_dist_plot_data o' = len_dist_plot_data o.
Proof.
  intros Hu. split.
  - destruct (parse_unsupported f (with_s_name (File.s_name f) o) Hu) as (o' & H & _).
    eauto.
  - destruct (process_file_unsupported parsed_data f o Hu) as (o' & H & Hl & Ha).
    eauto.
Qed.

(** [__init__] raises [UserWarning] exactly when every file is skipped. *)
Lemma init_warning analysis_dir files :
  (∃ o, __init__ analysis_dir files = Raises UserWarning o) ↔
  Forall unsupported files.
Proof.
  unfold __init__, process_files. split.
  - intros [o H]. apply bind_raises in H as [H|(r & o1 & H1 & H)].
    + by apply process_files_never_warn in H.
    + rewrite bind_get in H.
      destruct (process_files_returns _ _ _ _ _ H1) as [Hall|Hne]; [done|].
      rewrite bool_decide_eq_false_2 in H; [done|].
      by rewrite map_size_empty_iff.
  - intros Hall.
    destruct (process_files_unsupported files None init_self Hall) as (o1 & H1 & Ha).
    unfold bind at 1. rewrite H1, bind_get.
    rewrite bool_decide_eq_true_2.
    + rewrite bind_modify. eauto.
    + rewrite Ha. done.
Qed.

Lemma init_warning_empty analysis_dir files :
  (∃ o, __init__ analysis_dir files = Raises UserWarning o) ↔
  ∃ r o', process_files files init_self = Returns r o' ∧
          adapter_removal_data o' = ∅.
Proof.
  rewrite init_warning. split.
  - intros Hall.
    destruct (process_files_unsupported files None init_self Hall) as (o1 & H1 & Ha).
    exists None, o1. done.
  - intros (r & o' & H & He).
    destruct (process_files_returns _ _ _ _ _ H) as [Hall|Hne]; done.
Qed.

(** ** The states a run goes through *)

Lemma wf_init : wf init_self ∧
  dom (len_dist_plot_data init_self) = list_to_set categories.
Proof.
  split; [split|].
  - intros c Hc. unfold categories in Hc.
    repeat (apply elem_of_cons in Hc as [->|Hc]; [by eexists|]).
    by apply elem_of_nil in Hc.
  - intros c n Hc.
    assert (Hnone : ∀ c', c' ∈ categories →
              sample_at (len_dist_plot_data init_self) c' n = None).
    { intros c' Hc'. unfold categories in Hc'.
      repeat (apply elem_of_cons in Hc' as [->|Hc']; [done|]).
      by apply elem_of_nil in Hc'. }
    rewrite (Hnone c Hc), (Hnone "mate1" mate1_category). done.
  - cbn [len_dist_plot_data init_self]. by rewrite dom_list_to_map_L.
Qed.

Lemma parse_wf f o :
  wf o → Rbase False (outcome_state (parse_settings_file f o))
               (outcome_state (parse_settings_file f o)).
Proof.
  intros Hw.
  assert (HB : Rbase False o o) by (by split_and!).
  pose proof (parse_settings_file_lock False f o o HB) as H.
  destruct (parse_settings_file f o); simpl in *.
  - apply Rfull_base, H.
  - apply H.
Qed.

Lemma parse_dom f o d o' :
  parse_settings_file f o = Returns d o' →
  dom (len_dist_plot_data o') = dom (len_dist_plot_data o) ∧ s_name o' = s_name o.
Proof.
  intros H.
  apply parse_returns in H as (sd & data & trim & o1 & o2 & _ & _ & _ & H1 & H2 & H3 & _).
  apply set_ar_type_returns in H1
    as (first & rest & third & third_last & rt & c & _ & _ & _ & _ & _ & ->).
  apply set_trim_stat_returns in H2
    as (? & ? & ? & ? & ? & ? & ? & ? & ? & ? & ? & ? & _ & _ & _ & _ & ->).
  apply lengths_only_set_len_dist in H3 as [H3 D3]. rewrite D3. split; [done|].
  rewrite H3. done.
Qed.

Lemma process_file_wf parsed_data f o r o' :
  process_file parsed_data f o = Returns r o' →
  wf o → wf o' ∧ dom (len_dist_plot_data o') = dom (len_dist_plot_data o).
Proof.
  unfold process_file. rewrite bind_modify. intros H Hw.
  assert (Hw0 : wf (with_s_name (File.s_name f) o)) by done.
  pose proof (parse_wf f _ Hw0) as (_ & Hw1 & _).
  destruct (parse_settings_file f _) as [d o1|e o1] eqn:Hp.
  - injection H as <- <-. split; [done|]. apply parse_dom in Hp as [Hd _].
    exact Hd.
  - destruct e; try done. injection H as <- <-.
    destruct (parse_unsupported f (with_s_name (File.s_name f) o)) as (o2 & Hp2 & [Hl _] & _).
    { by eapply parse_warning. }
    rewrite Hp in Hp2. injection Hp2 as <-. split; [done|]. by rewrite Hl.
Qed.

Lemma reachable_wf o :
  reachable o → wf o ∧ dom (len_dist_plot_data o) = list_to_set categories.
Proof.
  induction 1 as [|o pd f r o' _ [IHw IHd] Hstep]; [apply wf_init|].
  destruct (process_file_wf _ _ _ _ _ Hstep IHw) as [Hw Hd].
  split; [done|congruence].
Qed.

(** ** The entries [set_len_dist] records *)

Lemma store_entry cat v l_data o o' :
  store cat v l_data o = Returns tt o' →
  ∃ k, l_data !! 0%nat = Some k ∧
    ∀ c l, entry o' c l = if decide (c = cat ∧ l = k) then Some v else entry o c l.
Proof.
  intros H. apply store_returns in H as (k & m & d & Hk & Hm & Hd & ->).
  exists k. split; [done|]. intros c l. unfold entry.
  destruct (store_effect o cat m d (<[k:=v]> d) Hm Hd) as [_ He]. rewrite He.
  destruct (decide (c = cat)) as [->|Hne].
  - assert (He0 : entries o cat = Some d).
    { unfold entries, sample_at. rewrite Hm. done. }
    rewrite He0. simpl. destruct (decide (l = k)) as [->|Hl].
    + rewrite lookup_insert_eq. by rewrite decide_True.
    + rewrite lookup_insert_ne by done. rewrite decide_False; [done|naive_solver].
  - rewrite decide_False; [done|naive_solver].
Qed.

Lemma store_column_entry cat i l_data o o' :
  store_column cat i l_data o = Returns tt o' →
  ∃ k v, l_data !! 0%nat = Some k ∧ py_index l_data i = Ok v ∧
    ∀ c l, entry o' c l = if decide (c = cat ∧ l = k) then Some v else entry o c l.
Proof.
  unfold store_column. intros H.
  destruct (py_index l_data i) as [v|] eqn:Hv; [rewrite bind_lift_ok in H|done].
  apply store_entry in H as (k & Hk & He). eauto.
Qed.

Lemma record_row_by l_data o rt c :
  __read_type o = Some rt → __collapsed o = Some c → (rt, c) ≠ (single, true) →
  record_row l_data o = record_by (columns rt c) l_data o.
Proof.
  intros Hrt Hc Hne. unfold record_row. rewrite bind_get, Hrt, Hc.
  destruct rt, c; try done.
Qed.

Lemma record_one_entry l_data cat col o o' :
  record_one l_data cat col o = Returns tt o' →
  ∃ k v, l_data !! 0%nat = Some k ∧ count_of l_data col = Ok v ∧
    ∀ c l, entry o' c l = if decide (c = cat ∧ l = k) then Some v else entry o c l.
Proof.
  destruct col as [i|]; simpl.
  - apply store_column_entry.
  - intros H. apply store_entry in H as (k & Hk & He). eauto.
Qed.

Lemma record_by_entries l_data table : ∀ o o',
  NoDup table.*1 → table ≠ [] →
  record_by table l_data o = Returns tt o' →
  ∃ k, l_data !! 0%nat = Some k ∧
    Forall (λ '(cat, col), ∃ v, entry o' cat k = Some v ∧ count_of l_data col = Ok v)
           table ∧
    ∀ cat l, l ≠ k ∨ cat ∉ table.*1 → entry o' cat l = entry o cat l.
Proof.
  induction table as [|[cat col] rest IH]; intros o o' Hnd Hne H; [done|].
  rewrite fmap_cons in Hnd. apply NoDup_cons in Hnd as [Hcat Hnd].
  destruct rest as [|p rest'].
  - cbn [record_by] in H.
    apply record_one_entry in H as (k & v & Hk & Hv & He).
    exists k. split; [done|]. split.
    + constructor; [|constructor]. exists v. rewrite He.
      by rewrite decide_True.
    + intros c l Hcl. rewrite He. rewrite decide_False; [done|].
      intros [-> ->]. destruct Hcl as [?|Hn]; [done|]. apply Hn. set_solver.
  - remember (p :: rest') as rest eqn:Hrest.
    assert (H' : (let* _ := record_one l_data cat col in record_by rest l_data) o
                 = Returns tt o') by (by subst rest).
    clear H. apply bind_returns in H' as ([] & o1 & H1 & H2).
    apply record_one_entry in H1 as (k & v & Hk & Hv & He).
    destruct (IH o1 o' Hnd) as (k' & Hk' & Hall & Hother); [by subst rest|done|].
    assert (k' = k) as -> by congruence.
    exists k. split; [done|]. split.
    + constructor; [|done]. exists v.
      rewrite Hother by (by right). rewrite He. by rewrite decide_True.
    + intros c l Hcl. rewrite Hother.
      * rewrite He. rewrite decide_False; [done|].
        intros [-> ->]. destruct Hcl as [?|Hn]; [done|]. apply Hn. set_solver.
      * destruct Hcl as [?|Hn]; [by left|]. right. set_solver.
Qed.

Lemma columns_NoDup rt c : NoDup (columns rt c).*1 ∧ columns rt c ≠ [].
Proof.
  split; [|by destruct rt, c].
  destruct rt, c; simpl;
    repeat (apply NoDup_cons; split; [set_solver|]); apply NoDup_nil_2.
Qed.

(** One row, from a well-formed state. *)
Lemma init_sample_wf o :
  wf o →
  ∃ o0, init_sample o = Returns tt o0 ∧ wf o0 ∧ present o0 ∧
    o0 = with_len_dist_plot_data (len_dist_plot_data o0) o ∧
    (present o → ∀ c, entries o0 c = entries o c).
Proof.
  intros Hw.
  assert (HR : Rfull False o o) by (by split_and!).
  pose proof (init_sample_lock False o o HR) as Hl.
  destruct (init_sample_effect o (proj1 Hw)) as (ld' & Hrun & _ & Hs).
  rewrite Hrun in Hl. simpl in Hl. destruct Hl as [_ [[[(_ & Hw0 & _) _] _] [Hp0 _]]].
  eexists. split; [exact Hrun|]. split_and!; try done.
  intros Hp c. unfold entries. cbn [len_dist_plot_data with_len_dist_plot_data s_name].
  rewrite Hs. rewrite decide_False; [done|naive_solver].
Qed.

Lemma record_row_wf l_data o o' :
  wf o → present o → record_row l_data o = Returns tt o' →
  wf o' ∧ present o' ∧ __read_type o' = __read_type o ∧
  __collapsed o' = __collapsed o ∧ s_name o' = s_name o.
Proof.
  intros Hw Hp H.
  assert (HR : Rpresent False o o) by (by split_and!).
  pose proof (record_row_lock False l_data o o HR) as Hl.
  assert (Hf : lengths_only (record_row l_data)).
  { unfold record_row.
    apply lengths_only_bind; [apply lengths_only_get|]. intros o0.
    repeat case_match; unfold store_column;
      repeat first [ apply lengths_only_store | apply lengths_only_ret
                   | apply lengths_only_lift
                   | apply lengths_only_bind; [|intros ?] ]. }
  destruct (Hf _ _ _ H) as [Hf' _].
  rewrite H in Hl. simpl in Hl. destruct Hl as [_ [[[(_ & Hw0 & _) _] _] [Hp0 _]]].
  split_and!; try done; by rewrite Hf'.
Qed.

Lemma len_dist_row_entries line o o' rt c :
  wf o → __read_type o = Some rt → __collapsed o = Some c →
  (rt, c) ≠ (single, true) →
  len_dist_row line o = Returns tt o' →
  ∃ l_data k, row_of_line line = Ok l_data ∧ l_data !! 0%nat = Some k ∧
    recorded o' rt c k l_data ∧
    (present o → ∀ cat l, l ≠ k → entry o' cat l = entry o cat l) ∧
    wf o' ∧ present o' ∧ __read_type o' = Some rt ∧ __collapsed o' = Some c ∧
    s_name o' = s_name o.
Proof.
  intros Hw Hrt Hc Hne H. unfold len_dist_row in H.
  destruct (row_of_line line) as [l_data|] eqn:Hrow; [rewrite bind_lift_ok in H|done].
  destruct (init_sample_wf o Hw) as (o0 & H0 & Hw0 & Hp0 & Hf0 & He0).
  unfold bind in H. rewrite H0 in H.
  assert (Hrt0 : __read_type o0 = Some rt) by (by rewrite Hf0).
  assert (Hc0 : __collapsed o0 = Some c) by (by rewrite Hf0).
  assert (Hn0 : s_name o0 = s_name o) by (by rewrite Hf0).
  destruct (record_row_wf _ _ _ Hw0 Hp0 H) as (Hw' & Hp' & Hrt' & Hc' & Hn').
  rewrite (record_row_by _ _ rt c Hrt0 Hc0 Hne) in H.
  destruct (columns_NoDup rt c) as [Hnd Hnn].
  apply record_by_entries in H as (k & Hk & Hall & Hother); [|done..].
  exists l_data, k. split_and!; try done; try congruence.
  intros Hp cat l Hl. rewrite Hother by (by left).
  unfold entry. by rewrite (He0 Hp).
Qed.

Abbreviation rows_loop := (for_each (λ (_ : unit) (line : string), len_dist_row line) tt).

(** Later rows of other lengths leave the counts of a length as they are. *)
Lemma rows_keep rows : ∀ o o' rt c l,
  wf o → present o → __read_type o = Some rt → __collapsed o = Some c →
  (rt, c) ≠ (single, true) →
  rows_loop rows o = Returns tt o' →
  (∀ line r, line ∈ rows → row_of_line line = Ok r → r !! 0%nat ≠ Some l) →
  ∀ cat, entry o' cat l = entry o cat l.
Proof.
  induction rows as [|line rows IH]; intros o o' rt c l Hw Hp Hrt Hc Hne H Hno cat.
  - by injection H as <-.
  - cbn [for_each] in H. apply bind_returns in H as ([] & o1 & H1 & H).
    apply (len_dist_row_entries _ _ _ rt c Hw Hrt Hc Hne) in H1
      as (l_data & k & Hrow & Hk & _ & Hkeep & Hw1 & Hp1 & Hrt1 & Hc1 & _).
    rewrite (IH o1 o' rt c l Hw1 Hp1 Hrt1 Hc1 Hne H).
    + apply Hkeep; [done|]. intros ->. eapply Hno; [|exact Hrow|exact Hk]. set_solver.
    + intros line' r Hin. apply Hno. set_solver.
Qed.

Lemma rows_recorded pre : ∀ line post o o' rt c l_data l,
  wf o → __read_type o = Some rt → __collapsed o = Some c →
  (rt, c) ≠ (single, true) →
  rows_loop (pre ++ line :: post) o = Returns tt o' →
  row_of_line line = Ok l_data → l_data !! 0%nat = Some l →
  (∀ line' r, line' ∈ post → row_of_line line' = Ok r → r !! 0%nat ≠ Some l) →
  recorded o' rt c l l_data.
Proof.
  induction pre as [|p pre IH];
    intros line post o o' rt c l_data l Hw Hrt Hc Hne H Hrow Hl Hno.
  - simpl in H. apply bind_returns in H as ([] & o1 & H1 & H).
    apply (len_dist_row_entries _ _ _ rt c Hw Hrt Hc Hne) in H1
      as (l_data' & k & Hrow' & Hk & Hrec & _ & Hw1 & Hp1 & Hrt1 & Hc1 & _).
    assert (l_data' = l_data) as -> by congruence.
    assert (k = l) as -> by congruence.
    pose proof (rows_keep post o1 o' rt c l Hw1 Hp1 Hrt1 Hc1 Hne H Hno) as Hkeep.
    unfold recorded in *. eapply Forall_impl; [exact Hrec|].
    intros [cat col] (v & Hv & Hcol). exists v. by rewrite Hkeep.
  - simpl in H. apply bind_returns in H as ([] & o1 & H1 & H).
    apply (len_dist_row_entries _ _ _ rt c Hw Hrt Hc Hne) in H1
      as (_ & _ & _ & _ & _ & _ & Hw1 & _ & Hrt1 & Hc1 & _).
    by eapply (IH line post o1 o' rt c l_data l).
Qed.

Lemma rows_parse rows : ∀ o o' rt c,
  wf o → __read_type o = Some rt → __collapsed o = Some c →
  (rt, c) ≠ (single, true) →
  rows_loop rows o = Returns tt o' →
  Forall (λ line, ∃ l_data l,
            row_of_line line = Ok l_data ∧ l_data !! 0%nat = Some l) rows.
Proof.
  induction rows as [|line rows IH]; intros o o' rt c Hw Hrt Hc Hne H; [constructor|].
  cbn [for_each] in H. apply bind_returns in H as ([] & o1 & H1 & H).
  apply (len_dist_row_entries _ _ _ rt c Hw Hrt Hc Hne) in H1
    as (l_data & k & Hrow & Hk & _ & _ & Hw1 & _ & Hrt1 & Hc1 & _).
  constructor; [eauto|]. by eapply IH.
Qed.

(** C4: after a successful parse that starts from an object reached by
    processing files, the length distributions have exactly the seven
    categories ([mate1], [mate2], [singleton], [collapsed],
    [collapsed_truncated], the discarded reads under the key spelled
    [discarged], and [all]); every data row of the length distribution is a
    row of integers with a first cell; and for every length, the last row of
    that length is recorded under the sample name in each of the seven
    categories: the count found in the column fixed by the run mode, or 0
    where the mode has no such column. *)
Theorem length_distribution_recorded (f : File.t (list string)) (o : self)
    (d : gmap string pyval) (o' : self) :
  reachable o →
  parse_settings_file f (with_s_name (File.s_name f) o) = Returns d o' →
  ∃ settings_data first rows rt c,
    read_blocks (File.f f) {["header" := []]} None = Ok settings_data ∧
    settings_data !! "Length distribution" = Some (first :: rows) ∧
    classification f = Some (rt, c) ∧
    s_name o' = File.s_name f ∧
    dom (len_dist_plot_data o') = list_to_set categories ∧
    (columns rt c).*1 = categories ∧
    Forall (λ line, ∃ l_data l,
              row_of_line line = Ok l_data ∧ l_data !! 0%nat = Some l) rows ∧
    ∀ pre line post l_data l,
      rows = (pre ++ line :: post)%list →
      row_of_line line = Ok l_data → l_data !! 0%nat = Some l →
      (∀ line' r, line' ∈ post → row_of_line line' = Ok r → r !! 0%nat ≠ Some l) →
      recorded o' rt c l l_data.
Proof.
  intros Hreach H. apply reachable_wf in Hreach as [Hw Hdom].
  pose proof (parse_dom _ _ _ _ H) as [Hd Hn].
  apply parse_returns in H as (sd & data & trim & o1 & o2 & Hsd & Hld & _ & H1 & H2 & H3 & _).
  apply set_ar_type_returns in H1
    as (first & rows & third & third_last & rt & c & -> & Hc2 & Hc3 & Hcl & Hne & ->).
  apply set_trim_stat_returns in H2
    as (? & ? & ? & ? & ? & ? & ? & ? & ? & ? & ? & ? & _ & _ & _ & _ & ->).
  unfold set_len_dist in H3. cbn [drop] in H3.
  exists sd, first, rows, rt, c.
  split_and!; try done.
  - unfold classification, header_columns. rewrite Hsd, Hld. simpl.
    rewrite Hc2. simpl. rewrite Hc3. simpl. by rewrite Hcl.
  - by rewrite Hd.
  - by destruct rt, c.
  - eapply rows_parse; [| | | exact Hne | exact H3]; done.
  - intros pre line post l_data l -> Hrow Hl Hno.
    eapply rows_recorded; [| | | exact Hne | exact H3 | exact Hrow | exact Hl | exact Hno];
      done.
Qed.

(** ** Independence from the files parsed before *)

(** Two objects give the same result for a file, and the same entries for
    its sample name when they held the same entries for that name. *)
Lemma parse_settings_file_stateless f o1 o2 :
  wf o1 → wf o2 →
  let r1 := parse_settings_file f (with_s_name (File.s_name f) o1) in
  let r2 := parse_settings_file f (with_s_name (File.s_name f) o2) in
  observed r1 = observed r2 ∧
  ((∀ cat, sample_at (len_dist_plot_data o1) cat (File.s_name f)
           = sample_at (len_dist_plot_data o2) cat (File.s_name f)) →
   ∀ cat, entries (outcome_state r1) cat = entries (outcome_state r2) cat).
Proof.
  intros W1 W2 r1 r2.
  set (P := ∀ cat, sample_at (len_dist_plot_data o1) cat (File.s_name f)
                   = sample_at (len_dist_plot_data o2) cat (File.s_name f)).
  assert (HB : Rbase P (with_s_name (File.s_name f) o1)
                       (with_s_name (File.s_name f) o2)).
  { split_and!; [done|done|done|]. intros HP cat. apply HP. }
  pose proof (parse_settings_file_lock P f _ _ HB) as H.
  fold r1 r2 in H. split; [by eapply rel_out_observed|].
  intros HP. destruct r1, r2; simpl in *; try done.
  - destruct H as [_ HF]. apply Rfull_base in HF as (_ & _ & _ & Ha). by apply Ha.
  - destruct H as [_ (_ & _ & _ & Ha)]. by apply Ha.
Qed.

Lemma new_name_no_entries o n :
  wf o → dom (len_dist_plot_data o) = list_to_set categories →
  sample_at (len_dist_plot_data o) "mate1" n = None →
  ∀ cat, sample_at (len_dist_plot_data o) cat n = None.
Proof.
  intros [_ Hs] Hd Hn cat. destruct (decide (cat ∈ categories)) as [Hc|Hc].
  - apply eq_None_not_Some. rewrite (Hs _ n Hc), Hn. by intros [? ?].
  - unfold sample_at. replace (len_dist_plot_data o !! cat) with (@None (gmap string (gmap Z Z))); [done|].
    symmetry. apply not_elem_of_dom. rewrite Hd. by rewrite elem_of_list_to_set.
Qed.

(** A parsed record is stored under the sample name of its file. *)
Lemma process_file_stores parsed_data f o d o1 :
  parse_settings_file f (with_s_name (File.s_name f) o) = Returns d o1 →
  ∃ o', process_file parsed_data f o = Returns (Some d) o' ∧
        adapter_removal_data o' !! File.s_name f = Some d ∧
        len_dist_plot_data o' = len_dist_plot_data o1 ∧
        s_name o' = File.s_name f.
Proof.
  intros Hp. unfold process_file. rewrite bind_modify, Hp.
  apply parse_dom in Hp as [_ Hn]. cbn [s_name with_s_name] in Hn.
  eexists. split; [reflexivity|]. cbn. rewrite Hn. split; [apply lookup_insert_eq|done].
Qed.

End WithFloat.
End AdapterRemovalFacts.

(** ** Dictionaries in insertion order *)

Module DictFacts.
Section DictFacts.
Context {A : Type}.
Implicit Types (d : Dict.t A) (k : string) (v : A).

Lemma get_set_eq k v d : Dict.get k (Dict.set k v d) = Some v.
Proof.
  induction d as [|[k' v'] d IH]; simpl.
  - by rewrite decide_True.
  - destruct (decide (k' = k)); simpl.
    + by rewrite decide_True.
    + by rewrite decide_False.
Qed.

Lemma get_set_ne k k' v d : k ≠ k' → Dict.get k' (Dict.set k v d) = Dict.get k' d.
Proof.
  intros Hne. induction d as [|[k0 v0] d IH]; simpl.
  - by rewrite decide_False.
  - destruct (decide (k0 = k)) as [->|]; simpl.
    + by rewrite !decide_False.
    + destruct (decide (k0 = k')); done.
Qed.

Lemma get_is_Some k d : is_Some (Dict.get k d) ↔ k ∈ Dict.keys d.
Proof.
  unfold Dict.keys. induction d as [|[k0 v0] d IH]; simpl.
  - split; [by intros [? ?] | by intros ?%elem_of_nil].
  - destruct (decide (k0 = k)) as [->|Hne].
    + split; [set_solver | eauto].
    + rewrite IH. set_solver.
Qed.

Lemma keys_set k v d :
  Dict.keys (Dict.set k v d)
  = if decide (k ∈ Dict.keys d) then Dict.keys d else (Dict.keys d ++ [k])%list.
Proof.
  unfold Dict.keys. induction d as [|[k0 v0] d IH].
  - rewrite decide_False; [done | set_solver].
  - cbn [Dict.set]. destruct (decide (k0 = k)) as [->|Hne].
    + rewrite decide_True; [done | set_solver].
    + rewrite !fmap_cons, IH. cbn [fst].
      destruct (decide (k ∈ d.*1)).
      * rewrite decide_True; [done | set_solver].
      * rewrite decide_False; [done | set_solver].
Qed.

Lemma keys_set_NoDup k v d : NoDup (Dict.keys d) → NoDup (Dict.keys (Dict.set k v d)).
Proof.
  intros Hnd. rewrite keys_set. case_decide; [done|].
  apply NoDup_app. split_and!; [done| |apply NoDup_singleton]. set_solver.
Qed.

Lemma elem_of_keys_set k k' v d :
  k' ∈ Dict.keys (Dict.set k v d) ↔ k' = k ∨ k' ∈ Dict.keys d.
Proof. rewrite keys_set. case_decide; set_solver. Qed.

Lemma get_elem_of k v d : NoDup (Dict.keys d) → (k, v) ∈ d → Dict.get k d = Some v.
Proof.
  unfold Dict.keys. induction d as [|[k0 v0] d IH]; simpl; intros Hnd Hin.
  - by apply elem_of_nil in Hin.
  - apply NoDup_cons in Hnd as [Hk0 Hnd].
    apply elem_of_cons in Hin as [[= <- <-]|Hin].
    + by rewrite decide_True.
    + rewrite decide_False; [by apply IH|].
      intros ->. apply Hk0. apply list_elem_of_fmap. by exists (k, v).
Qed.

Lemma get_Some_elem_of k v d : Dict.get k d = Some v → (k, v) ∈ d.
Proof.
  induction d as [|[k0 v0] d IH]; simpl; [done|].
  destruct (decide (k0 = k)) as [->|Hne].
  - intros [= ->]. set_solver.
  - intros H. set_solver.
Qed.

End DictFacts.
End DictFacts.

(** ** pycoQC: loading the files *)

Module PycoqcFacts.
Import Pycoqc PycoqcSpec DictFacts.

Section WithLoader.
Context {F : PyFloat}.
Variable yaml_load : string → option pyval.

Lemma load_file_run u f o :
  load_file yaml_load u f o
  = match yaml_load (File.f f) with
    | Some data => Returns tt (loaded f data o)
    | None =>
        Raises YAMLError
          (if Dict.contains (File.s_name f) (pycoqc_data o)
           then add_log (DEBUG, duplicate_message f) o else o)
    end.
Proof.
  unfold load_file, loaded, parse_logs, bind, get, modify, ret, lift.
  destruct (Dict.contains _ _); destruct (yaml_load _); reflexivity.
Qed.

Lemma for_each_app {S A B} (body : B → A → M S B) l1 l2 : ∀ acc s,
  for_each body acc (l1 ++ l2)%list s
  = bind (for_each body acc l1) (λ acc', for_each body acc' l2) s.
Proof.
  induction l1 as [|x l1 IH]; intros acc s; cbn [for_each app]; [done|].
  unfold bind. destruct (body acc x s) as [b s1|e s1]; [|done]. rewrite IH. reflexivity.
Qed.

Lemma load_files_cons f files o :
  load_files yaml_load (f :: files) o
  = match yaml_load (File.f f) with
    | Some data => load_files yaml_load files (loaded f data o)
    | None =>
        Raises YAMLError
          (if Dict.contains (File.s_name f) (pycoqc_data o)
           then add_log (DEBUG, duplicate_message f) o else o)
    end.
Proof.
  unfold load_files. cbn [for_each]. unfold bind. rewrite load_file_run.
  by destruct (yaml_load _).
Qed.

(** Only the loader makes the loop fail, and it completes when every file
    deserialises. *)
Lemma load_files_raises files o e o' :
  load_files yaml_load files o = Raises e o' → e = YAMLError.
Proof.
  revert o. induction files as [|f files IH]; intros o; [done|].
  rewrite load_files_cons. destruct (yaml_load _); [apply IH|]. by intros [= <- _].
Qed.

Lemma load_files_total files o :
  Forall (λ f, is_Some (yaml_load (File.f f))) files →
  ∃ o', load_files yaml_load files o = Returns tt o'.
Proof.
  intros Hall. revert o. induction Hall as [|f files [data Hf] _ IH]; intros o.
  - by exists o.
  - rewrite load_files_cons, Hf. apply IH.
Qed.

Lemma load_files_loads files o o' :
  load_files yaml_load files o = Returns tt o' →
  Forall (λ f, is_Some (yaml_load (File.f f))) files.
Proof.
  revert o. induction files as [|f files IH]; intros o; [by constructor|].
  rewrite load_files_cons. destruct (yaml_load _) eqn:Hf; [|done].
  intros H. constructor; [by rewrite Hf | by eapply IH].
Qed.

(** Files under other names leave the entry of a name alone. *)
Lemma load_files_keep n files : ∀ o o',
  load_files yaml_load files o = Returns tt o' →
  (∀ g, g ∈ files → File.s_name g ≠ n) →
  Dict.get n (pycoqc_data o') = Dict.get n (pycoqc_data o).
Proof.
  induction files as [|f files IH]; intros o o'.
  - by intros [= <-].
  - rewrite load_files_cons. destruct (yaml_load _) as [data|]; [|done].
    intros H Hne. rewrite (IH _ _ H); [|intros g Hg; apply Hne; set_solver].
    cbn [loaded pycoqc_data]. apply get_set_ne. apply Hne. set_solver.
Qed.

Lemma load_files_split pre f post o o' :
  load_files yaml_load (pre ++ f :: post) o = Returns tt o' →
  ∃ o1 data, load_files yaml_load pre o = Returns tt o1 ∧
    yaml_load (File.f f) = Some data ∧
    load_files yaml_load post (loaded f data o1) = Returns tt o'.
Proof.
  unfold load_files at 1. rewrite for_each_app. intros H.
  apply bind_returns in H as ([] & o1 & H1 & H).
  change (load_files yaml_load (f :: post) o1 = Returns tt o') in H.
  rewrite load_files_cons in H. destruct (yaml_load _) as [data|] eqn:Hf; [|done].
  by exists o1, data.
Qed.

(** The last file under a name decides the entry of that name. *)
Lemma load_files_last pre f post o o' :
  load_files yaml_load (pre ++ f :: post) o = Returns tt o' →
  (∀ g, g ∈ post → File.s_name g ≠ File.s_name f) →
  Dict.get (File.s_name f) (pycoqc_data o') = yaml_load (File.f f).
Proof.
  intros H Hpost. apply load_files_split in H as (o1 & data & _ & -> & H).
  rewrite (load_files_keep _ _ _ _ H Hpost). apply get_set_eq.
Qed.

Lemma load_files_keys files : ∀ o o',
  load_files yaml_load files o = Returns tt o' →
  (NoDup (Dict.keys (pycoqc_data o)) → NoDup (Dict.keys (pycoqc_data o'))) ∧
  ∀ n, n ∈ Dict.keys (pycoqc_data o')
       ↔ n ∈ Dict.keys (pycoqc_data o) ∨ ∃ f, f ∈ files ∧ File.s_name f = n.
Proof.
  induction files as [|f files IH]; intros o o'.
  - intros [= <-]. split; [done|]. intros n. split; [by left|].
    intros [?|(f & Hf & _)]; [done|]. by apply elem_of_nil in Hf.
  - rewrite load_files_cons. destruct (yaml_load _) as [data|]; [|done].
    intros H. destruct (IH _ _ H) as [Hnd Hk]. split.
    + intros H0. apply Hnd. cbn [loaded pycoqc_data]. by apply keys_set_NoDup.
    + intros n. rewrite Hk. cbn [loaded pycoqc_data]. rewrite elem_of_keys_set.
      split.
      * intros [[->|?]|(g & Hg & Hn)]; [right; exists f; set_solver | by left |].
        right. exists g. set_solver.
      * intros [?|(g & Hg & Hn)]; [by left; right|].
        apply elem_of_cons in Hg as [->|Hg]; [by left; left|]. right. by exists g.
Qed.

(** The log only grows, and a file whose name is taken is logged. *)
Lemma load_files_log_mono files : ∀ o o' r,
  load_files yaml_load files o = Returns tt o' → r ∈ log o → r ∈ log o'.
Proof.
  induction files as [|f files IH]; intros o o' r.
  - by intros [= <-].
  - rewrite load_files_cons. destruct (yaml_load _) as [data|]; [|done].
    intros H Hr. apply (IH _ _ _ H). cbn [loaded log].
    destruct (Dict.contains _ _); set_solver.
Qed.

Lemma load_files_duplicate_logged pre f post o o' :
  load_files yaml_load (pre ++ f :: post) o = Returns tt o' →
  (∃ g, g ∈ pre ∧ File.s_name g = File.s_name f) →
  (DEBUG, duplicate_message f) ∈ log o'.
Proof.
  intros H Hdup. apply load_files_split in H as (o1 & data & H1 & _ & H).
  apply (load_files_log_mono _ _ _ _ H). cbn [loaded log].
  apply load_files_keys in H1 as [_ Hk].
  assert (Hin : File.s_name f ∈ Dict.keys (pycoqc_data o1)) by (apply Hk; by right).
  unfold Dict.contains. rewrite bool_decide_eq_true_2; [set_solver|].
  by apply get_is_Some.
Qed.

(** ** pycoQC: [setup_data] *)

Lemma display_into_lookup entries : ∀ m row,
  display_into m entries = Ok row →
  NoDup entries.*1 →
  (∀ k e, (k, e) ∈ entries → ∃ v, e = Ok v ∧ row !! k = Some v) ∧
  (∀ k, k ∉ entries.*1 → row !! k = m !! k).
Proof.
  induction entries as [|[k e] entries IH]; intros m row; simpl.
  - intros [= <-] _. split; [|done]. intros k e H. by apply elem_of_nil in H.
  - destruct e as [v|err]; simpl; [|done]. intros H Hnd.
    apply NoDup_cons in Hnd as [Hk Hnd].
    destruct (IH _ _ H Hnd) as [Hin Hout]. split.
    + intros k' e' [[= -> ->]|Hin']%elem_of_cons.
      * exists v. split; [done|]. rewrite (Hout _ Hk). apply lookup_insert_eq.
      * by apply Hin.
    + intros k' Hk'. rewrite Hout by set_solver. apply lookup_insert_ne. set_solver.
Qed.

Lemma display_lookup entries row :
  display entries = Ok row →
  NoDup entries.*1 →
  (∀ k e, (k, e) ∈ entries → ∃ v, e = Ok v ∧ row !! k = Some v) ∧
  dom row = list_to_set entries.*1.
Proof.
  intros H Hnd. destruct (display_into_lookup _ _ _ H Hnd) as [Hin Hout].
  split; [done|]. apply set_eq. intros k.
  rewrite elem_of_dom, elem_of_list_to_set. split.
  - intros Hs. destruct (decide (k ∈ entries.*1)) as [|Hn]; [done|].
    rewrite (Hout _ Hn), lookup_empty in Hs. by destruct Hs.
  - intros ([k' e] & -> & Hke)%list_elem_of_fmap.
    destruct (Hin _ _ Hke) as (v & _ & Hv). simpl. by rewrite Hv.
Qed.

Lemma display_into_defined entries : ∀ m,
  (∀ k e, (k, e) ∈ entries → ∃ v, e = Ok v) →
  ∃ row, display_into m entries = Ok row.
Proof.
  induction entries as [|[k e] entries IH]; intros m Hall; simpl; [by eexists|].
  destruct (Hall k e) as [v ->]; [set_solver|]. simpl.
  apply IH. intros k' e' Hin. apply (Hall k' e'). set_solver.
Qed.

Lemma table_entries_NoDup sd : NoDup (table_entries sd).*1.
Proof. cbn. repeat (apply NoDup_cons; split; [set_solver|]). apply NoDup_nil_2. Qed.

Lemma reads_entries_NoDup sd : NoDup (reads_entries sd).*1.
Proof. cbn. repeat (apply NoDup_cons; split; [set_solver|]). apply NoDup_nil_2. Qed.

Lemma bases_entries_NoDup sd : NoDup (bases_entries sd).*1.
Proof. cbn. repeat (apply NoDup_cons; split; [set_solver|]). apply NoDup_nil_2. Qed.

(** What one turn of the loop stores under the sample. *)
Lemma setup_sample_ok acc sample sd acc' :
  setup_sample acc sample sd = Ok acc' →
  ∃ row reads bases,
    display (table_entries sd) = Ok row ∧
    display (reads_entries sd) = Ok reads ∧
    display (bases_entries sd) = Ok bases ∧
    data_for_table acc' = Dict.set sample row (data_for_table acc) ∧
    reads_data acc' = Dict.set sample reads (reads_data acc) ∧
    bases_data acc' = Dict.set sample bases (bases_data acc).
Proof.
  unfold setup_sample.
  destruct (display (table_entries sd)) as [row|]; simpl; [|done].
  destruct (display (reads_entries sd)) as [reads|]; simpl; [|done].
  destruct (display (bases_entries sd)) as [bases|]; simpl; [|done].
  repeat (match goal with |- context [rbind ?r _] => destruct r; simpl; [|done] end).
  intros [= <-]. by exists row, reads, bases.
Qed.

(** Whether a turn raises does not depend on what was collected before. *)
Lemma setup_sample_defined acc acc' sample sd st :
  setup_sample acc sample sd = Ok st → ∃ st', setup_sample acc' sample sd = Ok st'.
Proof.
  unfold setup_sample.
  repeat (match goal with |- context [rbind ?r _] => destruct r; simpl; [|done] end).
  intros _. by eexists.
Qed.

Lemma setup_items_keep items : ∀ acc st sample,
  setup_items items acc = Ok st → sample ∉ items.*1 →
  Dict.get sample (data_for_table st) = Dict.get sample (data_for_table acc) ∧
  Dict.get sample (reads_data st) = Dict.get sample (reads_data acc) ∧
  Dict.get sample (bases_data st) = Dict.get sample (bases_data acc).
Proof.
  induction items as [|[s sd] items IH]; intros acc st sample; simpl.
  - by intros [= <-].
  - destruct (setup_sample acc s sd) as [acc'|] eqn:Hs; simpl; [|done].
    intros H Hn. apply not_elem_of_cons in Hn as [Hne Hn].
    destruct (IH _ _ _ H Hn) as (-> & -> & ->).
    apply setup_sample_ok in Hs as (? & ? & ? & _ & _ & _ & -> & -> & ->).
    by rewrite !get_set_ne.
Qed.

Lemma setup_items_get items : ∀ acc st sample sd,
  setup_items items acc = Ok st → NoDup items.*1 → (sample, sd) ∈ items →
  ∃ row reads bases,
    display (table_entries sd) = Ok row ∧
    display (reads_entries sd) = Ok reads ∧
    display (bases_entries sd) = Ok bases ∧
    Dict.get sample (data_for_table st) = Some row ∧
    Dict.get sample (reads_data st) = Some reads ∧
    Dict.get sample (bases_data st) = Some bases.
Proof.
  induction items as [|[s sd0] items IH]; intros acc st sample sd; simpl.
  - intros _ _ H. by apply elem_of_nil in H.
  - destruct (setup_sample acc s sd0) as [acc'|] eqn:Hs; simpl; [|done].
    intros H Hnd Hin. apply NoDup_cons in Hnd as [Hs0 Hnd].
    apply elem_of_cons in Hin as [[= -> ->]|Hin]; [|by eapply IH].
    destruct (setup_items_keep _ _ _ _ H Hs0) as (-> & -> & ->).
    apply setup_sample_ok in Hs as (row & reads & bases & ? & ? & ? & -> & -> & ->).
    exists row, reads, bases. by rewrite !get_set_eq.
Qed.

Lemma setup_items_defined items : ∀ acc,
  (∀ sample sd, (sample, sd) ∈ items → ∃ st, setup_sample empty_setup sample sd = Ok st) →
  ∃ st, setup_items items acc = Ok st.
Proof.
  induction items as [|[s sd] items IH]; intros acc Hall; simpl; [by eexists|].
  destruct (Hall s sd) as [st0 H0]; [set_solver|].
  destruct (setup_sample_defined _ acc _ _ _ H0) as [st' ->]. simpl.
  apply IH. intros s' sd' Hin. apply Hall. set_solver.
Qed.

Lemma setup_data_get o st sample sd :
  setup_data o = Ok st →
  NoDup (Dict.keys (pycoqc_data o)) →
  Dict.get sample (pycoqc_data o) = Some sd →
  ∃ row reads bases,
    display (table_entries sd) = Ok row ∧
    display (reads_entries sd) = Ok reads ∧
    display (bases_entries sd) = Ok bases ∧
    Dict.get sample (data_for_table st) = Some row ∧
    Dict.get sample (reads_data st) = Some reads ∧
    Dict.get sample (bases_data st) = Some bases.
Proof.
  intros H Hnd Hg. eapply setup_items_get; [exact H | exact Hnd |].
  by apply get_Some_elem_of.
Qed.

(** ** pycoQC: exceptions of [setup_data] *)

Lemma fails_only_py_getitem v k : fails_only not_warning (py_getitem v k).
Proof.
  unfold py_getitem. destruct v, k;
    first [ by intros e [= <-]
          | by apply fails_only_of_option
          | by apply fails_only_py_index ].
Qed.

Lemma fails_only_getpath path : ∀ v, fails_only not_warning (getpath v path).
Proof.
  induction path as [|k path IH]; intros v; simpl; [by intros e|].
  apply fails_only_rbind; [apply fails_only_py_getitem | done].
Qed.

Lemma fails_only_as_float v : fails_only not_warning (as_float v).
Proof.
  unfold as_float, to_float.
  destruct v; simpl;
    first [ by intros e [= <-] | by intros e | by apply fails_only_of_option ].
Qed.

Lemma fails_only_py_sub a b : fails_only not_warning (py_sub a b).
Proof.
  unfold py_sub.
  destruct (as_int a), (as_int b); try (by intros e);
    destruct a, b; try (by intros e [= <-]);
    (apply fails_only_rbind; [apply fails_only_as_float | intros ?];
     apply fails_only_rbind; [apply fails_only_as_float | intros ?]; by intros e).
Qed.

Lemma fails_only_dict_zip xs ys : fails_only not_warning (dict_zip xs ys).
Proof.
  unfold dict_zip.
  apply fails_only_rbind; [destruct xs; simpl; by intros e [= <-] | intros kx].
  apply fails_only_rbind; [destruct ys; simpl; by intros e [= <-] | intros vy].
  cbv zeta. destruct (forallb _ _); by intros e [= <-].
Qed.

Lemma fails_only_hist_plot sd reads hist :
  fails_only not_warning (hist_plot sd reads hist).
Proof.
  unfold hist_plot.
  apply fails_only_rbind; [apply fails_only_getpath | intros xs].
  apply fails_only_rbind; [apply fails_only_getpath | intros ys].
  apply fails_only_dict_zip.
Qed.

Lemma fails_only_display_into entries : ∀ m,
  Forall (λ ke, fails_only not_warning ke.2) entries →
  fails_only not_warning (display_into m entries).
Proof.
  induction entries as [|[k e] entries IH]; intros m Hall; simpl; [by intros e|].
  apply Forall_cons in Hall as [He Hall].
  apply fails_only_rbind; [exact He | intros v]. by apply IH.
Qed.

Lemma fails_only_difference sd field : fails_only not_warning (difference sd field).
Proof.
  unfold difference.
  apply fails_only_rbind; [apply fails_only_getpath | intros a].
  apply fails_only_rbind; [apply fails_only_getpath | intros p].
  apply fails_only_py_sub.
Qed.

Lemma fails_only_setup_sample acc sample sd :
  fails_only not_warning (setup_sample acc sample sd).
Proof.
  unfold setup_sample, display, table_entries, reads_entries, bases_entries.
  repeat (apply fails_only_rbind;
    [ first [ apply fails_only_hist_plot
            | apply fails_only_display_into;
              repeat (apply Forall_cons; split;
                [cbn [snd];
                 first [apply fails_only_getpath | apply fails_only_difference]|]);
              apply Forall_nil_2 ]
    | intros ? ]).
  by intros e.
Qed.

Lemma fails_only_setup_items items : ∀ acc,
  fails_only not_warning (setup_items items acc).
Proof.
  induction items as [|[s sd] items IH]; intros acc; simpl; [by intros e|].
  apply fails_only_rbind; [apply fails_only_setup_sample | done].
Qed.

(** ** pycoQC: [__init__] *)

Lemma pycoqc_init_returns files st o :
  __init__ yaml_load files = Returns st o ↔
  load_files yaml_load files init_self = Returns tt o ∧
  pycoqc_data o ≠ [] ∧ setup_data o = Ok st.
Proof.
  unfold __init__, bind, get.
  destruct (load_files yaml_load files init_self) as [[] o1|e o1]; [|naive_solver].
  case_bool_decide as Hlen.
  - split; [done|]. intros ([= ->] & Hne & _). by destruct (pycoqc_data o).
  - destruct (setup_data o1) as [st1|e] eqn:Hs; simpl.
    + split.
      * intros [= <- <-]. split_and!; [done| |done]. intros Hd. by rewrite Hd in Hlen.
      * intros ([= ->] & _ & H). rewrite Hs in H. by injection H as ->.
    + split; [done|]. intros ([= ->] & _ & H). by rewrite Hs in H.
Qed.

Lemma pycoqc_init_warning_empty files :
  (∃ o, __init__ yaml_load files = Raises UserWarning o) ↔
  ∃ o', load_files yaml_load files init_self = Returns tt o' ∧ pycoqc_data o' = [].
Proof.
  unfold __init__, bind, get.
  destruct (load_files yaml_load files init_self) as [[] o1|e o1] eqn:Hl.
  - case_bool_decide as Hlen.
    + split; [|by eexists]. intros _. exists o1. split; [done|].
      by destruct (pycoqc_data o1).
    + split.
      * intros [o H]. apply lift_raises in H as [H _].
        by apply fails_only_setup_items in H.
      * intros (o' & [= <-] & Hd). by rewrite Hd in Hlen.
  - split; [|by intros (? & ? & _)]. intros [o [= -> ->]].
    by apply load_files_raises in Hl.
Qed.

Lemma pycoqc_init_warning files :
  (∃ o, __init__ yaml_load files = Raises UserWarning o) ↔ files = [].
Proof.
  rewrite pycoqc_init_warning_empty. split.
  - intros (o' & H & Hd). destruct files as [|f files]; [done|].
    apply load_files_keys in H as [_ Hk].
    assert (Hin : File.s_name f ∈ Dict.keys (pycoqc_data o')).
    { apply Hk. right. exists f. set_solver. }
    rewrite Hd in Hin. by apply elem_of_nil in Hin.
  - intros ->. by exists init_self.
Qed.

Lemma setup_items_each items : ∀ acc st sample sd,
  setup_items items acc = Ok st → (sample, sd) ∈ items →
  ∃ st', setup_sample empty_setup sample sd = Ok st'.
Proof.
  induction items as [|[s sd0] items IH]; intros acc st sample sd; simpl.
  - intros _ H. by apply elem_of_nil in H.
  - destruct (setup_sample acc s sd0) as [acc'|] eqn:Hs; simpl; [|done].
    intros H Hin. apply elem_of_cons in Hin as [[= -> ->]|Hin]; [|by eapply IH].
    by eapply setup_sample_defined.
Qed.

Lemma setup_data_returns o :
  (∃ st, setup_data o = Ok st) ↔
  ∀ sample sd, (sample, sd) ∈ pycoqc_data o →
    ∃ st', setup_sample empty_setup sample sd = Ok st'.
Proof.
  split.
  - intros [st H] sample sd Hin. by eapply setup_items_each.
  - apply setup_items_defined.
Qed.

Lemma init_self_NoDup : NoDup (Dict.keys (pycoqc_data init_self)).
Proof. apply NoDup_nil_2. Qed.

(** The state [__init__] returns in holds each name once, and the records
    of a sample are those of its document. *)
Lemma pycoqc_init_get files st o sample sd :
  __init__ yaml_load files = Returns st o →
  Dict.get sample (pycoqc_data o) = Some sd →
  ∃ row reads bases,
    display (table_entries sd) = Ok row ∧
    display (reads_entries sd) = Ok reads ∧
    display (bases_entries sd) = Ok bases ∧
    Dict.get sample (data_for_table st) = Some row ∧
    Dict.get sample (reads_data st) = Some reads ∧
    Dict.get sample (bases_data st) = Some bases.
Proof.
  intros (Hl & _ & Hs)%pycoqc_init_returns Hg.
  apply load_files_keys in Hl as [Hnd _].
  eapply setup_data_get; [exact Hs | apply Hnd, init_self_NoDup | exact Hg].
Qed.

(** C5: in the table [setup_data] returns, the row of a sample holds, under
    each of its thirteen keys, the value found in the sample's document by
    the fixed lookups: the medians at index 50 of [len_percentiles] and
    [qual_score_percentiles] under [basecall], the other fields directly,
    from the [All Reads] branch for the [all_] keys and from the
    [Pass Reads] branch for the [passed_] keys, the run duration from
    [All Reads] only.  [setup_data] returns exactly when these records can
    be built for every sample. *)
Theorem setup_data_projection files o sample sample_data :
  load_files yaml_load files init_self = Returns tt o →
  Dict.get sample (pycoqc_data o) = Some sample_data →
  ((∃ st, setup_data o = Ok st) ↔
   ∀ s d, (s, d) ∈ pycoqc_data o → ∃ st', setup_sample empty_setup s d = Ok st') ∧
  ∀ st, setup_data o = Ok st →
  ∃ row,
    Dict.get sample (data_for_table st) = Some row ∧
    dom row = list_to_set
      ["all_median_read_length"; "all_median_phred_score"; "all_n50";
       "all_run_duration"; "all_channels"; "all_reads"; "all_bases";
       "passed_median_read_length"; "passed_median_phred_score"; "passed_n50";
       "passed_channels"; "passed_reads"; "passed_bases"] ∧
    let projects key path :=
      ∃ v, getpath sample_data path = Ok v ∧ row !! key = Some v in
    projects "all_median_read_length"
      [KStr "All Reads"; KStr "basecall"; KStr "len_percentiles"; KInt 50] ∧
    projects "all_median_phred_score"
      [KStr "All Reads"; KStr "basecall"; KStr "qual_score_percentiles"; KInt 50] ∧
    projects "all_n50" [KStr "All Reads"; KStr "basecall"; KStr "N50"] ∧
    projects "all_run_duration" [KStr "All Reads"; KStr "run"; KStr "run_duration"] ∧
    projects "all_channels" [KStr "All Reads"; KStr "run"; KStr "active_channels"] ∧
    projects "all_reads" [KStr "All Reads"; KStr "basecall"; KStr "reads_number"] ∧
    projects "all_bases" [KStr "All Reads"; KStr "basecall"; KStr "bases_number"] ∧
    projects "passed_median_read_length"
      [KStr "Pass Reads"; KStr "basecall"; KStr "len_percentiles"; KInt 50] ∧
    projects "passed_median_phred_score"
      [KStr "Pass Reads"; KStr "basecall"; KStr "qual_score_percentiles"; KInt 50] ∧
    projects "passed_n50" [KStr "Pass Reads"; KStr "basecall"; KStr "N50"] ∧
    projects "passed_channels" [KStr "Pass Reads"; KStr "run"; KStr "active_channels"] ∧
    projects "passed_reads" [KStr "Pass Reads"; KStr "basecall"; KStr "reads_number"] ∧
    projects "passed_bases" [KStr "Pass Reads"; KStr "basecall"; KStr "bases_number"].
Proof.
  intros Hl Hg. split; [apply setup_data_returns|]. intros st Hs.
  apply load_files_keys in Hl as [Hnd _]. specialize (Hnd init_self_NoDup).
  destruct (setup_data_get _ _ _ _ Hs Hnd Hg) as (row & _ & _ & Hrow & _ & _ & Hr & _).
  exists row. split; [done|].
  destruct (display_lookup _ _ Hrow (table_entries_NoDup _)) as [Hin Hdom].
  split; [exact Hdom|]. cbv zeta.
  split_and!;
    (eapply Hin; unfold table_entries, basecall, run; cbn [app];
     repeat first [apply list_elem_of_here | apply list_elem_of_further]).
Qed.

(** C9: when the read and base counts of a sample are integers, the two
    bar-chart records of the sample hold the passed count and the
    difference of the all and passed counts, so that in each record
    passed and non-passed add up to the all count. *)
Theorem passed_and_non_passed_add_up files st o sample sample_data
    (all_reads passed_reads all_bases passed_bases : Z) :
  __init__ yaml_load files = Returns st o →
  Dict.get sample (pycoqc_data o) = Some sample_data →
  getpath sample_data [KStr "All Reads"; KStr "basecall"; KStr "reads_number"]
    = Ok (PInt all_reads) →
  getpath sample_data [KStr "Pass Reads"; KStr "basecall"; KStr "reads_number"]
    = Ok (PInt passed_reads) →
  getpath sample_data [KStr "All Reads"; KStr "basecall"; KStr "bases_number"]
    = Ok (PInt all_bases) →
  getpath sample_data [KStr "Pass Reads"; KStr "basecall"; KStr "bases_number"]
    = Ok (PInt passed_bases) →
  ∃ reads bases non_passed_reads non_passed_bases,
    Dict.get sample (reads_data st) = Some reads ∧
    Dict.get sample (bases_data st) = Some bases ∧
    reads !! "passed_reads" = Some (PInt passed_reads) ∧
    reads !! "non_passed_reads" = Some (PInt non_passed_reads) ∧
    bases !! "passed_bases" = Some (PInt passed_bases) ∧
    bases !! "non_passed_bases" = Some (PInt non_passed_bases) ∧
    non_passed_reads = all_reads - passed_reads ∧
    non_passed_bases = all_bases - passed_bases ∧
    passed_reads + non_passed_reads = all_reads ∧
    passed_bases + non_passed_bases = all_bases.
Proof.
  intros Hi Hg Har Hpr Hab Hpb.
  destruct (pycoqc_init_get _ _ _ _ _ Hi Hg)
    as (_ & reads & bases & _ & Hreads & Hbases & _ & Hr & Hb).
  exists reads, bases, (all_reads - passed_reads), (all_bases - passed_bases).
  split; [done|]. split; [done|].
  destruct (display_lookup _ _ Hreads (reads_entries_NoDup _)) as [Hin1 _].
  destruct (display_lookup _ _ Hbases (bases_entries_NoDup _)) as [Hin2 _].
  destruct (Hin1 "passed_reads"
              (getpath sample_data (basecall "Pass Reads" "reads_number")))
    as (v1 & E1 & ->); [unfold reads_entries; set_solver|].
  destruct (Hin1 "non_passed_reads" (difference sample_data "reads_number"))
    as (v2 & E2 & ->); [unfold reads_entries; set_solver|].
  destruct (Hin2 "passed_bases"
              (getpath sample_data (basecall "Pass Reads" "bases_number")))
    as (v3 & E3 & ->); [unfold bases_entries; set_solver|].
  destruct (Hin2 "non_passed_bases" (difference sample_data "bases_number"))
    as (v4 & E4 & ->); [unfold bases_entries; set_solver|].
  unfold difference, basecall in *.
  rewrite Hpr in E1. rewrite Har, Hpr in E2. rewrite Hpb in E3. rewrite Hab, Hpb in E4.
  simpl in E2, E4.
  injection E1 as <-. injection E2 as <-. injection E3 as <-. injection E4 as <-.
  split_and!; try done; lia.
Qed.

(** C10: when a file [f] follows a file [e] of the same sample name and no
    later file has that name, the loop completes as long as every file
    deserialises, the entry of the name is the document of [f], the
    duplicate is logged at debug level, and the mapping holds each sample
    name of the files once and no other name. *)
Theorem duplicate_sample_name_last_wins pre e mid f post :
  File.s_name e = File.s_name f →
  Forall (λ g, File.s_name g ≠ File.s_name f) post →
  Forall (λ g, is_Some (yaml_load (File.f g))) (pre ++ e :: mid ++ f :: post) →
  ∃ o',
    load_files yaml_load (pre ++ e :: mid ++ f :: post) init_self = Returns tt o' ∧
    Dict.get (File.s_name f) (pycoqc_data o') = yaml_load (File.f f) ∧
    (DEBUG, duplicate_message f) ∈ log o' ∧
    NoDup (Dict.keys (pycoqc_data o')) ∧
    ∀ n, n ∈ Dict.keys (pycoqc_data o')
         ↔ ∃ g, g ∈ (pre ++ e :: mid ++ f :: post)%list ∧ File.s_name g = n.
Proof.
  intros Hname Hpost Hall.
  destruct (load_files_total _ init_self Hall) as [o' Hl]. exists o'.
  split; [done|].
  assert (Hl' : load_files yaml_load ((pre ++ e :: mid) ++ f :: post) init_self
                = Returns tt o') by (by rewrite <- app_assoc).
  split; [|split; [|split]].
  - apply (load_files_last _ _ _ _ _ Hl'). by apply Forall_forall.
  - apply (load_files_duplicate_logged _ _ _ _ _ Hl'). exists e. set_solver.
  - apply load_files_keys in Hl as [Hnd _]. apply Hnd, init_self_NoDup.
  - intros n. apply load_files_keys in Hl as [_ Hk]. rewrite Hk.
    split; [|by right]. intros [Hin|?]; [|done]. by apply elem_of_nil in Hin.
Qed.

(** Two runs that both hold [f] as the last file of its name return the
    same document, table row and bar-chart records for that name. *)
Lemma pycoqc_records_stateless pre1 post1 pre2 post2 f st1 o1 st2 o2 :
  __init__ yaml_load (pre1 ++ f :: post1) = Returns st1 o1 →
  __init__ yaml_load (pre2 ++ f :: post2) = Returns st2 o2 →
  Forall (λ g, File.s_name g ≠ File.s_name f) post1 →
  Forall (λ g, File.s_name g ≠ File.s_name f) post2 →
  ∃ sd row reads bases,
    yaml_load (File.f f) = Some sd ∧
    display (table_entries sd) = Ok row ∧
    Dict.get (File.s_name f) (pycoqc_data o1) = Some sd ∧
    Dict.get (File.s_name f) (pycoqc_data o2) = Some sd ∧
    Dict.get (File.s_name f) (data_for_table st1) = Some row ∧
    Dict.get (File.s_name f) (data_for_table st2) = Some row ∧
    Dict.get (File.s_name f) (reads_data st1) = Some reads ∧
    Dict.get (File.s_name f) (reads_data st2) = Some reads ∧
    Dict.get (File.s_name f) (bases_data st1) = Some bases ∧
    Dict.get (File.s_name f) (bases_data st2) = Some bases.
Proof.
  intros H1 H2 Hp1 Hp2.
  pose proof H1 as (Hl1 & _ & _)%pycoqc_init_returns.
  pose proof H2 as (Hl2 & _ & _)%pycoqc_init_returns.
  pose proof (load_files_last _ _ _ _ _ Hl1 ltac:(by apply Forall_forall)) as G1.
  pose proof (load_files_last _ _ _ _ _ Hl2 ltac:(by apply Forall_forall)) as G2.
  apply load_files_split in Hl1 as (_ & sd & _ & Hsd & _).
  rewrite Hsd in G1, G2.
  destruct (pycoqc_init_get _ _ _ _ _ H1 G1)
    as (row & reads & bases & Hrow & Hreads & Hbases & T1 & R1 & B1).
  destruct (pycoqc_init_get _ _ _ _ _ H2 G2)
    as (row' & reads' & bases' & Hrow' & Hreads' & Hbases' & T2 & R2 & B2).
  rewrite Hrow in Hrow'. rewrite Hreads in Hreads'. rewrite Hbases in Hbases'.
  injection Hrow' as <-. injection Hreads' as <-. injection Hbases' as <-.
  exists sd, row, reads, bases. by split_and!.
Qed.

End WithLoader.
End PycoqcFacts.

(** ** Both modules *)

Module ModuleFacts.
Import AdapterRemovalSpec PycoqcSpec AdapterRemovalFacts PycoqcFacts.

Section Claims.
Context {F : PyFloat}.
Variable yaml_load : string → option pyval.

Lemma observed_returns {S A} (r : outcome S A) a :
  observed r = Ok a → ∃ s, r = Returns a s.
Proof. destruct r; simpl; [|done]. intros [= ->]. by eexists. Qed.

(** C1: each [__init__] raises [UserWarning] exactly when its loop over the
    files completes and leaves the per-sample mapping empty.  For
    AdapterRemoval this is when every file is skipped as unsupported, which
    includes the case of no file, and for pycoQC when there is no file.  When
    a file parses (AdapterRemoval) or a file is found (pycoQC), no
    [UserWarning] is raised. *)
Theorem nothing_to_report_iff_no_sample (analysis_dir : string)
    (ar_files : list (File.t (list string))) (pycoqc_files : list (File.t string)) :
  ((∃ o, AdapterRemoval.__init__ analysis_dir ar_files = Raises UserWarning o) ↔
   ∃ r o', AdapterRemoval.process_files ar_files AdapterRemoval.init_self = Returns r o' ∧
           AdapterRemoval.adapter_removal_data o' = ∅) ∧
  ((∃ o, AdapterRemoval.__init__ analysis_dir ar_files = Raises UserWarning o) ↔
   Forall unsupported ar_files) ∧
  (∀ f o d o', f ∈ ar_files →
     AdapterRemoval.parse_settings_file f o = Returns d o' →
     ∀ o'', AdapterRemoval.__init__ analysis_dir ar_files ≠ Raises UserWarning o'') ∧
  ((∃ o, Pycoqc.__init__ yaml_load pycoqc_files = Raises UserWarning o) ↔
   ∃ o', Pycoqc.load_files yaml_load pycoqc_files Pycoqc.init_self = Returns tt o' ∧
         Pycoqc.pycoqc_data o' = []) ∧
  ((∃ o, Pycoqc.__init__ yaml_load pycoqc_files = Raises UserWarning o) ↔
   pycoqc_files = []) ∧
  (pycoqc_files ≠ [] →
   ∀ o, Pycoqc.__init__ yaml_load pycoqc_files ≠ Raises UserWarning o).
Proof.
  split_and!.
  - apply init_warning_empty.
  - apply init_warning.
  - intros f o d o' Hin Hp o'' Hw.
    assert (Hall : Forall unsupported ar_files) by (apply (init_warning analysis_dir); eauto).
    rewrite Forall_forall in Hall.
    destruct (parse_unsupported f o (Hall _ Hin)) as (o1 & Hr & _).
    by rewrite Hp in Hr.
  - apply pycoqc_init_warning_empty.
  - apply pycoqc_init_warning.
  - intros Hne o Hw. apply Hne. apply (pycoqc_init_warning yaml_load). eauto.
Qed.

(** How far a record is independent of the files processed before.
    Whatever files were processed before, parsing an AdapterRemoval file
    returns the same trim-statistics record or raises the same exception,
    and a returned record is what is stored under the sample name; the
    length-distribution entries of the sample after the parse are the same
    in two runs whenever the entries held under that sample name before the
    parse were the same, in particular when the name was new in both.  For
    pycoQC, two runs in which the file is the last of its sample name hold
    the same document and return the same table row and bar-chart records
    for that name. *)
Theorem records_independent_of_earlier_files :
  (∀ (f : File.t (list string)) (o1 o2 : AdapterRemoval.self),
     reachable o1 → reachable o2 →
     let n := File.s_name f in
     let r1 := AdapterRemoval.parse_settings_file f (AdapterRemoval.with_s_name n o1) in
     let r2 := AdapterRemoval.parse_settings_file f (AdapterRemoval.with_s_name n o2) in
     observed r1 = observed r2 ∧
     (∀ parsed1 parsed2 d, observed r1 = Ok d →
        ∃ o1' o2',
          AdapterRemoval.process_file parsed1 f o1 = Returns (Some d) o1' ∧
          AdapterRemoval.process_file parsed2 f o2 = Returns (Some d) o2' ∧
          AdapterRemoval.adapter_removal_data o1' !! n = Some d ∧
          AdapterRemoval.adapter_removal_data o2' !! n = Some d) ∧
     ((∀ cat, sample_at (AdapterRemoval.len_dist_plot_data o1) cat n
              = sample_at (AdapterRemoval.len_dist_plot_data o2) cat n) →
      ∀ cat, entries (outcome_state r1) cat = entries (outcome_state r2) cat) ∧
     (sample_at (AdapterRemoval.len_dist_plot_data o1) "mate1" n = None →
      sample_at (AdapterRemoval.len_dist_plot_data o2) "mate1" n = None →
      ∀ cat, entries (outcome_state r1) cat = entries (outcome_state r2) cat)) ∧
  (∀ (pre1 post1 pre2 post2 : list (File.t string)) (f : File.t string)
     (st1 st2 : Pycoqc.setup) (o1 o2 : Pycoqc.self),
     Pycoqc.__init__ yaml_load (pre1 ++ f :: post1) = Returns st1 o1 →
     Pycoqc.__init__ yaml_load (pre2 ++ f :: post2) = Returns st2 o2 →
     Forall (λ g, File.s_name g ≠ File.s_name f) post1 →
     Forall (λ g, File.s_name g ≠ File.s_name f) post2 →
     let n := File.s_name f in
     Dict.get n (Pycoqc.pycoqc_data o1) = yaml_load (File.f f) ∧
     Dict.get n (Pycoqc.pycoqc_data o2) = yaml_load (File.f f) ∧
     is_Some (Dict.get n (Pycoqc.data_for_table st1)) ∧
     Dict.get n (Pycoqc.data_for_table st1) = Dict.get n (Pycoqc.data_for_table st2) ∧
     Dict.get n (Pycoqc.reads_data st1) = Dict.get n (Pycoqc.reads_data st2) ∧
     Dict.get n (Pycoqc.bases_data st1) = Dict.get n (Pycoqc.bases_data st2)).
Proof.
  split.
  - intros f o1 o2 [W1 D1]%reachable_wf [W2 D2]%reachable_wf n r1 r2.
    destruct (parse_settings_file_stateless f o1 o2 W1 W2) as [Hobs Hent].
    fold n r1 r2 in Hobs, Hent. split_and!; [done| |done|].
    + intros pd1 pd2 d Hd.
      pose proof Hd as [s1 H1]%observed_returns.
      rewrite Hobs in Hd. apply observed_returns in Hd as [s2 H2].
      destruct (process_file_stores pd1 _ _ _ _ H1) as (o1' & P1 & A1 & _).
      destruct (process_file_stores pd2 _ _ _ _ H2) as (o2' & P2 & A2 & _).
      by exists o1', o2'.
    + intros N1 N2. apply Hent. intros cat.
      by rewrite (new_name_no_entries _ _ W1 D1 N1), (new_name_no_entries _ _ W2 D2 N2).
  - intros pre1 post1 pre2 post2 f st1 st2 o1 o2 H1 H2 Hp1 Hp2 n. subst n.
    destruct (pycoqc_records_stateless yaml_load _ _ _ _ _ _ _ _ _ H1 H2 Hp1 Hp2)
      as (sd & row & reads & bases & -> & _ & -> & -> & -> & -> & -> & -> & -> & ->).
    split_and!; by eauto.
Qed.

End Claims.
End ModuleFacts.

(** * Further properties *)

Lemma raised_some {S A} (x : outcome S A) e :
  raised x = Some e → ∃ s, x = Raises e s.
Proof. destruct x; [discriminate|]. intros [= ->]. by eexists. Qed.

Module AdapterRemovalMore.
Import AdapterRemoval AdapterRemovalSpec AdapterRemovalReport PyStr.
Import AdapterRemovalFacts.

Ltac lookups :=
  repeat first [ rewrite lookup_insert_eq | rewrite lookup_insert_ne by done ].

Ltac in_list :=
  repeat first [ apply list_elem_of_here | apply list_elem_of_further ].

Section WithFloat.
Context {F : PyFloat}.

(** ** Skipped files *)

Lemma parse_log_kept f o d o' :
  parse_settings_file f o = Returns d o' → log o' = log o.
Proof.
  intros H.
  apply parse_returns in H as (sd & data & trim & o1 & o2 & _ & _ & _ & H1 & H2 & H3 & _).
  apply set_ar_type_returns in H1 as (? & ? & ? & ? & ? & ? & _ & _ & _ & _ & _ & ->).
  apply set_trim_stat_returns in H2
    as (? & ? & ? & ? & ? & ? & ? & ? & ? & ? & ? & ? & _ & _ & _ & _ & ->).
  apply lengths_only_set_len_dist in H3 as [-> _]. reflexivity.
Qed.

(** X1: [parse_settings_file] raises [UserWarning] exactly for the files
    whose header is single-end and collapsed, and then appends one warning
    that names the sample to the log; a parse that returns logs nothing. *)
Theorem user_warning_only_when_unsupported (f : File.t (list string)) (o : self) :
  ((∃ o', parse_settings_file f o = Raises UserWarning o') ↔ unsupported f) ∧
  (∀ o', parse_settings_file f o = Raises UserWarning o' →
     log o' = (log o ++ [(WARNING, skip_message (s_name o))])%list) ∧
  (∀ d o', parse_settings_file f o = Returns d o' → log o' = log o).
Proof.
  split_and!.
  - split; [intros [o' H]; by eapply parse_warning|].
    intros Hu. destruct (parse_unsupported f o Hu) as (o' & H & _). eauto.
  - intros o' H. pose proof (parse_warning _ _ _ H) as Hu.
    apply classification_inv in Hu
      as (sd & first & rest & third & third_last & Hsd & Hld & H2 & H3 & Hcl).
    revert H. unfold parse_settings_file. rewrite bind_modify, Hsd, bind_lift_ok.
    unfold bind at 1. unfold AdapterRemoval.set_result_data.
    rewrite Hld. cbn [of_option]. rewrite bind_lift_ok. unfold bind at 1.
    pose proof (set_ar_type_run (with_result_data init_result_data o)
                  first rest third third_last H2 H3) as Hrun.
    rewrite Hcl in Hrun. cbv zeta in Hrun. rewrite Hrun. simpl.
    by intros [= <-].
  - intros d o'. apply parse_log_kept.
Qed.

(** ** Files that fail *)

(** X2: an exception other than [UserWarning] raised while parsing a file
    leaves [__init__] as it is: the files after it are not read and nothing
    is reported, whatever was parsed before. *)
Theorem malformed_file_aborts_init (analysis_dir : string)
    (pre post : list (File.t (list string))) (f : File.t (list string))
    (r : option (gmap string pyval)) (o o' : self) (e : exn) :
  process_files pre init_self = Returns r o →
  parse_settings_file f (with_s_name (File.s_name f) o) = Raises e o' →
  e ≠ UserWarning →
  __init__ analysis_dir (pre ++ f :: post) = Raises e o'.
Proof.
  intros Hpre Hp He. unfold __init__, process_files in *.
  unfold bind at 1. rewrite PycoqcFacts.for_each_app. unfold bind at 1.
  rewrite Hpre. cbn [for_each]. unfold bind at 1.
  unfold process_file at 1. rewrite bind_modify, Hp.
  by destruct e.
Qed.

(** X3: a file without a length-distribution block makes
    [parse_settings_file] raise [KeyError]; an empty block, or a header of
    fewer than three columns, makes it raise [IndexError]; and a supported
    file without a trimming-statistics block makes it raise [KeyError]. *)
Theorem missing_block_raises (f : File.t (list string)) (o : self)
    (settings_data : gmap string (list string)) :
  read_blocks (File.f f) {["header" := []]} None = Ok settings_data →
  (settings_data !! "Length distribution" = None →
   ∃ o', parse_settings_file f o = Raises KeyError o') ∧
  (settings_data !! "Length distribution" = Some [] →
   ∃ o', parse_settings_file f o = Raises IndexError o') ∧
  (∀ first rest, settings_data !! "Length distribution" = Some (first :: rest) →
     (List.length (head_columns first) < 3)%nat →
     ∃ o', parse_settings_file f o = Raises IndexError o') ∧
  (∀ rt c, classification f = Some (rt, c) → (rt, c) ≠ (single, true) →
     settings_data !! "Trimming statistics" = None →
     ∃ o', parse_settings_file f o = Raises KeyError o').
Proof.
  intros Hsd. unfold parse_settings_file.
  split_and!.
  - intros Hld. rewrite bind_modify, Hsd, bind_lift_ok. unfold bind at 1.
    unfold AdapterRemoval.set_result_data. rewrite Hld. cbn [of_option].
    rewrite bind_lift_err. eauto.
  - intros Hld. rewrite bind_modify, Hsd, bind_lift_ok. unfold bind at 1.
    unfold AdapterRemoval.set_result_data. rewrite Hld. cbn [of_option].
    rewrite bind_lift_ok. unfold bind at 1. unfold set_ar_type.
    change (py_index [] 0) with (@Err string IndexError).
    rewrite bind_lift_err. eauto.
  - intros first rest Hld Hlen.
    rewrite bind_modify, Hsd, bind_lift_ok. unfold bind at 1.
    unfold AdapterRemoval.set_result_data. rewrite Hld. cbn [of_option].
    rewrite bind_lift_ok. unfold bind at 1. unfold set_ar_type.
    change (py_index (first :: rest) 0) with (Ok first). rewrite bind_lift_ok.
    cbv zeta. change (split TAB (rstrip (one_of NL) first)) with (head_columns first).
    change 2 with (Z.of_nat 2). rewrite py_index_nonneg.
    rewrite (lookup_ge_None_2 (head_columns first) 2) by lia.
    cbn [of_option]. rewrite bind_lift_err. eauto.
  - intros rt c Hcl Hne Htr.
    apply classification_inv in Hcl
      as (sd & first & rest & third & third_last & Hsd' & Hld & H2 & H3 & Hcl).
    rewrite Hsd in Hsd'. injection Hsd' as <-.
    rewrite bind_modify, Hsd, bind_lift_ok. unfold bind at 1.
    unfold AdapterRemoval.set_result_data. rewrite Hld. cbn [of_option].
    rewrite bind_lift_ok. unfold bind at 1.
    pose proof (set_ar_type_run (with_result_data init_result_data o)
                  first rest third third_last H2 H3) as Hrun.
    rewrite Hcl in Hrun. cbv zeta in Hrun. rewrite Hrun.
    replace (bool_decide (rt = single) && c) with false.
    2:{ destruct rt, c; try done. }
    rewrite Htr. cbn [of_option]. rewrite bind_lift_err. eauto.
Qed.

(** X4: a file whose length distribution has a header line and no data
    row is parsed, but leaves the length distributions as they were: its
    sample gets no entry there. *)
Theorem header_only_length_distribution (f : File.t (list string)) (o o' : self)
    (d : gmap string pyval) (settings_data : gmap string (list string))
    (first : string) :
  read_blocks (File.f f) {["header" := []]} None = Ok settings_data →
  settings_data !! "Length distribution" = Some [first] →
  parse_settings_file f o = Returns d o' →
  len_dist_plot_data o' = len_dist_plot_data o.
Proof.
  intros Hsd Hld H.
  apply parse_returns in H as (sd & data & trim & o1 & o2 & Hsd' & Hld' & _ & H1 & H2 & H3 & _).
  rewrite Hsd in Hsd'. injection Hsd' as <-. rewrite Hld in Hld'. injection Hld' as <-.
  apply set_ar_type_returns in H1 as (? & ? & ? & ? & ? & ? & _ & _ & _ & _ & _ & Ho1).
  apply set_trim_stat_returns in H2
    as (? & ? & ? & ? & ? & ? & ? & ? & ? & ? & ? & ? & _ & _ & _ & _ & Ho2).
  unfold set_len_dist in H3. cbn [drop for_each] in H3. injection H3 as <-.
  rewrite Ho2, Ho1. reflexivity.
Qed.

(** ** The record of a parsed file *)

Lemma rmap_cons_ok {A B} (g : A → result B) x l y ys :
  rmap g (x :: l) = Ok (y :: ys) → g x = Ok y ∧ rmap g l = Ok ys.
Proof.
  simpl. destruct (g x); simpl; [|done]. destruct (rmap g l); simpl; [|done].
  by intros [= -> ->].
Qed.

(** The record in closed form. *)
Lemma parse_record f o d o' :
  parse_settings_file f o = Returns d o' →
  ∃ rt c total unaligned aligned discarded_m1 singleton_m1 retained discarded_m2
    singleton_m2 full_length_cp truncated_cp x trim,
    __read_type o' = Some rt ∧ __collapsed o' = Some c ∧
    rmap (read_field trim
            (data_pattern (with___collapsed (Some c)
               (with___read_type (Some rt) (with_result_data init_result_data o)))))
         required
      = Ok [total; unaligned; aligned; discarded_m1; singleton_m1; retained;
            discarded_m2; singleton_m2; full_length_cp; truncated_cp] ∧
    d = <["percent_aligned" := PFloat x]>
          (derived (bool_decide (rt = paired))
             total unaligned aligned retained singleton_m1 singleton_m2
             (store_counts
                (zip required [total; unaligned; aligned; discarded_m1;
                   singleton_m1; retained; discarded_m2; singleton_m2;
                   full_length_cp; truncated_cp]) init_result_data)).
Proof.
  intros H.
  apply parse_returns in H as (sd & data & trim & o1 & o2 & _ & _ & _ & H1 & H2 & H3 & ->).
  apply set_ar_type_returns in H1
    as (first & rest & third & third_last & rt & c & _ & _ & _ & _ & _ & ->).
  apply set_trim_stat_returns in H2
    as (total & unaligned & aligned & discarded_m1 & singleton_m1 & retained &
        discarded_m2 & singleton_m2 & full_length_cp & truncated_cp & a & t &
        Hc & _ & _ & _ & ->).
  apply lengths_only_set_len_dist in H3 as [H3 _]. rewrite H3.
  cbn [result_data __read_type __collapsed with_len_dist_plot_data with_result_data
       with___collapsed with___read_type].
  eexists rt, c, total, unaligned, aligned, discarded_m1, singleton_m1, retained,
    discarded_m2, singleton_m2, full_length_cp, truncated_cp, _, trim.
  split; [done|]. split; [done|]. split; [exact Hc|].
  replace (bool_decide (Some rt = Some paired)) with (bool_decide (rt = paired));
    [reflexivity|]. by destruct rt.
Qed.

(** X5: the record of a parsed file has sixteen keys and no [None] is left
    in it: [percent_aligned] is a float and the other fifteen are integers.
    In particular every category of the retained-reads chart and both
    columns of the statistics table are present. *)
Theorem parsed_record_is_complete (f : File.t (list string)) (o o' : self)
    (d : gmap string pyval) :
  parse_settings_file f o = Returns d o' →
  dom d = list_to_set
    ["total"; "unaligned"; "aligned"; "discarded_m1"; "singleton_m1"; "retained";
     "discarded_m2"; "singleton_m2"; "full-length_cp"; "truncated_cp";
     "aligned_total"; "unaligned_total"; "reads_total"; "discarded_total";
     "retained_reads"; "percent_aligned"] ∧
  (∃ x, d !! "percent_aligned" = Some (PFloat x)) ∧
  (∀ k, k ∈ dom d → k ≠ "percent_aligned" → ∃ n, d !! k = Some (PInt n)) ∧
  Forall (λ k, ∃ n, d !! k = Some (PInt n)) cats_pec ∧
  Forall (λ k, is_Some (d !! k)) stats_table_columns.
Proof.
  intros H.
  apply parse_record in H
    as (rt & c & total & unaligned & aligned & discarded_m1 & singleton_m1 & retained &
        discarded_m2 & singleton_m2 & full_length_cp & truncated_cp & x & trim &
        _ & _ & _ & ->).
  unfold derived, store_counts, init_result_data.
  cbn [zip_with required foldl fst snd zip list_to_map foldr uncurry].
  assert (Hdom : ∀ (m : gmap string pyval) k v, dom (<[k := v]> m) = {[k]} ∪ dom m)
    by (intros; apply dom_insert_L).
  match goal with |- dom ?m = _ ∧ _ => set (d := m) end.
  assert (Hint : ∀ k, k ∈ ["total"; "unaligned"; "aligned"; "discarded_m1";
     "singleton_m1"; "retained"; "discarded_m2"; "singleton_m2"; "full-length_cp";
     "truncated_cp"; "aligned_total"; "unaligned_total"; "reads_total";
     "discarded_total"; "retained_reads"] → ∃ n : Z, d !! k = Some (PInt n)).
  { intros k Hk. subst d.
    repeat (apply elem_of_cons in Hk as [->|Hk];
      [eexists; lookups; reflexivity|]).
    destruct (not_elem_of_nil _ Hk). }
  assert (Hd : dom d = list_to_set
    ["total"; "unaligned"; "aligned"; "discarded_m1"; "singleton_m1"; "retained";
     "discarded_m2"; "singleton_m2"; "full-length_cp"; "truncated_cp";
     "aligned_total"; "unaligned_total"; "reads_total"; "discarded_total";
     "retained_reads"; "percent_aligned"]).
  { subst d. rewrite !Hdom, dom_empty_L. set_solver. }
  split; [exact Hd|].
  split; [eexists; subst d; apply lookup_insert_eq|].
  split.
  { intros k Hk Hne. apply Hint. rewrite Hd in Hk.
    apply elem_of_list_to_set in Hk.
    repeat (apply elem_of_cons in Hk as [->|Hk];
      [first [solve [in_list] | destruct (Hne eq_refl)]|]).
    destruct (not_elem_of_nil _ Hk). }
  split.
  - unfold cats_pec. repeat (apply Forall_cons; split; [apply Hint; in_list|]).
    apply Forall_nil_2.
  - unfold stats_table_columns.
    apply Forall_cons; split; [subst d; rewrite lookup_insert_eq; by eexists|].
    apply Forall_cons; split; [|apply Forall_nil_2].
    destruct (Hint "aligned_total") as [n ->]; [in_list | by eexists].
Qed.

(** X6: the fields that the run mode has no line for are stored as 0: the
    mate 2 and collapsed counts of a single-end run, and the collapsed
    counts of a paired-end run without collapsing. *)
Theorem unread_fields_are_zero (f : File.t (list string)) (o o' : self)
    (d : gmap string pyval) :
  parse_settings_file f o = Returns d o' →
  (__read_type o' = Some single →
     d !! "discarded_m2" = Some (PInt 0) ∧ d !! "singleton_m2" = Some (PInt 0) ∧
     d !! "full-length_cp" = Some (PInt 0) ∧ d !! "truncated_cp" = Some (PInt 0)) ∧
  (__read_type o' = Some paired → __collapsed o' = Some false →
     d !! "full-length_cp" = Some (PInt 0) ∧ d !! "truncated_cp" = Some (PInt 0)).
Proof.
  intros H.
  apply parse_record in H
    as (rt & c & total & unaligned & aligned & discarded_m1 & singleton_m1 & retained &
        discarded_m2 & singleton_m2 & full_length_cp & truncated_cp & x & trim &
        Hrt & Hc & Hcounts & ->).
  rewrite Hrt, Hc.
  unfold required in Hcounts.
  do 6 (apply rmap_cons_ok in Hcounts as [_ Hcounts]).
  apply rmap_cons_ok in Hcounts as [Hdm2 Hcounts].
  apply rmap_cons_ok in Hcounts as [Hsm2 Hcounts].
  apply rmap_cons_ok in Hcounts as [Hfl Hcounts].
  apply rmap_cons_ok in Hcounts as [Htr _].
  unfold derived, store_counts, init_result_data.
  cbn [zip_with required foldl fst snd zip list_to_map foldr uncurry].
  split.
  - intros [= ->]. vm_compute in Hdm2, Hsm2, Hfl, Htr.
    injection Hdm2 as <-. injection Hsm2 as <-. injection Hfl as <-. injection Htr as <-.
    split_and!; lookups; reflexivity.
  - intros [= ->] [= ->]. vm_compute in Hfl, Htr.
    injection Hfl as <-. injection Htr as <-.
    split_and!; lookups; reflexivity.
Qed.

(** ** The length distributions list the same lengths in every category *)

Lemma store_sample_at cat v l_data o o' :
  store cat v l_data o = Returns tt o' →
  ∃ k, l_data !! 0%nat = Some k ∧ s_name o' = s_name o ∧
    ∀ c n, lengths_of (len_dist_plot_data o') c n =
      if decide (c = cat ∧ n = s_name o)
      then ({[k]} ∪.) <$> lengths_of (len_dist_plot_data o) c n
      else lengths_of (len_dist_plot_data o) c n.
Proof.
  intros H. apply store_returns in H as (k & m & d & Hk & Hm & Hd & ->).
  exists k. split; [done|]. split; [done|]. intros c n.
  unfold lengths_of. cbn [len_dist_plot_data with_len_dist_plot_data].
  rewrite (sample_at_insert _ _ _ _ _ _ _ Hm).
  destruct (decide (c = cat ∧ n = s_name o)) as [[-> ->]|]; [|done].
  unfold sample_at. rewrite Hm. simpl. rewrite Hd. simpl.
  f_equal. apply dom_insert_L.
Qed.

Lemma record_one_lengths l_data cat col o o' :
  record_one l_data cat col o = Returns tt o' →
  ∃ k, l_data !! 0%nat = Some k ∧ s_name o' = s_name o ∧
    ∀ c n, lengths_of (len_dist_plot_data o') c n =
      if decide (c = cat ∧ n = s_name o)
      then ({[k]} ∪.) <$> lengths_of (len_dist_plot_data o) c n
      else lengths_of (len_dist_plot_data o) c n.
Proof.
  destruct col as [i|]; simpl; [|apply store_sample_at].
  unfold store_column. intros H. apply bind_returns in H as (v & o1 & H1 & H).
  apply lift_returns in H1 as [_ ->]. by eapply store_sample_at.
Qed.

Lemma record_by_lengths l_data table : ∀ o o',
  table ≠ [] →
  record_by table l_data o = Returns tt o' →
  ∃ k, l_data !! 0%nat = Some k ∧ s_name o' = s_name o ∧
    ∀ c n, lengths_of (len_dist_plot_data o') c n =
      if decide (c ∈ table.*1 ∧ n = s_name o)
      then ({[k]} ∪.) <$> lengths_of (len_dist_plot_data o) c n
      else lengths_of (len_dist_plot_data o) c n.
Proof.
  induction table as [|[cat col] rest IH]; intros o o' Hne H; [done|].
  destruct rest as [|p rest'].
  - cbn [record_by] in H. apply record_one_lengths in H as (k & Hk & Hn & Hl).
    exists k. split; [done|]. split; [done|]. intros c n. rewrite Hl.
    destruct (decide (c = cat ∧ n = s_name o)) as [[-> ->]|Hno].
    + rewrite decide_True; [done|]. split; [|done]. simpl. apply list_elem_of_here.
    + rewrite decide_False; [done|]. intros [Hin ->]. apply Hno. split; [|done].
      simpl in Hin. apply elem_of_cons in Hin as [->|Hin]; [done|].
      destruct (not_elem_of_nil _ Hin).
  - cbn [record_by] in H. apply bind_returns in H as ([] & o1 & H1 & H).
    apply record_one_lengths in H1 as (k & Hk & Hn1 & Hl1).
    apply IH in H as (k' & Hk' & Hn & Hl); [|done].
    rewrite Hk in Hk'. injection Hk' as <-.
    exists k. split; [done|]. split; [congruence|]. intros c n.
    rewrite Hl, Hl1, Hn1.
    set (L := lengths_of (len_dist_plot_data o) c n).
    destruct (decide (c = cat ∧ n = s_name o)) as [[-> ->]|Hno].
    + rewrite (decide_True (P := cat ∈ ((cat, col) :: p :: rest').*1 ∧ _));
        [|split; [apply list_elem_of_here | done]].
      destruct (decide (cat ∈ (p :: rest').*1 ∧ s_name o = s_name o)); [|done].
      destruct L as [D|]; simpl; [|done]. f_equal. set_solver.
    + destruct (decide (c ∈ (p :: rest').*1 ∧ n = s_name o)) as [[Hin ->]|Hno'].
      * rewrite decide_True; [done|]. split; [|done].
        rewrite fmap_cons. by apply list_elem_of_further.
      * rewrite decide_False; [done|]. intros [Hin ->].
        rewrite fmap_cons in Hin. apply elem_of_cons in Hin as [Hc|Hin].
        -- apply Hno. by split.
        -- apply Hno'. by split.
Qed.

Lemma init_sample_aligned o o' :
  wf o → aligned_lengths (len_dist_plot_data o) →
  init_sample o = Returns tt o' →
  aligned_lengths (len_dist_plot_data o').
Proof.
  intros Hw Ha H.
  destruct (init_sample_effect o (proj1 Hw)) as (ld' & Hrun & _ & Hs).
  rewrite Hrun in H. injection H as <-.
  intros c n Hc. unfold lengths_of.
  cbn [len_dist_plot_data with_len_dist_plot_data]. rewrite !Hs.
  specialize (Ha c n Hc). unfold lengths_of in Ha.
  destruct (decide (c ∈ categories ∧ ¬ present o ∧ n = s_name o)) as [(_ & Hp & ->)|Hno].
  - rewrite decide_True; [done|]. split; [apply mate1_category | done].
  - rewrite decide_False; [done|]. intros (_ & Hp & ->). apply Hno. by split.
Qed.

Lemma len_dist_row_aligned line o o' rt c :
  wf o → __read_type o = Some rt → __collapsed o = Some c →
  (rt, c) ≠ (single, true) →
  aligned_lengths (len_dist_plot_data o) →
  len_dist_row line o = Returns tt o' →
  aligned_lengths (len_dist_plot_data o').
Proof.
  intros Hw Hrt Hc Hne Ha H. unfold len_dist_row in H.
  apply bind_returns in H as (l_data & o0 & H0 & H).
  apply lift_returns in H0 as [_ ->].
  apply bind_returns in H as ([] & o1 & H1 & H).
  pose proof (init_sample_aligned _ _ Hw Ha H1) as Ha1.
  destruct (init_sample_wf o Hw) as (o1' & Hrun & _ & _ & Ho1 & _).
  rewrite Hrun in H1. injection H1 as <-.
  assert (Hrt1 : __read_type o1' = Some rt) by (by rewrite Ho1).
  assert (Hc1 : __collapsed o1' = Some c) by (by rewrite Ho1).
  rewrite (record_row_by _ _ rt c Hrt1 Hc1 Hne) in H.
  apply record_by_lengths in H as (k & _ & _ & Hl); [|apply columns_NoDup].
  assert (Hcols : (columns rt c).*1 = categories) by (by destruct rt, c).
  intros cat n Hcat. rewrite !Hl, Hcols.
  specialize (Ha1 cat n Hcat).
  destruct (decide (n = s_name o1')) as [->|Hn].
  - rewrite !decide_True by (split; [done || apply mate1_category | done]).
    by rewrite Ha1.
  - rewrite !decide_False by (intros [_ ?]; done). done.
Qed.

Lemma rows_aligned rows : ∀ o o' rt c,
  wf o → __read_type o = Some rt → __collapsed o = Some c →
  (rt, c) ≠ (single, true) →
  aligned_lengths (len_dist_plot_data o) →
  for_each (λ (_ : unit) line, len_dist_row line) tt rows o = Returns tt o' →
  aligned_lengths (len_dist_plot_data o').
Proof.
  induction rows as [|line rows IH]; intros o o' rt c Hw Hrt Hc Hne Ha H.
  - by injection H as <-.
  - cbn [for_each] in H. apply bind_returns in H as ([] & o1 & H1 & H).
    pose proof (len_dist_row_aligned _ _ _ _ _ Hw Hrt Hc Hne Ha H1) as Ha1.
    apply (len_dist_row_entries _ _ _ rt c Hw Hrt Hc Hne) in H1
      as (_ & _ & _ & _ & _ & _ & Hw1 & _ & Hrt1 & Hc1 & _).
    by eapply IH.
Qed.

Lemma parse_aligned f o d o' :
  wf o → aligned_lengths (len_dist_plot_data o) →
  parse_settings_file f o = Returns d o' →
  aligned_lengths (len_dist_plot_data o').
Proof.
  intros Hw Ha H.
  apply parse_returns in H as (sd & data & trim & o1 & o2 & _ & _ & _ & H1 & H2 & H3 & _).
  apply set_ar_type_returns in H1
    as (first & rows & third & third_last & rt & c & -> & _ & _ & _ & Hne & Ho1).
  apply set_trim_stat_returns in H2
    as (? & ? & ? & ? & ? & ? & ? & ? & ? & ? & ? & ? & _ & _ & _ & _ & Ho2).
  unfold set_len_dist in H3. cbn [drop] in H3.
  eapply (rows_aligned rows o2 o' rt c); [| | | exact Hne | | exact H3];
    rewrite Ho2, Ho1; done.
Qed.

Lemma reachable_aligned o :
  reachable o → aligned_lengths (len_dist_plot_data o).
Proof.
  induction 1 as [|o pd f r o' Hreach IH Hstep].
  - intros c n Hc. unfold lengths_of, sample_at.
    destruct (len_dist_plot_data init_self !! c) as [m|] eqn:Hm; simpl.
    + unfold init_self in Hm. cbn [len_dist_plot_data] in Hm.
      apply elem_of_list_to_map_2 in Hm.
      apply list_elem_of_fmap in Hm as (c' & [= -> ->] & _).
      by rewrite lookup_empty.
    + destruct (proj1 (proj1 wf_init) c Hc) as [m' Hm']. congruence.
  - apply reachable_wf in Hreach as [Hw _].
    pose proof Hstep as Hs.
    apply process_file_returns in Hs as [(Hu & _ & _)|(d & o1 & Hp & _ & ->)].
    + destruct (process_file_unsupported pd f o Hu) as (o2 & H2 & Hl & _).
      rewrite H2 in Hstep. injection Hstep as _ <-. by rewrite Hl.
    + cbn [len_dist_plot_data with_adapter_removal_data].
      eapply parse_aligned; [| |exact Hp]; done.
Qed.

(** X7: in every object reached by processing files, the seven datasets
    that the length-distribution plot reads exist, are as many as the plot
    has labels, and list for each sample the same lengths: a sample is in
    all of them or in none, with one set of lengths. *)
Theorem length_plot_datasets_aligned (o : self) :
  reachable o →
  ∃ datasets,
    lineplot_data o = Ok datasets ∧
    List.length datasets = List.length data_labels ∧
    ∀ ds1 ds2 name, ds1 ∈ datasets → ds2 ∈ datasets →
      dom <$> ds1 !! name = (dom <$> ds2 !! name : option (gset Z)).
Proof.
  intros Hreach. pose proof (reachable_aligned o Hreach) as Ha.
  apply reachable_wf in Hreach as [[Hk _] _].
  assert (Hget : ∀ c, c ∈ categories → ∃ m, len_dist_plot_data o !! c = Some m ∧
            ∀ name, dom <$> m !! name = lengths_of (len_dist_plot_data o) "mate1" name).
  { intros c Hc. destruct (Hk c Hc) as [m Hm]. exists m. split; [done|].
    intros name. rewrite <- (Ha c name Hc). unfold lengths_of, sample_at.
    by rewrite Hm. }
  unfold lineplot_data.
  destruct (Hget "mate1") as (m1 & E1 & D1); [unfold categories; in_list|].
  destruct (Hget "mate2") as (m2 & E2 & D2); [unfold categories; in_list|].
  destruct (Hget "singleton") as (m3 & E3 & D3); [unfold categories; in_list|].
  destruct (Hget "collapsed") as (m4 & E4 & D4); [unfold categories; in_list|].
  destruct (Hget "collapsed_truncated") as (m5 & E5 & D5); [unfold categories; in_list|].
  destruct (Hget "discarged") as (m6 & E6 & D6); [unfold categories; in_list|].
  destruct (Hget "all") as (m7 & E7 & D7); [unfold categories; in_list|].
  exists [m1; m2; m3; m4; m5; m6; m7]. split.
  { cbn [rmap]. rewrite E1, E2, E3, E4, E5, E6, E7. reflexivity. }
  split; [reflexivity|].
  assert (Hall : ∀ ds, ds ∈ [m1; m2; m3; m4; m5; m6; m7] →
            ∀ name, dom <$> ds !! name = lengths_of (len_dist_plot_data o) "mate1" name).
  { intros ds Hds.
    repeat (apply elem_of_cons in Hds as [->|Hds]; [done|]).
    destruct (not_elem_of_nil _ Hds). }
  intros ds1 ds2 name H1 H2. by rewrite (Hall _ H1), (Hall _ H2).
Qed.

(** ** The samples that are reported *)

Lemma parse_keeps_data f o d o' :
  parse_settings_file f o = Returns d o' →
  adapter_removal_data o' = adapter_removal_data o.
Proof.
  intros H.
  apply parse_returns in H as (sd & data & trim & o1 & o2 & _ & _ & _ & H1 & H2 & H3 & _).
  apply set_ar_type_returns in H1 as (? & ? & ? & ? & ? & ? & _ & _ & _ & _ & _ & ->).
  apply set_trim_stat_returns in H2
    as (? & ? & ? & ? & ? & ? & ? & ? & ? & ? & ? & ? & _ & _ & _ & _ & ->).
  apply lengths_only_set_len_dist in H3 as [-> _]. reflexivity.
Qed.

Lemma process_files_names files : ∀ parsed_data o r o',
  for_each process_file parsed_data files o = Returns r o' →
  dom (adapter_removal_data o')
  = dom (adapter_removal_data o) ∪ list_to_set (supported_names files).
Proof.
  unfold supported_names.
  induction files as [|f files IH]; intros pd o r o' H; cbn [for_each] in H.
  - injection H as _ <-. rewrite filter_nil. simpl. set_solver.
  - apply bind_returns in H as (r1 & o1 & H1 & H).
    rewrite (IH _ _ _ _ H). rewrite filter_cons.
    apply process_file_returns in H1 as [(Hu & _ & Ha)|(d & o2 & Hp & _ & ->)].
    + rewrite decide_False by (intros Hn; by apply Hn). by rewrite Ha.
    + rewrite decide_True.
      2:{ intros Hu. destruct (parse_unsupported f (with_s_name (File.s_name f) o) Hu)
            as (o3 & Hr & _). by rewrite Hp in Hr. }
      cbn [adapter_removal_data with_adapter_removal_data].
      rewrite dom_insert_L, (parse_keeps_data _ _ _ _ Hp).
      apply parse_dom in Hp as [_ ->]. cbn [s_name with_s_name].
      rewrite fmap_cons, list_to_set_cons. set_solver.
Qed.

Lemma size_list_to_set_le (l : list string) :
  (size (list_to_set l : gset string) ≤ List.length l)%nat.
Proof.
  induction l as [|x l IH]; [by rewrite list_to_set_nil, size_empty|].
  rewrite list_to_set_cons, size_union_alt, size_singleton. simpl.
  apply le_n_S. etrans; [|exact IH]. apply subseteq_size. set_solver.
Qed.

(** X8: when the loop of [__init__] completes, the per-sample data holds
    exactly the sample names of the files that were not skipped, so it holds
    at most as many samples as there are files. *)
Theorem reported_samples_are_the_supported_files
    (files : list (File.t (list string))) (r : option (gmap string pyval))
    (o' : self) :
  process_files files init_self = Returns r o' →
  dom (adapter_removal_data o') = list_to_set (supported_names files) ∧
  (size (adapter_removal_data o') ≤ List.length files)%nat.
Proof.
  intros H. apply process_files_names in H.
  cbn [adapter_removal_data init_self] in H. rewrite dom_empty_L in H.
  assert (H' : dom (adapter_removal_data o')
               = list_to_set (supported_names files)) by (rewrite H; set_solver).
  split; [exact H'|].
  rewrite <- size_dom, H'.
  pose proof (size_list_to_set_le (supported_names files)) as Hs.
  assert (Hl : (List.length (supported_names files) ≤ List.length files)%nat).
  { unfold supported_names. rewrite length_fmap. apply length_filter. }
  lia.
Qed.

(** ** Data rows that are too short *)

Lemma py_index_ok_lt {A} (l : list A) (i : nat) v :
  py_index l (Z.of_nat i) = Ok v → (i < List.length l)%nat.
Proof.
  rewrite py_index_nonneg. destruct (l !! i) eqn:E; [|done].
  intros _. by eapply lookup_lt_Some.
Qed.

Lemma py_index_lt_ok {A} (l : list A) (i : nat) :
  (i < List.length l)%nat → ∃ v, py_index l (Z.of_nat i) = Ok v.
Proof.
  intros Hi. rewrite py_index_nonneg.
  destruct (lookup_lt_is_Some_2 l i Hi) as [v ->]. by exists v.
Qed.








(** ** Failures of [set_trim_stat] *)

Lemma rmap_ok_all {A B} (g : A → result B) l bs x :
  rmap g l = Ok bs → x ∈ l → ∃ b, g x = Ok b.
Proof.
  revert bs. induction l as [|a l IH]; intros bs H Hin.
  - destruct (not_elem_of_nil _ Hin).
  - simpl in H. destruct (g a) as [b|] eqn:Ha; simpl in H; [|done].
    destruct (rmap g l) as [bs'|]; simpl in H; [|done].
    apply elem_of_cons in Hin as [->|Hin]; [eauto | by eapply IH].
Qed.

Lemma read_field_fails trim pattern field e :
  read_field trim pattern field = Err e → e = IndexError ∨ e = ValueError.
Proof.
  unfold read_field. destruct (pattern !! field) as [i|]; [|done].
  revert e.
  apply (fails_only_rbind (λ e, e = IndexError ∨ e = ValueError));
    [apply fails_only_py_index; by left | intros tmp].
  apply fails_only_rbind; [apply fails_only_py_index; by left | intros value].
  apply fails_only_int. by right.
Qed.

Lemma retained_line rt c o :
  __read_type o = Some rt → __collapsed o = Some c →
  data_pattern o !! "retained" = Some (Z.of_nat (lines_needed rt c) - 1).
Proof.
  intros Hrt Hc. unfold data_pattern. rewrite Hrt, Hc.
  destruct rt, c; vm_compute; reflexivity.
Qed.

(** X10: [set_trim_stat] raises nothing but [IndexError], [ValueError],
    [OverflowError] and [ZeroDivisionError]; and with fewer lines of
    trimming statistics than the run mode needs (7 single-end, 9
    paired-end, 11 paired-end collapsed) it does not return: it raises
    [IndexError], or [ValueError] if an earlier line is malformed. *)
Theorem set_trim_stat_failures (trim : list string) (o : self) :
  (∀ e o', set_trim_stat trim o = Raises e o' →
     e = IndexError ∨ e = ValueError ∨ e = OverflowError ∨ e = ZeroDivisionError) ∧
  (∀ rt c, __read_type o = Some rt → __collapsed o = Some c →
     (List.length trim < lines_needed rt c)%nat →
     ∃ e o', set_trim_stat trim o = Raises e o' ∧ (e = IndexError ∨ e = ValueError)).
Proof.
  split.
  - intros e o' H.
    destruct (rmap (read_field trim (data_pattern o)) required) as [ns|e0] eqn:Hr.
    + pose proof (rmap_length _ _ _ Hr) as Hlen.
      do 10 (destruct ns as [|? ns]; [discriminate Hlen|]).
      destruct ns; [|discriminate Hlen].
      rewrite (set_trim_stat_run _ _ _ _ _ _ _ _ _ _ _ _ Hr) in H.
      cbv zeta in H.
      destruct (float_of_int _) as [a|]; [destruct (float_of_int _) as [t|]|].
      * destruct (float_is_zero t); [|done]. injection H as <- _. auto.
      * injection H as <- _. auto.
      * injection H as <- _. auto.
    + destruct (set_trim_stat_unread _ _ _ Hr) as [rd Hrun].
      rewrite Hrun in H. injection H as <- _.
      assert (He : e0 = IndexError ∨ e0 = ValueError); [|tauto].
      revert Hr. apply (fails_only_rmap (λ e, e = IndexError ∨ e = ValueError)).
      intros field e1. apply read_field_fails.
  - intros rt c Hrt Hc Hlen.
    destruct (rmap (read_field trim (data_pattern o)) required) as [ns|e0] eqn:Hr.
    + exfalso.
      destruct (rmap_ok_all _ _ _ "retained" Hr) as [n Hn]; [unfold required; in_list|].
      unfold read_field in Hn. rewrite (retained_line rt c o Hrt Hc) in Hn.
      assert (Hidx : py_index trim (Z.of_nat (lines_needed rt c) - 1) = Err IndexError).
      { unfold py_index. rewrite bool_decide_eq_true_2 by (destruct rt, c; simpl; lia).
        rewrite lookup_ge_None_2; [done|]. destruct rt, c; simpl in *; lia. }
      by rewrite Hidx in Hn.
    + destruct (set_trim_stat_unread _ _ _ Hr) as [rd Hrun].
      exists e0, (with_result_data rd o). split; [exact Hrun|].
      revert Hr. apply (fails_only_rmap (λ e, e = IndexError ∨ e = ValueError)).
      intros field e1. apply read_field_fails.
Qed.

(** ** Reading the blocks of a settings file *)

Lemma read_blocks_cons line rest sd bt :
  read_blocks (line :: rest) sd bt
  = let line' := rstrip (one_of NL) line in
    if is_empty line' then read_blocks rest sd bt
    else match bt with
         | None => rbind (to_header sd line') (λ '(sd, bt), read_blocks rest sd bt)
         | Some title =>
             if is_empty title
             then rbind (to_header sd line') (λ '(sd, bt), read_blocks rest sd bt)
             else if startswith "[" line' then
               read_blocks rest (<[strip (one_of "[]") line' := []]> sd)
                 (Some (strip (one_of "[]") line'))
             else rbind (append_line sd title line') (λ sd, read_blocks rest sd bt)
         end.
Proof. reflexivity. Qed.

(** Lines that open no block are appended to the current block, blank
    lines apart. *)
Lemma read_blocks_body body : ∀ rest sd t l,
  is_empty t = false → sd !! t = Some l →
  Forall (λ line, startswith "[" (rstrip (one_of NL) line) = false) body →
  read_blocks (body ++ rest) sd (Some t)
  = read_blocks rest
      (<[t := (l ++ filter (λ s, is_empty s = false)
                      (rstrip (one_of NL) <$> body))%list]> sd) (Some t).
Proof.
  induction body as [|line body IH]; intros rest sd t l Ht Hl Hall.
  - simpl. rewrite app_nil_r. by rewrite insert_id.
  - apply Forall_cons in Hall as [Hline Hall].
    rewrite <- app_comm_cons, read_blocks_cons. cbv zeta.
    rewrite fmap_cons, filter_cons.
    destruct (is_empty (rstrip (one_of NL) line)) eqn:He.
    + rewrite decide_False by done. by apply IH.
    + rewrite decide_True by done. rewrite Ht, Hline.
      unfold append_line. rewrite Hl. simpl.
      rewrite (IH rest _ t (l ++ [rstrip (one_of NL) line])%list Ht
                 (lookup_insert_eq _ _ _) Hall).
      by rewrite insert_insert_eq, <- app_assoc.
Qed.

(** X11: a line that starts with a bracket and whose title, the line
    without its brackets, is not empty, read while a block is open, opens
    the block of that title; the block then holds the lines that follow up
    to the next bracket line, without their newline and without the blank
    ones, and replaces a block of the same title read before. *)
Theorem bracket_line_opens_block (title_line : string) (body rest : list string)
    (settings_data : gmap string (list string)) (current : string) :
  is_empty current = false →
  startswith "[" (rstrip (one_of NL) title_line) = true →
  is_empty (strip (one_of "[]") (rstrip (one_of NL) title_line)) = false →
  Forall (λ line, startswith "[" (rstrip (one_of NL) line) = false) body →
  read_blocks (title_line :: body ++ rest) settings_data (Some current)
  = read_blocks rest
      (<[strip (one_of "[]") (rstrip (one_of NL) title_line) :=
           filter (λ s, is_empty s = false) (rstrip (one_of NL) <$> body)]>
         settings_data)
      (Some (strip (one_of "[]") (rstrip (one_of NL) title_line))).
Proof.
  intros Hcur Hbr Ht Hall. rewrite read_blocks_cons. cbv zeta.
  assert (He : is_empty (rstrip (one_of NL) title_line) = false).
  { by destruct (rstrip (one_of NL) title_line). }
  rewrite He, Hcur, Hbr.
  rewrite (read_blocks_body body rest _ _ [] Ht (lookup_insert_eq _ _ _) Hall).
  by rewrite insert_insert_eq.
Qed.

(** A bracket line with an empty title, such as [[]], opens no block for
    the lines that follow: it stores an empty block under the empty title,
    and the next line that is not blank is appended to [header], which
    becomes the current block again. *)
Lemma empty_title_goes_to_header (title_line next : string) (rest : list string)
    (settings_data : gmap string (list string)) (current : string)
    (header : list string) :
  is_empty current = false →
  startswith "[" (rstrip (one_of NL) title_line) = true →
  strip (one_of "[]") (rstrip (one_of NL) title_line) = "" →
  is_empty (rstrip (one_of NL) next) = false →
  settings_data !! "header" = Some header →
  read_blocks (title_line :: next :: rest) settings_data (Some current)
  = read_blocks rest
      (<["header" := (header ++ [rstrip (one_of NL) next])%list]>
         (<["" := []]> settings_data))
      (Some "header").
Proof.
  intros Hcur Hbr Ht Hnext Hh. rewrite read_blocks_cons. cbv zeta.
  assert (He : is_empty (rstrip (one_of NL) title_line) = false).
  { by destruct (rstrip (one_of NL) title_line). }
  rewrite He, Hcur, Hbr, Ht.
  rewrite read_blocks_cons. cbv zeta. rewrite Hnext.
  change (is_empty "") with true. cbv iota.
  unfold to_header, append_line.
  rewrite lookup_insert_ne by done. rewrite Hh. reflexivity.
Qed.

Lemma read_blocks_header lines : ∀ sd bt,
  is_Some (sd !! "header") →
  (∀ t, bt = Some t → is_empty t = false → is_Some (sd !! t)) →
  ∃ sd', read_blocks lines sd bt = Ok sd' ∧ is_Some (sd' !! "header").
Proof.
  induction lines as [|line rest IH]; intros sd bt Hh Hbt.
  - exists sd. by split.
  - rewrite read_blocks_cons. cbv zeta.
    destruct (is_empty (rstrip (one_of NL) line)); [by apply IH|].
    assert (Hhead : ∃ sd', rbind (to_header sd (rstrip (one_of NL) line))
                (λ '(sd0, bt0), read_blocks rest sd0 bt0) = Ok sd'
                ∧ is_Some (sd' !! "header")).
    { unfold to_header, append_line. destruct Hh as [l ->]. simpl.
      apply IH.
      - rewrite lookup_insert_eq. eauto.
      - intros t [= <-] _. rewrite lookup_insert_eq. eauto. }
    destruct bt as [title|]; [|done].
    destruct (is_empty title) eqn:Het; [done|].
    destruct (startswith "[" (rstrip (one_of NL) line)).
    + apply IH.
      * rewrite lookup_insert. case_decide; eauto.
      * intros t [= <-] _. rewrite lookup_insert_eq. eauto.
    + unfold append_line. destruct (Hbt title eq_refl Het) as [l ->]. simpl.
      apply IH.
      * rewrite lookup_insert. case_decide; eauto.
      * intros t [= <-] _. rewrite lookup_insert_eq. eauto.
Qed.

(** X12: the loop over the lines never fails, whatever the file holds: the
    block that a line is appended to is always there.  The result has a
    [header] block, to which the first line that is not blank goes, even
    one that starts with a bracket. *)
Theorem read_blocks_never_fails (lines : list string) :
  (∃ settings_data,
     read_blocks lines {["header" := []]} None = Ok settings_data ∧
     is_Some (settings_data !! "header")) ∧
  (∀ first rest,
     lines = first :: rest → is_empty (rstrip (one_of NL) first) = false →
     read_blocks lines {["header" := []]} None
     = read_blocks rest {["header" := [rstrip (one_of NL) first]]} (Some "header")).
Proof.
  split.
  - apply read_blocks_header.
    + rewrite lookup_singleton_eq. eauto.
    + intros t [=].
  - intros first rest -> He. rewrite read_blocks_cons. cbv zeta. rewrite He.
    unfold to_header, append_line. rewrite lookup_singleton_eq. simpl.
    by rewrite insert_singleton_eq.
Qed.

End WithFloat.
End AdapterRemovalMore.

Module PycoqcMore.
Import Pycoqc PycoqcSpec PycoqcReport DictFacts PycoqcFacts.

Section WithLoader.
Context {F : PyFloat}.
Variable yaml_load : string → option pyval.

(** ** The order of the samples and the log *)

Lemma first_occurrences_snoc names n :
  first_occurrences (names ++ [n])
  = if decide (n ∈ first_occurrences names) then first_occurrences names
    else (first_occurrences names ++ [n])%list.
Proof.
  unfold first_occurrences. rewrite reverse_app.
  change (reverse [n]) with [n]. cbn [app remove_dups].
  assert (Hiff : n ∈ reverse (remove_dups (reverse names)) ↔ n ∈ reverse names).
  { by rewrite elem_of_reverse, elem_of_remove_dups. }
  destruct (decide_rel elem_of n (reverse names)) as [Hin|Hin].
  - rewrite decide_True; [done|]. by apply Hiff.
  - rewrite decide_False; [by rewrite reverse_cons|]. by rewrite Hiff.
Qed.

Lemma load_files_snoc files f o :
  load_files yaml_load (files ++ [f]) o
  = bind (load_files yaml_load files) (λ _, load_file yaml_load tt f) o.
Proof.
  unfold load_files. rewrite for_each_app. unfold bind.
  destruct (for_each _ tt files o) as [[] o1|]; [|done].
  cbn [for_each]. unfold bind. by destruct (load_file yaml_load tt f o1) as [[] ?|].
Qed.

(** X13: after the loop the samples are in the order in which their names
    first occurred among the files, a repeated name keeping its first place. *)
Theorem samples_in_order_of_first_occurrence (files : list (File.t string))
    (o' : self) :
  load_files yaml_load files init_self = Returns tt o' →
  Dict.keys (pycoqc_data o') = first_occurrences (File.s_name <$> files).
Proof.
  revert o'. induction files as [|f files IH] using rev_ind; intros o'.
  - by intros [= <-].
  - rewrite load_files_snoc. intros H.
    apply bind_returns in H as ([] & o1 & H1 & H).
    rewrite load_file_run in H. destruct (yaml_load (File.f f)) as [data|]; [|done].
    injection H as <-. cbn [loaded pycoqc_data].
    rewrite keys_set, (IH _ H1), fmap_app. simpl.
    by rewrite first_occurrences_snoc.
Qed.

Lemma duplicates_ext files : ∀ s1 s2,
  (∀ n, n ∈ s1 ↔ n ∈ s2) → duplicates s1 files = duplicates s2 files.
Proof.
  induction files as [|f files IH]; intros s1 s2 Hs; [done|]. simpl.
  rewrite (IH (File.s_name f :: s1) (File.s_name f :: s2)).
  2:{ intros n. rewrite !elem_of_cons. by rewrite Hs. }
  destruct (decide (File.s_name f ∈ s1)) as [H1|H1].
  - rewrite decide_True; [done|]. by apply Hs.
  - rewrite decide_False; [done|]. by rewrite <- Hs.
Qed.

Lemma load_files_log files : ∀ o o',
  load_files yaml_load files o = Returns tt o' →
  log o' = (log o ++ ((λ f, (DEBUG, duplicate_message f))
                        <$> duplicates (Dict.keys (pycoqc_data o)) files))%list ∧
  (List.length (log o') + List.length (pycoqc_data o')
   = List.length (log o) + List.length (pycoqc_data o) + List.length files)%nat.
Proof.
  induction files as [|f files IH]; intros o o'.
  - intros [= <-]. simpl. rewrite app_nil_r. split; [done|lia].
  - rewrite load_files_cons. destruct (yaml_load (File.f f)) as [data|]; [|done].
    intros H. destruct (IH _ _ H) as [Hlog Hlen]. split.
    + rewrite Hlog. cbn [loaded log pycoqc_data duplicates].
      rewrite (duplicates_ext files _ (File.s_name f :: Dict.keys (pycoqc_data o))).
      2:{ intros n. rewrite elem_of_keys_set, elem_of_cons. done. }
      unfold Dict.contains.
      destruct (decide (File.s_name f ∈ Dict.keys (pycoqc_data o))) as [Hin|Hin].
      * rewrite bool_decide_eq_true_2 by (by apply get_is_Some).
        simpl. by rewrite <- app_assoc.
      * rewrite bool_decide_eq_false_2 by (by rewrite get_is_Some). done.
    + rewrite Hlen. cbn [loaded log pycoqc_data].
      assert (Hk : ∀ d : Dict.t pyval, List.length d = List.length (Dict.keys d)).
      { intros d. unfold Dict.keys. by rewrite length_fmap. }
      rewrite (Hk (Dict.set _ _ _)), keys_set, (Hk (pycoqc_data o)).
      unfold Dict.contains.
      destruct (decide (File.s_name f ∈ Dict.keys (pycoqc_data o))) as [Hin|Hin].
      * rewrite bool_decide_eq_true_2 by (by apply get_is_Some).
        rewrite length_app. simpl. lia.
      * rewrite bool_decide_eq_false_2 by (by rewrite get_is_Some).
        rewrite length_app. simpl. lia.
Qed.

(** X14: the log of the loop holds one debug message for each file whose
    sample name was seen before it, in the order of the files, and nothing
    else; so the messages and the samples together are as many as the
    files. *)
Theorem every_duplicate_is_logged_once (files : list (File.t string)) (o' : self) :
  load_files yaml_load files init_self = Returns tt o' →
  log o' = (λ f, (DEBUG, duplicate_message f)) <$> duplicates [] files ∧
  (List.length (log o') + List.length (pycoqc_data o') = List.length files)%nat.
Proof.
  intros H. apply load_files_log in H as [Hlog Hlen]. split; [exact Hlog|].
  simpl in Hlen. lia.
Qed.

(** X15: the first file that the loader rejects ends [__init__] with the
    loader's error: the files after it are not read, and the samples loaded
    before it are not reported. *)
Theorem yaml_error_aborts_init (pre post : list (File.t string)) (f : File.t string)
    (o1 : self) :
  load_files yaml_load pre init_self = Returns tt o1 →
  yaml_load (File.f f) = None →
  ∃ o, __init__ yaml_load (pre ++ f :: post) = Raises YAMLError o ∧
       pycoqc_data o = pycoqc_data o1.
Proof.
  intros Hpre Hf. unfold __init__. unfold bind at 1.
  unfold load_files at 1. rewrite for_each_app. unfold bind at 1.
  change (for_each (load_file yaml_load) tt pre init_self)
    with (load_files yaml_load pre init_self).
  rewrite Hpre.
  change (for_each (load_file yaml_load) tt (f :: post) o1)
    with (load_files yaml_load (f :: post) o1).
  rewrite load_files_cons, Hf.
  eexists. split; [reflexivity|]. by destruct (Dict.contains _ _).
Qed.

(** ** What [setup_data] returns *)

Lemma setup_sample_fields acc sample sd acc' :
  setup_sample acc sample sd = Ok acc' →
  ∃ row reads bases la lp qa qp,
    hist_plot sd "All Reads" "len_hist" = Ok la ∧
    hist_plot sd "Pass Reads" "len_hist" = Ok lp ∧
    hist_plot sd "All Reads" "qual_score_hist" = Ok qa ∧
    hist_plot sd "Pass Reads" "qual_score_hist" = Ok qp ∧
    acc' = {| data_for_table := Dict.set sample row (data_for_table acc);
              reads_data := Dict.set sample reads (reads_data acc);
              bases_data := Dict.set sample bases (bases_data acc);
              length_plot_all := Dict.set sample la (length_plot_all acc);
              length_plot_pass := Dict.set sample lp (length_plot_pass acc);
              qual_plot_all := Dict.set sample qa (qual_plot_all acc);
              qual_plot_pass := Dict.set sample qp (qual_plot_pass acc) |}.
Proof.
  unfold setup_sample.
  destruct (display (table_entries sd)) as [row|]; simpl; [|done].
  destruct (display (reads_entries sd)) as [reads|]; simpl; [|done].
  destruct (display (bases_entries sd)) as [bases|]; simpl; [|done].
  destruct (hist_plot sd "All Reads" "len_hist") as [la|]; simpl; [|done].
  destruct (hist_plot sd "Pass Reads" "len_hist") as [lp|]; simpl; [|done].
  destruct (hist_plot sd "All Reads" "qual_score_hist") as [qa|]; simpl; [|done].
  destruct (hist_plot sd "Pass Reads" "qual_score_hist") as [qp|]; simpl; [|done].
  intros [= <-]. by exists row, reads, bases, la, lp, qa, qp.
Qed.

Lemma setup_items_keyed items : ∀ acc ks st,
  keyed acc ks → NoDup (ks ++ items.*1) →
  setup_items items acc = Ok st → keyed st (ks ++ items.*1).
Proof.
  induction items as [|[s sd] items IH]; intros acc ks st Hk Hnd; simpl.
  - intros [= <-]. by rewrite app_nil_r.
  - destruct (setup_sample acc s sd) as [acc'|] eqn:Hs; simpl; [|done].
    intros H. rewrite cons_middle, app_assoc.
    apply (IH acc'); [| by rewrite <- app_assoc | exact H].
    apply setup_sample_fields in Hs as (? & ? & ? & ? & ? & ? & ? & _ & _ & _ & _ & ->).
    assert (Hs : s ∉ ks).
    { apply NoDup_app in Hnd as (_ & Hd & _). intros Hin. apply (Hd s Hin).
      simpl. apply list_elem_of_here. }
    destruct Hk as (K1 & K2 & K3 & K4 & K5 & K6 & K7).
    unfold keyed. cbn [data_for_table reads_data bases_data length_plot_all
      length_plot_pass qual_plot_all qual_plot_pass].
    rewrite !keys_set, K1, K2, K3, K4, K5, K6, K7.
    rewrite !decide_False by done. done.
Qed.

(** X16: the table, the two bar charts and the four line plots that
    [setup_data] returns hold exactly the samples of [pycoqc_data], in the
    same order. *)
Theorem setup_data_keeps_the_samples (files : list (File.t string)) (o : self)
    (st : setup) :
  load_files yaml_load files init_self = Returns tt o →
  setup_data o = Ok st →
  Dict.keys (data_for_table st) = Dict.keys (pycoqc_data o) ∧
  Dict.keys (reads_data st) = Dict.keys (pycoqc_data o) ∧
  Dict.keys (bases_data st) = Dict.keys (pycoqc_data o) ∧
  Dict.keys (length_plot_all st) = Dict.keys (pycoqc_data o) ∧
  Dict.keys (length_plot_pass st) = Dict.keys (pycoqc_data o) ∧
  Dict.keys (qual_plot_all st) = Dict.keys (pycoqc_data o) ∧
  Dict.keys (qual_plot_pass st) = Dict.keys (pycoqc_data o).
Proof.
  intros Hl Hs. apply load_files_keys in Hl as [Hnd _].
  specialize (Hnd init_self_NoDup).
  apply (setup_items_keyed (pycoqc_data o) empty_setup [] st); [done | done | exact Hs].
Qed.




(** ** An empty document *)

Lemma load_files_head files : ∀ o o' k v d,
  load_files yaml_load files o = Returns tt o' →
  pycoqc_data o = (k, v) :: d →
  Forall (λ g, File.s_name g ≠ k) files →
  ∃ d', pycoqc_data o' = (k, v) :: d'.
Proof.
  induction files as [|f files IH]; intros o o' k v d.
  - intros [= <-] ->. eauto.
  - rewrite load_files_cons. destruct (yaml_load (File.f f)) as [data|]; [|done].
    intros H Hd Hall. apply Forall_cons in Hall as [Hne Hall].
    eapply (IH _ _ k v); [exact H | | exact Hall].
    cbn [loaded pycoqc_data]. rewrite Hd. cbn [Dict.set].
    rewrite decide_False by done. reflexivity.
Qed.

(** X18: when the loader returns [None] for the first file, as it does for
    an empty document, and no later file replaces that sample, [__init__]
    ends with [TypeError]: [setup_data] subscripts [None]. *)
Theorem empty_document_is_type_error (f : File.t string) (rest : list (File.t string))
    (o : self) :
  yaml_load (File.f f) = Some PNone →
  Forall (λ g, File.s_name g ≠ File.s_name f) rest →
  load_files yaml_load (f :: rest) init_self = Returns tt o →
  setup_data o = Err TypeError ∧
  __init__ yaml_load (f :: rest) = Raises TypeError o.
Proof.
  intros Hf Hrest Hl.
  assert (Hs : setup_data o = Err TypeError).
  { pose proof Hl as Hl'. rewrite load_files_cons, Hf in Hl'.
    destruct (load_files_head rest _ _ (File.s_name f) PNone [] Hl' eq_refl Hrest)
      as [d' Hd].
    unfold setup_data. rewrite Hd. reflexivity. }
  split; [exact Hs|].
  unfold __init__, bind. rewrite Hl. unfold get.
  rewrite bool_decide_eq_false_2.
  2:{ pose proof Hl as Hl'. rewrite load_files_cons, Hf in Hl'.
      destruct (load_files_head rest _ _ (File.s_name f) PNone [] Hl' eq_refl Hrest)
        as [d' Hd]. by rewrite Hd. }
  by rewrite Hs.
Qed.

End WithLoader.
End PycoqcMore.

(** ** The claims on sample inputs *)

Module Witnesses.
Import Examples Binary64Facts AdapterRemovalSpec PycoqcSpec AdapterRemovalFacts PycoqcFacts ModuleFacts.

Lemma set_ar_type_classification_witness :
  let o' := outcome_state
    (AdapterRemoval.set_ar_type
       [tabbed ["Length"; "Mate1"; "Mate2"; "Singleton"; "Collapsed";
                "CollapsedTruncated"; "Discarded"; "All"]]
       AdapterRemoval.init_self) in
  AdapterRemoval.__read_type o' = Some AdapterRemoval.paired ∧
  AdapterRemoval.__collapsed o' = Some true.
Proof.
  destruct (set_ar_type_classification (F := binary64) AdapterRemoval.init_self
              (tabbed ["Length"; "Mate1"; "Mate2"; "Singleton"; "Collapsed";
                       "CollapsedTruncated"; "Discarded"; "All"])
              [] "Mate2" "CollapsedTruncated")
    as (H1 & _ & H3 & _); [vm_compute; reflexivity | vm_compute; reflexivity |].
  split; [by apply H1 | by apply H3].
Defined.

Lemma unsupported_file_skipped_witness :
  unsupported f_unsupported ∧
  ∃ o', AdapterRemoval.process_file (F := binary64) None f_unsupported
          AdapterRemoval.init_self = Returns None o' ∧
        AdapterRemoval.adapter_removal_data o' = ∅.
Proof.
  assert (Hu : unsupported f_unsupported) by (vm_compute; reflexivity).
  split; [exact Hu|].
  destruct (unsupported_file_skipped (F := binary64) f_unsupported None
              AdapterRemoval.init_self Hu) as (_ & o' & Hp & Ha & _).
  exists o'. split; [exact Hp | exact Ha].
Defined.



Lemma length_distribution_recorded_witness :
  ∃ d o',
    AdapterRemoval.parse_settings_file (F := binary64) f_paired
      (AdapterRemoval.with_s_name "s1" AdapterRemoval.init_self) = Returns d o' ∧
    dom (AdapterRemoval.len_dist_plot_data o') = list_to_set AdapterRemoval.categories ∧
    recorded o' AdapterRemoval.paired true 30 [30; 1; 2; 3; 4; 5; 6; 21].
Proof.
  destruct (returned_true (AdapterRemoval.parse_settings_file (F := binary64) f_paired
              (AdapterRemoval.with_s_name "s1" AdapterRemoval.init_self)))
    as (d & o' & Hp); [vm_compute; reflexivity|].
  destruct (length_distribution_recorded f_paired AdapterRemoval.init_self d o'
              (reachable_init (F := binary64)) Hp)
    as (sd & first & rows & rt & c & Hsd & Hld & Hcl & _ & Hdom & _ & _ & Hrec).
  exists d, o'. split; [exact Hp|]. split; [exact Hdom|].
  pose proof (f_equal (λ r, match r with
                           | Ok m => m !! "Length distribution"
                           | Err _ => None
                           end) Hsd) as Hrows.
  cbv beta iota in Hrows. rewrite Hld in Hrows.
  vm_compute in Hrows. injection Hrows as <- <-.
  vm_compute in Hcl. injection Hcl as <- <-.
  eapply (Hrec [_] _ []); [reflexivity | vm_compute; reflexivity | reflexivity |].
  intros line' r Hin. destruct (not_elem_of_nil line' Hin).
Defined.

Lemma setup_data_projection_witness :
  ∃ o st row,
    Pycoqc.load_files (F := binary64) loader [fa; fc; fb] Pycoqc.init_self
      = Returns tt o ∧
    Pycoqc.setup_data o = Ok st ∧
    Dict.get "x" (Pycoqc.data_for_table st) = Some row ∧
    row !! "all_n50" = Some (PInt 10) ∧
    row !! "passed_median_read_length" = Some (PInt 557).
Proof.
  destruct (returned_true
              (Pycoqc.load_files (F := binary64) loader [fa; fc; fb] Pycoqc.init_self))
    as ([] & o & Hl); [vm_compute; reflexivity|].
  assert (Hg : Dict.get "x" (Pycoqc.pycoqc_data o) = Some (doc 7)).
  { apply (load_files_last loader [fa; fc] fb [] _ _ Hl).
    intros g Hg. destruct (not_elem_of_nil g Hg). }
  destruct (setup_data_projection loader _ _ _ _ Hl Hg) as [_ Hrow].
  destruct (is_ok_true (Pycoqc.setup_data o)) as [st Hst].
  { change o with (outcome_state (Returns tt o)). rewrite <- Hl.
    vm_compute. reflexivity. }
  destruct (Hrow st Hst)
    as (row & Hr & _ & _ & _ & (v1 & E1 & R1) & _ & _ & _ & _ & (v2 & E2 & R2) & _).
  exists o, st, row. split; [exact Hl|]. split; [exact Hst|]. split; [exact Hr|].
  injection E1 as <-. injection E2 as <-.
  split; [exact R1 | exact R2].
Defined.

Lemma passed_and_non_passed_add_up_witness :
  ∃ st o reads bases,
    Pycoqc.__init__ (F := binary64) loader [fa; fc; fb] = Returns st o ∧
    Dict.get "x" (Pycoqc.reads_data st) = Some reads ∧
    Dict.get "x" (Pycoqc.bases_data st) = Some bases ∧
    reads !! "passed_reads" = Some (PInt 80) ∧
    reads !! "non_passed_reads" = Some (PInt 20) ∧
    bases !! "passed_bases" = Some (PInt 4500) ∧
    bases !! "non_passed_bases" = Some (PInt 500).
Proof.
  destruct (returned_true (Pycoqc.__init__ (F := binary64) loader [fa; fc; fb]))
    as (st & o & Hi); [vm_compute; reflexivity|].
  assert (Hg : Dict.get "x" (Pycoqc.pycoqc_data o) = Some (doc 7)).
  { pose proof Hi as (Hl & _ & _)%pycoqc_init_returns.
    apply (load_files_last loader [fa; fc] fb [] _ _ Hl).
    intros g Hg. destruct (not_elem_of_nil g Hg). }
  destruct (passed_and_non_passed_add_up loader _ _ _ _ _ 100 80 5000 4500 Hi Hg)
    as (reads & bases & npr & npb & Hr & Hb & R1 & R2 & B1 & B2 & -> & -> & _);
    try reflexivity.
  exists st, o, reads, bases. split; [exact Hi|].
  split; [exact Hr|]. split; [exact Hb|]. split; [exact R1|]. split; [exact R2|].
  split; [exact B1 | exact B2].
Defined.

Lemma duplicate_sample_name_last_wins_witness :
  ∃ o',
    Pycoqc.load_files (F := binary64) loader [fa; fc; fb] Pycoqc.init_self
      = Returns tt o' ∧
    Dict.get "x" (Pycoqc.pycoqc_data o') = Some (doc 7) ∧
    (DEBUG, Pycoqc.duplicate_message fb) ∈ Pycoqc.log o' ∧
    NoDup (Dict.keys (Pycoqc.pycoqc_data o')).
Proof.
  destruct (duplicate_sample_name_last_wins (F := binary64) loader [] fa [fc] fb [])
    as (o' & Hl & Hg & Hlog & Hnd & _).
  - reflexivity.
  - apply Forall_nil_2.
  - repeat (apply Forall_cons; split; [eexists; reflexivity|]).
    apply Forall_nil_2.
  - exists o'. split; [exact Hl|]. split; [exact Hg|]. split; [exact Hlog | exact Hnd].
Defined.

Lemma records_independent_of_earlier_files_witness :
  (let o2 := outcome_state
       (AdapterRemoval.process_file (F := binary64) None f_paired
          AdapterRemoval.init_self) in
   let r1 := AdapterRemoval.parse_settings_file f_short
       (AdapterRemoval.with_s_name "s3" AdapterRemoval.init_self) in
   let r2 := AdapterRemoval.parse_settings_file f_short
       (AdapterRemoval.with_s_name "s3" o2) in
   observed r1 = observed r2 ∧
   ∀ cat, entries (outcome_state r1) cat = entries (outcome_state r2) cat) ∧
  ∃ st1 o1 st2 o2,
    Pycoqc.__init__ (F := binary64) loader [fa; fc; fb] = Returns st1 o1 ∧
    Pycoqc.__init__ (F := binary64) loader [fb] = Returns st2 o2 ∧
    is_Some (Dict.get "x" (Pycoqc.data_for_table st1)) ∧
    Dict.get "x" (Pycoqc.data_for_table st1) = Dict.get "x" (Pycoqc.data_for_table st2).
Proof.
  destruct (records_independent_of_earlier_files (F := binary64) loader) as [HA HP].
  split.
  - intros o2 r1 r2.
    destruct (HA f_short AdapterRemoval.init_self o2) as (Hobs & _ & _ & Hnew).
    + apply reachable_init.
    + destruct (returned_true (AdapterRemoval.process_file (F := binary64) None
                  f_paired AdapterRemoval.init_self)) as (r & o & Hp);
        [vm_compute; reflexivity|].
      subst o2. rewrite Hp. cbn [outcome_state].
      eapply reachable_step; [apply reachable_init | exact Hp].
    + split; [exact Hobs|]. apply Hnew; vm_compute; reflexivity.
  - destruct (returned_true (Pycoqc.__init__ (F := binary64) loader [fa; fc; fb]))
      as (st1 & o1 & H1); [vm_compute; reflexivity|].
    destruct (returned_true (Pycoqc.__init__ (F := binary64) loader [fb]))
      as (st2 & o2 & H2); [vm_compute; reflexivity|].
    destruct (HP [fa; fc] [] [] [] fb st1 st2 o1 o2 H1 H2)
      as (_ & _ & Hs & Ht & _); [apply Forall_nil_2 | apply Forall_nil_2 |].
    exists st1, o1, st2, o2. split; [exact H1|]. split; [exact H2|].
    split; [exact Hs | exact Ht].
Defined.

(** C7: the length-distribution entries of a sample are not a function of
    its file alone.  [f_long] and [f_short] have the same sample name.
    Processing [f_short] alone leaves, for that name, the count of length 30
    and no entry for length 31, which [f_short] does not list; processing
    [f_short] after [f_long] leaves the count of [f_short] for length 30
    and still the count of [f_long] for length 31. *)
Lemma length_entries_depend_on_earlier_file :
  ∃ r1 o1 r2 o2,
    AdapterRemoval.process_files (F := binary64) [f_short]
      AdapterRemoval.init_self = Returns r1 o1 ∧
    AdapterRemoval.process_files (F := binary64) [f_long; f_short]
      AdapterRemoval.init_self = Returns r2 o2 ∧
    AdapterRemoval.s_name o1 = File.s_name f_short ∧
    AdapterRemoval.s_name o2 = File.s_name f_short ∧
    entry o1 "mate1" 30 = Some 1 ∧
    entry o2 "mate1" 30 = Some 1 ∧
    entry o1 "mate1" 31 = None ∧
    entry o2 "mate1" 31 = Some 1.
Proof.
  destruct (returned_true (AdapterRemoval.process_files (F := binary64) [f_short]
              AdapterRemoval.init_self)) as (r1 & o1 & H1); [vm_compute; reflexivity|].
  destruct (returned_true (AdapterRemoval.process_files (F := binary64)
              [f_long; f_short] AdapterRemoval.init_self)) as (r2 & o2 & H2);
    [vm_compute; reflexivity|].
  exists r1, o1, r2, o2. split; [exact H1|]. split; [exact H2|].
  change o1 with (outcome_state (Returns r1 o1)).
  change o2 with (outcome_state (Returns r2 o2)).
  rewrite <- H1, <- H2.
  split_and!; vm_compute; reflexivity.
Qed.


End Witnesses.

(** ** The further properties on sample inputs *)

Module MoreWitnesses.
Import Examples MoreExamples Binary64Facts.
Import AdapterRemovalSpec AdapterRemovalReport PycoqcSpec PycoqcReport.
Import AdapterRemovalFacts PycoqcFacts AdapterRemovalMore PycoqcMore.

Lemma malformed_file_aborts_init_witness :
  ∃ o', AdapterRemoval.__init__ (F := binary64) "dir"
          [f_paired; f_no_lengths; f_short] = Raises KeyError o'.
Proof.
  destruct (returned_true (AdapterRemoval.process_files (F := binary64) [f_paired]
              AdapterRemoval.init_self)) as (r & o & Hpre); [vm_compute; reflexivity|].
  destruct (raised_some (AdapterRemoval.parse_settings_file f_no_lengths
              (AdapterRemoval.with_s_name (File.s_name f_no_lengths) o)) KeyError)
    as [o' Hp].
  { change o with (outcome_state (Returns r o)). rewrite <- Hpre.
    vm_compute. reflexivity. }
  exists o'.
  apply (malformed_file_aborts_init "dir" [f_paired] [f_short] f_no_lengths
           r o o' KeyError Hpre Hp).
  discriminate.
Defined.

Lemma missing_block_raises_witness :
  ∃ o', AdapterRemoval.parse_settings_file (F := binary64) f_no_lengths
          AdapterRemoval.init_self = Raises KeyError o'.
Proof.
  destruct (read_blocks_ok (File.f f_no_lengths)) as [sd Hsd].
  destruct (missing_block_raises (F := binary64) f_no_lengths
              AdapterRemoval.init_self sd Hsd) as [H1 _].
  apply H1.
  pose proof (f_equal (λ r, match r with
                           | Ok m => m !! "Length distribution"
                           | Err _ => None
                           end) Hsd) as Hx.
  cbv beta iota in Hx. rewrite <- Hx. vm_compute. reflexivity.
Defined.

Lemma header_only_length_distribution_witness :
  ∃ d o',
    AdapterRemoval.parse_settings_file (F := binary64) f_header_only
      (AdapterRemoval.with_s_name "s5" AdapterRemoval.init_self) = Returns d o' ∧
    AdapterRemoval.len_dist_plot_data o'
    = AdapterRemoval.len_dist_plot_data (F := binary64) AdapterRemoval.init_self.
Proof.
  destruct (returned_true (AdapterRemoval.parse_settings_file (F := binary64)
              f_header_only (AdapterRemoval.with_s_name "s5" AdapterRemoval.init_self)))
    as (d & o' & Hp); [vm_compute; reflexivity|].
  destruct (read_blocks_ok (File.f f_header_only)) as [sd Hsd].
  pose proof (f_equal (λ r, match r with
                           | Ok m => m !! "Length distribution"
                           | Err _ => None
                           end) Hsd) as Hx.
  cbv beta iota in Hx. vm_compute in Hx.
  exists d, o'. split; [exact Hp|].
  exact (header_only_length_distribution _ _ _ _ _ _ Hsd (eq_sym Hx) Hp).
Defined.

Lemma parsed_record_is_complete_witness :
  ∃ d o' n,
    AdapterRemoval.parse_settings_file (F := binary64) f_short
      (AdapterRemoval.with_s_name "s3" AdapterRemoval.init_self) = Returns d o' ∧
    d !! "retained_reads" = Some (PInt n) ∧ is_Some (d !! "percent_aligned").
Proof.
  destruct (returned_true (AdapterRemoval.parse_settings_file (F := binary64)
              f_short (AdapterRemoval.with_s_name "s3" AdapterRemoval.init_self)))
    as (d & o' & Hp); [vm_compute; reflexivity|].
  destruct (parsed_record_is_complete _ _ _ _ Hp) as (_ & _ & _ & Hc & Hs).
  rewrite Forall_forall in Hc. rewrite Forall_forall in Hs.
  destruct (Hc "retained_reads") as [n Hn];
    [unfold cats_pec; repeat first [apply list_elem_of_here | apply list_elem_of_further]|].
  exists d, o', n. split; [exact Hp|]. split; [exact Hn|].
  apply Hs. apply list_elem_of_here.
Defined.

Lemma unread_fields_are_zero_witness :
  ∃ d o',
    AdapterRemoval.parse_settings_file (F := binary64) f_short
      (AdapterRemoval.with_s_name "s3" AdapterRemoval.init_self) = Returns d o' ∧
    d !! "discarded_m2" = Some (PInt 0) ∧ d !! "truncated_cp" = Some (PInt 0).
Proof.
  destruct (returned_true (AdapterRemoval.parse_settings_file (F := binary64)
              f_short (AdapterRemoval.with_s_name "s3" AdapterRemoval.init_self)))
    as (d & o' & Hp); [vm_compute; reflexivity|].
  destruct (unread_fields_are_zero _ _ _ _ Hp) as [Hsingle _].
  destruct Hsingle as (H1 & _ & _ & H4).
  { change o' with (outcome_state (Returns d o')). rewrite <- Hp.
    vm_compute. reflexivity. }
  exists d, o'. split; [exact Hp|]. split; [exact H1 | exact H4].
Defined.

Lemma length_plot_datasets_aligned_witness :
  ∃ o datasets,
    reachable (F := binary64) o ∧ lineplot_data o = Ok datasets ∧
    List.length datasets = 7%nat.
Proof.
  destruct (returned_true (AdapterRemoval.process_file (F := binary64) None f_paired
              AdapterRemoval.init_self)) as (r & o & Hp); [vm_compute; reflexivity|].
  assert (Hr : reachable o) by (eapply reachable_step; [apply reachable_init | exact Hp]).
  destruct (length_plot_datasets_aligned o Hr) as (datasets & Hd & Hlen & _).
  exists o, datasets. split; [exact Hr|]. split; [exact Hd | exact Hlen].
Defined.

Lemma reported_samples_are_the_supported_files_witness :
  supported_names [f_paired; f_unsupported; f_short] = ["s1"; "s3"] ∧
  ∃ r o',
    AdapterRemoval.process_files (F := binary64) [f_paired; f_unsupported; f_short]
      AdapterRemoval.init_self = Returns r o' ∧
    dom (AdapterRemoval.adapter_removal_data o')
    = list_to_set (supported_names [f_paired; f_unsupported; f_short]).
Proof.
  split; [vm_compute; reflexivity|].
  destruct (returned_true (AdapterRemoval.process_files (F := binary64)
              [f_paired; f_unsupported; f_short] AdapterRemoval.init_self))
    as (r & o' & Hp); [vm_compute; reflexivity|].
  exists r, o'. split; [exact Hp|].
  exact (proj1 (reported_samples_are_the_supported_files _ _ _ Hp)).
Defined.


Lemma bracket_line_opens_block_witness :
  AdapterRemoval.read_blocks
    (line "[Trimming statistics]" :: [line "a: 1"; PyStr.NL; line "b: 2"] ++ [])
    {["header" := ["x"]]} (Some "header")
  = Ok (<["Trimming statistics" := ["a: 1"; "b: 2"]]> {["header" := ["x"]]}).
Proof.
  rewrite (bracket_line_opens_block (line "[Trimming statistics]")
             [line "a: 1"; PyStr.NL; line "b: 2"] [] {["header" := ["x"]]} "header");
    [vm_compute; reflexivity | reflexivity | vm_compute; reflexivity
    | vm_compute; reflexivity |].
  repeat (apply Forall_cons; split; [vm_compute; reflexivity|]). apply Forall_nil_2.
Defined.

Lemma samples_in_order_of_first_occurrence_witness :
  ∃ o', Pycoqc.load_files (F := binary64) loader [fa; fc; fb] Pycoqc.init_self
          = Returns tt o' ∧
        Dict.keys (Pycoqc.pycoqc_data o') = ["x"; "y"].
Proof.
  destruct (returned_true
              (Pycoqc.load_files (F := binary64) loader [fa; fc; fb] Pycoqc.init_self))
    as ([] & o' & Hl); [vm_compute; reflexivity|].
  exists o'. split; [exact Hl|].
  rewrite (samples_in_order_of_first_occurrence loader _ _ Hl).
  vm_compute. reflexivity.
Defined.

Lemma every_duplicate_is_logged_once_witness :
  ∃ o', Pycoqc.load_files (F := binary64) loader [fa; fc; fb] Pycoqc.init_self
          = Returns tt o' ∧
        Pycoqc.log o' = [(DEBUG, Pycoqc.duplicate_message fb)].
Proof.
  destruct (returned_true
              (Pycoqc.load_files (F := binary64) loader [fa; fc; fb] Pycoqc.init_self))
    as ([] & o' & Hl); [vm_compute; reflexivity|].
  exists o'. split; [exact Hl|].
  rewrite (proj1 (every_duplicate_is_logged_once loader _ _ Hl)).
  vm_compute. reflexivity.
Defined.

Lemma yaml_error_aborts_init_witness :
  ∃ o, Pycoqc.__init__ (F := binary64) loader ([fa] ++ f_bad :: [fc])
       = Raises YAMLError o.
Proof.
  destruct (returned_true
              (Pycoqc.load_files (F := binary64) loader [fa] Pycoqc.init_self))
    as ([] & o1 & Hl); [vm_compute; reflexivity|].
  destruct (yaml_error_aborts_init loader [fa] [fc] f_bad o1 Hl) as (o & H & _);
    [reflexivity|].
  exists o. exact H.
Defined.

Lemma setup_data_keeps_the_samples_witness :
  ∃ o st,
    Pycoqc.load_files (F := binary64) loader [fa; fc; fb] Pycoqc.init_self
      = Returns tt o ∧
    Pycoqc.setup_data o = Ok st ∧
    Dict.keys (Pycoqc.data_for_table st) = Dict.keys (Pycoqc.pycoqc_data o) ∧
    Dict.keys (Pycoqc.qual_plot_pass st) = Dict.keys (Pycoqc.pycoqc_data o).
Proof.
  destruct (returned_true
              (Pycoqc.load_files (F := binary64) loader [fa; fc; fb] Pycoqc.init_self))
    as ([] & o & Hl); [vm_compute; reflexivity|].
  destruct (is_ok_true (Pycoqc.setup_data o)) as [st Hst].
  { change o with (outcome_state (Returns tt o)). rewrite <- Hl.
    vm_compute. reflexivity. }
  destruct (setup_data_keeps_the_samples loader _ _ _ Hl Hst)
    as (H1 & _ & _ & _ & _ & _ & H7).
  exists o, st. split; [exact Hl|]. split; [exact Hst|]. split; [exact H1 | exact H7].
Defined.


Lemma empty_document_is_type_error_witness :
  ∃ o, Pycoqc.__init__ (F := binary64) loader_null [f_empty; fa] = Raises TypeError o.
Proof.
  destruct (returned_true
              (Pycoqc.load_files (F := binary64) loader_null [f_empty; fa]
                 Pycoqc.init_self))
    as ([] & o & Hl); [vm_compute; reflexivity|].
  exists o.
  apply (empty_document_is_type_error loader_null f_empty [fa] o);
    [reflexivity | | exact Hl].
  apply Forall_cons; split; [discriminate | apply Forall_nil_2].
Defined.

Lemma set_trim_stat_failures_witness :
  ∃ e o',
    AdapterRemoval.set_trim_stat (F := binary64) ["Total number of reads: 5"]
      single_mode = Raises e o' ∧
    (e = IndexError ∨ e = ValueError).
Proof.
  apply (proj2 (set_trim_stat_failures (F := binary64) ["Total number of reads: 5"]
                  single_mode) AdapterRemoval.single false eq_refl eq_refl).
  simpl. lia.
Defined.

End MoreWitnesses.
